(** * PFMO backend: the analytics aggregation and the heuristic analyser

    A shallow embedding of [app/routers/dashboard.py] (the function
    [get_detailed_analytics]), of [app/services/ai_service.py]
    ([analyze_issues_and_comments], [_basic_text_analysis],
    [analyze_patient_satisfaction], [predict_facility_needs],
    [detect_data_anomalies], [generate_insights_summary]), of
    [app/routers/ai_insights.py] ([get_submission_insights],
    [get_at_risk_facilities], [get_ai_recommendations], [analyze_text]) and
    of [FormSubmission.to_dict] from [app/models/submission.py].

    Modelling conventions.
    - A Python [str] is a Rocq [string]; the embedding covers ASCII text
      (bytes above 127 are treated as uncased, non-blank, non-digit).
    - A Python [int] is a [Z].
    - A Python [float] is a [pyfloat]: a finite value is carried by the
      rational it denotes, next to the two infinities and NaN.  The range of
      binary64 is kept (a finite result at or beyond the overflow threshold
      becomes an infinity, or raises where Python raises), its 53-bit
      rounding, underflow and signed zeros are not modelled.
    - A Python exception is a value of [exn]; code that can raise returns a
      [res].
    - A Python [dict] is an association list in insertion order; the JSON
      columns hold arbitrary [pyval]s. *)

From Stdlib Require Import ZArith QArith Qround Qabs Lqa Bool List String Ascii Lia.
From Stdlib Require Import Permutation Sorted DecimalString.
From Stdlib Require DecimalPos.
Import ListNotations.

Local Open Scope Z_scope.

(** ** Exceptions *)

Inductive exn : Type :=
| ValueError
| IndexError
| TypeError
| AttributeError
| OverflowError
| ZeroDivisionError.

Inductive res (A : Type) : Type :=
| Ok (a : A)
| Raise (e : exn).

Arguments Ok {A} a.
Arguments Raise {A} e.

Definition bind {A B : Type} (c : res A) (k : A -> res B) : res B :=
  match c with
  | Ok a => k a
  | Raise e => Raise e
  end.

Notation "x <- c ;; k" := (bind c (fun x => k))
  (at level 61, c at next level, right associativity).

(** ** Strings *)

Module PyStr.

Definition code (c : ascii) : nat := nat_of_ascii c.

Definition between (lo hi : nat) (c : ascii) : bool :=
  (Nat.leb lo (code c) && Nat.leb (code c) hi)%bool.

Definition is_upper : ascii -> bool := between 65 90.
Definition is_lower : ascii -> bool := between 97 122.
Definition is_digit : ascii -> bool := between 48 57.
Definition is_cased (c : ascii) : bool := (is_upper c || is_lower c)%bool.

(** [str.isspace] on ASCII: TAB..CR, FS..US and the blank; this is the set
    [str.split()] and [str.strip()] use. *)
Definition is_space (c : ascii) : bool :=
  (between 9 13 c || between 28 32 c)%bool.

(** The blanks [int()] and [float()] skip around a literal. *)
Definition is_c_space (c : ascii) : bool :=
  (between 9 13 c || between 32 32 c)%bool.

Definition to_lower (c : ascii) : ascii :=
  if is_upper c then ascii_of_nat (code c + 32) else c.

Definition to_upper (c : ascii) : ascii :=
  if is_lower c then ascii_of_nat (code c - 32) else c.

(** [s.lower()] *)
Fixpoint lower (s : string) : string :=
  match s with
  | EmptyString => EmptyString
  | String c s' => String (to_lower c) (lower s')
  end.

Fixpoint startswith (w s : string) : bool :=
  match w, s with
  | EmptyString, _ => true
  | String a w', String b s' => (Ascii.eqb a b && startswith w' s')%bool
  | String _ _, EmptyString => false
  end.

(** [w in s] *)
Fixpoint contains (w s : string) : bool :=
  (startswith w s ||
   match s with
   | EmptyString => false
   | String _ s' => contains w s'
   end)%bool.

(** [x in [..]] on a list of strings *)
Definition mem (x : string) (l : list string) : bool :=
  existsb (String.eqb x) l.

(** [s.replace(c, r)] for a one-character pattern *)
Fixpoint replace (c : ascii) (r : string) (s : string) : string :=
  match s with
  | EmptyString => EmptyString
  | String a s' =>
      if Ascii.eqb a c then (r ++ replace c r s')%string
      else String a (replace c r s')
  end.

(** [s.title()]: a cased character is upper-cased when the one before it is
    not cased, lower-cased otherwise. *)
Fixpoint title_from (prev_cased : bool) (s : string) : string :=
  match s with
  | EmptyString => EmptyString
  | String c s' =>
      if is_cased c
      then String (if prev_cased then to_lower c else to_upper c)
                  (title_from true s')
      else String c (title_from false s')
  end.

Definition title (s : string) : string := title_from false s.

Definition of_rev (tok : list ascii) : string :=
  string_of_list_ascii (rev tok).

(** [s.split()]: the maximal runs of non-blank characters, in order. [tok]
    is the run being read, last character first. *)
Fixpoint split_from (tok : list ascii) (s : string) : list string :=
  match s with
  | EmptyString =>
      match tok with
      | [] => []
      | _ :: _ => [of_rev tok]
      end
  | String c s' =>
      if is_space c
      then match tok with
           | [] => split_from [] s'
           | _ :: _ => of_rev tok :: split_from [] s'
           end
      else split_from (c :: tok) s'
  end.

Definition split (s : string) : list string := split_from [] s.

(** [l[0]] *)
Definition first {A : Type} (l : list A) : res A :=
  match l with
  | x :: _ => Ok x
  | [] => Raise IndexError
  end.

Fixpoint drop_while (p : ascii -> bool) (l : list ascii) : list ascii :=
  match l with
  | c :: l' => if p c then drop_while p l' else l
  | [] => []
  end.

Definition strip_list (p : ascii -> bool) (l : list ascii) : list ascii :=
  rev (drop_while p (rev (drop_while p l))).

(** [s.strip()] *)
Definition strip (s : string) : string :=
  string_of_list_ascii (strip_list is_space (list_ascii_of_string s)).

(** [s[:n]] *)
Fixpoint take (n : nat) (s : string) : string :=
  match n, s with
  | S n', String c s' => String c (take n' s')
  | _, _ => EmptyString
  end.

(** [str(z)] for an [int] *)
Definition of_Z (z : Z) : string := NilZero.string_of_int (Z.to_int z).

(** [sep.join(l)] *)
Fixpoint join (sep : string) (l : list string) : string :=
  match l with
  | [] => EmptyString
  | [x] => x
  | x :: l' => (x ++ sep ++ join sep l')%string
  end.

End PyStr.

(** ** Numbers *)

Module PyNum.

Import PyStr.

(** A Python [float]. [FInf true] is minus infinity. *)
Inductive pyfloat : Type :=
| FFin (q : Q)
| FInf (neg : bool)
| FNan.

(** A finite result of this magnitude or more rounds to an infinity in
    binary64: the midpoint between the largest double and [2^1024]. *)
Definition float_overflow : Z := 2 ^ 1024 - 2 ^ 970.

Definition overflows (q : Q) : bool :=
  Qle_bool (inject_Z float_overflow) (Qabs q).

Definition Qneg (q : Q) : bool := Z.ltb (Qnum q) 0.

Definition fnorm (q : Q) : pyfloat :=
  if overflows q then FInf (Qneg q) else FFin (Qred q).

Definition fzero : pyfloat := FFin 0.

Definition Qltb (x y : Q) : bool :=
  match Qcompare x y with
  | Lt => true
  | _ => false
  end.

(** [a < b] *)
Definition flt (a b : pyfloat) : bool :=
  match a, b with
  | FNan, _ | _, FNan => false
  | FFin x, FFin y => Qltb x y
  | FFin _, FInf neg => negb neg
  | FInf neg, FFin _ => neg
  | FInf n1, FInf n2 => (n1 && negb n2)%bool
  end.

(** [a <= b] *)
Definition fle (a b : pyfloat) : bool :=
  match a, b with
  | FNan, _ | _, FNan => false
  | FFin x, FFin y => Qle_bool x y
  | FFin _, FInf neg => negb neg
  | FInf neg, FFin _ => neg
  | FInf n1, FInf n2 => (n1 || negb n2)%bool
  end.

(** [bool(a)] *)
Definition ftruthy (a : pyfloat) : bool :=
  match a with
  | FFin q => negb (Qeq_bool q 0)
  | FInf _ | FNan => true
  end.

(** [a + b] *)
Definition fadd (a b : pyfloat) : pyfloat :=
  match a, b with
  | FNan, _ | _, FNan => FNan
  | FFin x, FFin y => fnorm (x + y)
  | FFin _, FInf n | FInf n, FFin _ => FInf n
  | FInf n1, FInf n2 => if Bool.eqb n1 n2 then FInf n1 else FNan
  end.

(** [float(z)] for an [int] *)
Definition float_of_Z (z : Z) : res pyfloat :=
  if overflows (inject_Z z) then Raise OverflowError
  else Ok (FFin (inject_Z z)).

(** [a / b] for two [int]s *)
Definition truediv_int (a b : Z) : res pyfloat :=
  if Z.eqb b 0 then Raise ZeroDivisionError
  else
    let q := (inject_Z a / inject_Z b)%Q in
    if overflows q then Raise OverflowError else Ok (FFin (Qred q)).

(** [a / d] for two [float]s *)
Definition fdiv (a d : pyfloat) : res pyfloat :=
  match d with
  | FFin y =>
      if Qeq_bool y 0 then Raise ZeroDivisionError
      else Ok match a with
              | FFin x => fnorm (x / y)
              | FInf neg => FInf (xorb neg (Qneg y))
              | FNan => FNan
              end
  | FInf _ =>
      Ok match a with
         | FFin _ => fzero
         | FInf _ | FNan => FNan
         end
  | FNan => Ok FNan
  end.

(** [a / n] for a [float] and an [int]: [n] is converted first. *)
Definition truediv_float (a : pyfloat) (n : Z) : res pyfloat :=
  d <- float_of_Z n ;; fdiv a d.

(** [a * n] for a [float] and a small [int] literal *)
Definition fmul_int (a : pyfloat) (n : Z) : pyfloat :=
  match a with
  | FFin x => fnorm (x * inject_Z n)
  | FInf neg =>
      if Z.eqb n 0 then FNan else FInf (xorb neg (Z.ltb n 0))
  | FNan => FNan
  end.

(** The integer nearest to [q], a tie going to the even one. *)
Definition round_half_even (q : Q) : Z :=
  let f := Qfloor q in
  match Qcompare (q - inject_Z f) (1 # 2) with
  | Lt => f
  | Gt => f + 1
  | Eq => if Z.even f then f else f + 1
  end.

(** [round(a, 2)] *)
Definition round2 (a : pyfloat) : pyfloat :=
  match a with
  | FFin q => FFin (Qred (inject_Z (round_half_even (q * 100)) / 100))
  | FInf _ | FNan => a
  end.

(** [int(a)] for a [float]: truncation towards zero *)
Definition int_of_float (a : pyfloat) : res Z :=
  match a with
  | FFin q => Ok (Z.quot (Qnum q) (Zpos (Qden q)))
  | FInf _ => Raise OverflowError
  | FNan => Raise ValueError
  end.

(** *** Numeric literals *)

Definition digit_val (c : ascii) : option Z :=
  if is_digit c then Some (Z.of_nat (code c) - 48) else None.

Definition underscore : ascii := "_"%char.

(** The rest of a [digitpart ::= digit (["_"] digit)*] after its first digit:
    the digits read and what is left unread. *)
Fixpoint digit_tail (s : list ascii) : list Z * list ascii :=
  match s with
  | [] => ([], [])
  | c :: s' =>
      match digit_val c with
      | Some d => let (ds, r) := digit_tail s' in (d :: ds, r)
      | None =>
          if Ascii.eqb c underscore
          then match s' with
               | c2 :: s'' =>
                   match digit_val c2 with
                   | Some d => let (ds, r) := digit_tail s'' in (d :: ds, r)
                   | None => ([], s)
                   end
               | [] => ([], s)
               end
          else ([], s)
      end
  end.

Definition digitpart (s : list ascii) : option (list Z * list ascii) :=
  match s with
  | c :: s' =>
      match digit_val c with
      | Some d => let (ds, r) := digit_tail s' in Some (d :: ds, r)
      | None => None
      end
  | [] => None
  end.

Definition Z_of_digits (ds : list Z) : Z :=
  fold_left (fun a d => 10 * a + d) ds 0.

(** An optional sign; [true] is minus. *)
Definition sign (s : list ascii) : bool * list ascii :=
  match s with
  | "+"%char :: r => (false, r)
  | "-"%char :: r => (true, r)
  | _ => (false, s)
  end.

Definition signed (neg : bool) (z : Z) : Z := if neg then - z else z.

(** [int(s)] in base 10: blanks around, an optional sign, one digitpart.
    (The interpreter's limit on the number of digits is not modelled.) *)
Definition int_of_string (s : string) : res Z :=
  let (neg, r) := sign (strip_list is_c_space (list_ascii_of_string s)) in
  match digitpart r with
  | Some (ds, []) => Ok (signed neg (Z_of_digits ds))
  | _ => Raise ValueError
  end.

(** [number ::= [digitpart] "." digitpart | digitpart ["."]]: the digits
    before and after the point, and what is left unread. *)
Definition number (s : list ascii)
  : option (list Z * list Z * list ascii) :=
  match digitpart s with
  | Some (ds, "."%char :: r) =>
      match digitpart r with
      | Some (fs, r') => Some (ds, fs, r')
      | None => Some (ds, [], r)
      end
  | Some (ds, r) => Some (ds, [], r)
  | None =>
      match s with
      | "."%char :: r =>
          match digitpart r with
          | Some (fs, r') => Some ([], fs, r')
          | None => None
          end
      | _ => None
      end
  end.

(** [exponent ::= ("e" | "E") [sign] digitpart], up to the end of the
    literal; no exponent is exponent 0. *)
Definition exponent (s : list ascii) : option Z :=
  match s with
  | [] => Some 0
  | c :: r =>
      if Ascii.eqb (to_lower c) "e"%char
      then let (neg, r') := sign r in
           match digitpart r' with
           | Some (es, []) => Some (signed neg (Z_of_digits es))
           | _ => None
           end
      else None
  end.

(** [m * 10^e] *)
Definition scale10 (m e : Z) : Q :=
  if Z.leb 0 e then inject_Z (m * 10 ^ e)
  else Qmake m (Z.to_pos (10 ^ (- e))).

(** [float(s)]: blanks around, an optional sign, then [inf], [infinity] or
    [nan] in any case, or a decimal literal. *)
Definition float_of_string (s : string) : res pyfloat :=
  let (neg, r) := sign (strip_list is_c_space (list_ascii_of_string s)) in
  let word := lower (string_of_list_ascii r) in
  if mem word ["inf"; "infinity"]%string then Ok (FInf neg)
  else if String.eqb word "nan" then Ok FNan
  else
    match number r with
    | Some (ds, fs, r') =>
        match exponent r' with
        | Some e =>
            let m := signed neg (Z_of_digits (ds ++ fs)) in
            Ok (fnorm (scale10 m (e - Z.of_nat (List.length fs))))
        | None => Raise ValueError
        end
    | None => Raise ValueError
    end.

(** *** Numbers of either kind *)

(** An [int] or a [float], as a list of mixed numbers holds them. *)
Inductive pynum : Type :=
| NInt (z : Z)
| NFloat (f : pyfloat).

(** [a + b]: an [int] met by a [float] is converted first. *)
Definition nadd (a b : pynum) : res pynum :=
  match a, b with
  | NInt x, NInt y => Ok (NInt (x + y))
  | NInt x, NFloat g => f <- float_of_Z x ;; Ok (NFloat (fadd f g))
  | NFloat f, NInt y => g <- float_of_Z y ;; Ok (NFloat (fadd f g))
  | NFloat f, NFloat g => Ok (NFloat (fadd f g))
  end.

(** [sum(l)] from the running sum [acc] *)
Fixpoint nsum_from (acc : pynum) (l : list pynum) : res pynum :=
  match l with
  | [] => Ok acc
  | x :: l' => s <- nadd acc x ;; nsum_from s l'
  end.

(** [sum(l)] *)
Definition nsum (l : list pynum) : res pynum := nsum_from (NInt 0) l.

(** [a / n] for an [int] [n] *)
Definition ndiv (a : pynum) (n : Z) : res pyfloat :=
  match a with
  | NInt x => truediv_int x n
  | NFloat f => truediv_float f n
  end.

(** The value a number is compared by: an [int] is compared with a [float]
    exactly, without conversion. *)
Definition value_of (a : pynum) : pyfloat :=
  match a with
  | NInt x => FFin (inject_Z x)
  | NFloat f => f
  end.

(** [a < q] and [q <= a] for a [float] literal [q] *)
Definition nlt (a : pynum) (q : Q) : bool := flt (value_of a) (FFin q).
Definition nge (a : pynum) (q : Q) : bool := fle (FFin q) (value_of a).

(** [round(a, 2)]: an [int] is returned as it is. *)
Definition nround2 (a : pynum) : pynum :=
  match a with
  | NInt x => NInt x
  | NFloat f => NFloat (round2 f)
  end.

End PyNum.

(** ** Values and records *)

Module PyVal.

Import PyStr PyNum.

(** What a JSON column or a [Dict[str, Any]] can hold. *)
#[warnings="-register-all"]
Inductive pyval : Type :=
| VNone
| VBool (b : bool)
| VInt (z : Z)
| VFloat (f : pyfloat)
| VStr (s : string)
| VList (l : list pyval)
| VDict (d : list (string * pyval)).

Definition pydict : Type := list (string * pyval).

(** The first binding of [k], as a [dict] with distinct keys has one. *)
Fixpoint lookup {V : Type} (k : string) (d : list (string * V)) : option V :=
  match d with
  | [] => None
  | (k', v) :: d' => if String.eqb k k' then Some v else lookup k d'
  end.

(** [d[k] = v]: in place when [k] is bound, at the end otherwise. *)
Fixpoint assign {V : Type} (k : string) (v : V) (d : list (string * V))
  : list (string * V) :=
  match d with
  | [] => [(k, v)]
  | (k', v') :: d' =>
      if String.eqb k k' then (k, v) :: d' else (k', v') :: assign k v d'
  end.

(** [d.get(k, default)] *)
Definition get_or {V : Type} (default : V) (k : string)
  (d : list (string * V)) : V :=
  match lookup k d with
  | Some v => v
  | None => default
  end.

(** [d.get(k)] *)
Definition get (k : string) (d : pydict) : pyval := get_or VNone k d.

(** [bool(v)] *)
Definition truthy (v : pyval) : bool :=
  match v with
  | VNone => false
  | VBool b => b
  | VInt z => negb (Z.eqb z 0)
  | VFloat f => ftruthy f
  | VStr s => negb (String.eqb s "")
  | VList l => match l with [] => false | _ :: _ => true end
  | VDict d => match d with [] => false | _ :: _ => true end
  end.

(** [v == s] for a string literal [s] *)
Definition eq_str (v : pyval) (s : string) : bool :=
  match v with
  | VStr t => String.eqb t s
  | _ => false
  end.

(** [str(v)] where [v] is [None], a [bool], an [int] or a [str].  The
    [repr] of a [float] and of a container is not spelled out: each caller
    says what it does with those. *)
Definition str_scalar (v : pyval) : option string :=
  match v with
  | VNone => Some "None"%string
  | VBool true => Some "True"%string
  | VBool false => Some "False"%string
  | VInt z => Some (of_Z z)
  | VStr s => Some s
  | VFloat _ | VList _ | VDict _ => None
  end.

Definition of_opt_str (o : option string) : pyval :=
  match o with
  | Some s => VStr s
  | None => VNone
  end.

Definition of_opt_float (o : option pyfloat) : pyval :=
  match o with
  | Some f => VFloat f
  | None => VNone
  end.

(** A truthy [Optional[str]] column *)
Definition present (o : option string) : bool := truthy (of_opt_str o).

End PyVal.

(** ** The stored record ([app/models/submission.py]) *)

Module Submission.

Import PyNum PyVal.

(** The columns of [FormSubmission] that the analytics and the analyser
    read.  The remaining columns (collector and officer details, file paths,
    timestamps, sync flags) are not read by any function embedded here. *)
Record FormSubmission : Type := {
  id : Z;
  geopolitical_zone : option string;
  state : option string;
  lga : option string;
  facility_name : option string;
  assessment_type : option string;
  has_health_workers : option string;
  facility_condition : option string;
  ownership_type : option string;
  latitude : option pyfloat;
  longitude : option pyfloat;
  funding_data : pyval;
  impact_funding_data : pyval;
  infrastructure_data : pyval;
  human_resources_data : pyval;
  services_data : pyval;
  satisfaction_survey_data : pyval;
  issues : option string;
  comments : option string
}.

(** [FormSubmission.to_dict], on the columns above and in its key order. *)
Definition to_dict (s : FormSubmission) : pydict :=
  [ ("id", VInt (id s));
    ("geopolitical_zone", of_opt_str (geopolitical_zone s));
    ("state", of_opt_str (state s));
    ("lga", of_opt_str (lga s));
    ("facility_name", of_opt_str (facility_name s));
    ("assessment_type", of_opt_str (assessment_type s));
    ("has_health_workers", of_opt_str (has_health_workers s));
    ("facility_condition", of_opt_str (facility_condition s));
    ("ownership_type", of_opt_str (ownership_type s));
    ("latitude", of_opt_float (latitude s));
    ("longitude", of_opt_float (longitude s));
    ("funding_data", funding_data s);
    ("impact_funding_data", impact_funding_data s);
    ("infrastructure_data", infrastructure_data s);
    ("human_resources_data", human_resources_data s);
    ("services_data", services_data s);
    ("satisfaction_survey_data", satisfaction_survey_data s);
    ("issues", of_opt_str (issues s));
    ("comments", of_opt_str (comments s)) ]%string.

(** A record with every column null. *)
Definition blank : FormSubmission := {|
  id := 0;
  geopolitical_zone := None; state := None; lga := None;
  facility_name := None; assessment_type := None;
  has_health_workers := None; facility_condition := None;
  ownership_type := None; latitude := None; longitude := None;
  funding_data := VNone; impact_funding_data := VNone;
  infrastructure_data := VNone; human_resources_data := VNone;
  services_data := VNone; satisfaction_survey_data := VNone;
  issues := None; comments := None |}.

End Submission.

(** ** The detailed analytics ([app/routers/dashboard.py]) *)

Module Dashboard.

Import PyStr PyNum PyVal Submission.

(** The loop's local variables, grouped by the sections the source's
    comments delimit. *)
Record categorical : Type := {
  condition_counts : list (string * Z);
  ownership_counts : list (string * Z);
  assessment_type_counts : list (string * Z);
  has_health_workers_counts : list (string * Z);
  zone_counts : list (string * Z)
}.

Record funding : Type := {
  bhcpf_facilities : Z;
  impact_facilities : Z;
  total_funding_amount : pyfloat;
  funding_by_state : list (string * pyfloat)
}.

(** The five fixed keys of the [infrastructure_stats] dict. *)
Record infrastructure : Type := {
  has_power : Z;
  has_water : Z;
  has_internet : Z;
  has_pharmacy : Z;
  revitalization_count : Z
}.

Record staffing : Type := {
  total_staff : Z;
  staff_by_type : list (string * Z);
  facilities_with_staff : Z
}.

Record services : Type := {
  total_patients : Z;
  services_offered : list (string * Z)
}.

Record satisfaction : Type := {
  satisfaction_scores : list pyfloat;
  satisfaction_by_category : list (string * list pyfloat)
}.

Record accumulators : Type := {
  cat : categorical;
  fund : funding;
  infra : infrastructure;
  hr : staffing;
  svc : services;
  sat : satisfaction
}.

Definition initial : accumulators := {|
  cat := {| condition_counts := []; ownership_counts := [];
            assessment_type_counts := []; has_health_workers_counts := [];
            zone_counts := [] |};
  fund := {| bhcpf_facilities := 0; impact_facilities := 0;
             total_funding_amount := fzero; funding_by_state := [] |};
  infra := {| has_power := 0; has_water := 0; has_internet := 0;
              has_pharmacy := 0; revitalization_count := 0 |};
  hr := {| total_staff := 0; staff_by_type := [];
           facilities_with_staff := 0 |};
  svc := {| total_patients := 0; services_offered := [] |};
  sat := {| satisfaction_scores := []; satisfaction_by_category := [] |}
|}.

(** [d[k] = d.get(k, 0) + n] *)
Definition add_to (k : string) (n : Z) (d : list (string * Z))
  : list (string * Z) :=
  assign k (get_or 0 k d + n) d.

(** [if field: d[field] = d.get(field, 0) + 1] *)
Definition tally (field : option string) (d : list (string * Z))
  : list (string * Z) :=
  match field with
  | Some k => if present field then add_to k 1 d else d
  | None => d
  end.

Definition categorical_step (sub : FormSubmission) (c : categorical)
  : categorical := {|
  condition_counts := tally (facility_condition sub) (condition_counts c);
  ownership_counts := tally (ownership_type sub) (ownership_counts c);
  assessment_type_counts :=
    tally (assessment_type sub) (assessment_type_counts c);
  has_health_workers_counts :=
    tally (has_health_workers sub) (has_health_workers_counts c);
  zone_counts := tally (geopolitical_zone sub) (zone_counts c)
|}.

(** [if block and isinstance(block, dict)] *)
Definition as_block (v : pyval) : option pydict :=
  match v with
  | VDict d => if truthy v then Some d else None
  | _ => None
  end.

(** [d.get(k1) == 'Yes' or d.get(k2)], as a condition *)
Definition yes_or (k1 k2 : string) (d : pydict) : bool :=
  (eq_str (get k1 d) "Yes" || truthy (get k2 d))%bool.

Definition incr_if (b : bool) (n : Z) : Z := if b then n + 1 else n.

(** [float(str(x).replace(',', ''))].  For a [float] [x], [str(x)] is its
    [repr], which has no comma and which [float] reads back as [x]; for a
    list or a dict [str(x)] opens with a bracket, which no literal does. *)
Definition amount_of (x : pyval) : res pyfloat :=
  match str_scalar x with
  | Some s => float_of_string (replace ","%char "" s)
  | None =>
      match x with
      | VFloat f => Ok f
      | _ => Raise ValueError
      end
  end.

(** [total_funding_amount += amount] and, [if sub.state], the same on
    [funding_by_state[sub.state]] *)
Definition add_amount (sub : FormSubmission) (amount : pyfloat) (f : funding)
  : funding := {|
  bhcpf_facilities := bhcpf_facilities f;
  impact_facilities := impact_facilities f;
  total_funding_amount := fadd (total_funding_amount f) amount;
  funding_by_state :=
    match state sub with
    | Some st =>
        if present (state sub)
        then assign st (fadd (get_or fzero st (funding_by_state f)) amount)
                    (funding_by_state f)
        else funding_by_state f
    | None => funding_by_state f
    end
|}.

(* Funding Data Analysis: the [funding_data] block *)
Definition bhcpf_step (sub : FormSubmission) (f : funding) : funding :=
  match as_block (funding_data sub) with
  | Some d =>
      let f1 := {|
        bhcpf_facilities :=
          incr_if (yes_or "bhcpf_received" "has_bhcpf" d)
                  (bhcpf_facilities f);
        impact_facilities := impact_facilities f;
        total_funding_amount := total_funding_amount f;
        funding_by_state := funding_by_state f |} in
      if truthy (get "amount" d)
      then
        match amount_of (get_or (VInt 0) "amount" d) with
        | Ok amount => add_amount sub amount f1
        | Raise _ => f1
        end
      else f1
  | None => f
  end.

(* Funding Data Analysis: the [impact_funding_data] block *)
Definition impact_step (sub : FormSubmission) (f : funding) : funding :=
  match as_block (impact_funding_data sub) with
  | Some d =>
      {| bhcpf_facilities := bhcpf_facilities f;
         impact_facilities :=
           incr_if (yes_or "received" "has_impact_funding" d)
                   (impact_facilities f);
         total_funding_amount := total_funding_amount f;
         funding_by_state := funding_by_state f |}
  | None => f
  end.

Definition funding_step (sub : FormSubmission) (f : funding) : funding :=
  impact_step sub (bhcpf_step sub f).

Definition infrastructure_step (sub : FormSubmission) (i : infrastructure)
  : infrastructure :=
  match as_block (infrastructure_data sub) with
  | Some d =>
      {| has_power :=
           incr_if (yes_or "has_power" "power_available" d) (has_power i);
         has_water :=
           incr_if (yes_or "has_water" "water_available" d) (has_water i);
         has_internet :=
           incr_if (yes_or "has_internet" "internet_available" d)
                   (has_internet i);
         has_pharmacy :=
           incr_if (yes_or "has_pharmacy" "pharmacy_available" d)
                   (has_pharmacy i);
         revitalization_count :=
           incr_if (yes_or "revitalization" "revitalized" d)
                   (revitalization_count i) |}
  | None => i
  end.

Definition has_any (markers : list string) (key : string) : bool :=
  existsb (fun m => contains m (lower key)) markers.

(** [key.replace('_', ' ').title()] *)
Definition label (key : string) : string :=
  title (replace "_"%char " " key).

(** [int(str(value).split()[0]) if isinstance(value, str) else int(value)] *)
Definition count_of (value : pyval) : res Z :=
  match value with
  | VStr s => tok <- first (split s) ;; int_of_string tok
  | VInt z => Ok z
  | VBool b => Ok (if b then 1 else 0)
  | VFloat f => int_of_float f
  | VNone | VList _ | VDict _ => Raise TypeError
  end.

(** One turn of the loop over [human_resources_data.items()]; the state is
    [facility_staff_count] and [staff_by_type]. *)
Definition staff_item (st : Z * list (string * Z)) (kv : string * pyval)
  : Z * list (string * Z) :=
  let (key, value) := kv in
  if has_any ["staff"; "personnel"; "worker"]%string key
  then
    match count_of value with
    | Ok count => (fst st + count, add_to (label key) count (snd st))
    | Raise _ => st
    end
  else st.

Definition staffing_step (sub : FormSubmission) (h : staffing) : staffing :=
  match as_block (human_resources_data sub) with
  | Some d =>
      let (facility_staff_count, by_type) :=
        fold_left staff_item d (0, staff_by_type h) in
      if Z.gtb facility_staff_count 0
      then {| total_staff := total_staff h + facility_staff_count;
              staff_by_type := by_type;
              facilities_with_staff := facilities_with_staff h + 1 |}
      else {| total_staff := total_staff h;
              staff_by_type := by_type;
              facilities_with_staff := facilities_with_staff h |}
  | None => h
  end.

Definition patient_item (total : Z) (kv : string * pyval) : Z :=
  let (key, value) := kv in
  if has_any ["patient"; "attendance"; "utilization"]%string key
  then
    match count_of value with
    | Ok count => total + count
    | Raise _ => total
    end
  else total.

Definition offered_item (offered : list (string * Z)) (kv : string * pyval)
  : list (string * Z) :=
  let (key, value) := kv in
  match value with
  | VStr s =>
      if mem (lower s) ["yes"; "true"; "available"]%string
      then add_to (label key) 1 offered
      else offered
  | _ => offered
  end.

Definition services_step (sub : FormSubmission) (s : services) : services :=
  match as_block (services_data sub) with
  | Some d =>
      {| total_patients := fold_left patient_item d (total_patients s);
         services_offered := fold_left offered_item d (services_offered s) |}
  | None => s
  end.

(** [float(value) if isinstance(value, (int, float))
     else float(str(value).split()[0])].  [str] of a list or of a dict is
    not empty and opens with a bracket, so its first token is no literal. *)
Definition score_of (value : pyval) : res pyfloat :=
  match value with
  | VInt z => float_of_Z z
  | VBool b => Ok (FFin (if b then 1 else 0))
  | VFloat f => Ok f
  | VList _ | VDict _ => Raise ValueError
  | VNone | VStr _ =>
      match str_scalar value with
      | Some s => tok <- first (split s) ;; float_of_string tok
      | None => Raise ValueError
      end
  end.

Definition satisfaction_item (s : satisfaction) (kv : string * pyval)
  : satisfaction :=
  let (key, value) := kv in
  if has_any ["satisfaction"; "rating"; "score"]%string key
  then
    match score_of value with
    | Ok score =>
        {| satisfaction_scores := satisfaction_scores s ++ [score];
           satisfaction_by_category :=
             assign (label key)
               (get_or [] (label key) (satisfaction_by_category s)
                ++ [score])
               (satisfaction_by_category s) |}
    | Raise _ => s
    end
  else s.

Definition satisfaction_step (sub : FormSubmission) (s : satisfaction)
  : satisfaction :=
  match as_block (satisfaction_survey_data sub) with
  | Some d => fold_left satisfaction_item d s
  | None => s
  end.

(** The body of [for sub in submissions]. *)
Definition step (a : accumulators) (sub : FormSubmission) : accumulators := {|
  cat := categorical_step sub (cat a);
  fund := funding_step sub (fund a);
  infra := infrastructure_step sub (infra a);
  hr := staffing_step sub (hr a);
  svc := services_step sub (svc a);
  sat := satisfaction_step sub (sat a)
|}.

Definition scan (submissions : list FormSubmission) : accumulators :=
  fold_left step submissions initial.

(** *** Ranking *)

Section Ranking.

Context {A K : Type} (ltb : K -> K -> bool) (key : A -> K).

(** [x] goes in front of the first element whose key is not below its
    own; only [<] on keys is used, as by Python's sort. *)
Fixpoint insert (x : A) (l : list A) : list A :=
  match l with
  | [] => [x]
  | y :: l' =>
      if ltb (key y) (key x) then y :: insert x l' else x :: y :: l'
  end.

(** An ascending sort that keeps elements with equal keys in order. *)
Definition sort_stable (l : list A) : list A := fold_right insert [] l.

(** [sorted(l, key=key, reverse=True)]: the list is reversed, sorted
    ascending and stably, and reversed again. *)
Definition sorted_reverse (l : list A) : list A :=
  rev (sort_stable (rev l)).

(** [sorted(l, key=key, reverse=True)[:10]] *)
Definition top10 (l : list A) : list A := firstn 10 (sorted_reverse l).

End Ranking.

(** *** The report *)

Module Report.

(** An entry [{<label>: name, "count": count, "percentage": percentage}];
    the label is "condition", "type", "status" or "service" and the count of
    a service is under "facilities". *)
Record share : Type := {
  name : string;
  count : Z;
  percentage : pyfloat
}.

Record facility_analysis : Type := {
  condition_distribution : list share;
  ownership_distribution : list share;
  assessment_type_distribution : list (string * Z);
  health_workers_distribution : list share;
  geopolitical_zone_distribution : list (string * Z)
}.

Record funding_analysis : Type := {
  bhcpf_facilities : Z;
  bhcpf_percentage : pyfloat;
  impact_facilities : Z;
  impact_percentage : pyfloat;
  total_funding_amount : pyfloat;
  average_funding_per_facility : pyfloat;
  funding_by_state : list (string * pyfloat)
}.

Record infrastructure_analysis : Type := {
  facilities_with_power : Z;
  power_percentage : pyfloat;
  facilities_with_water : Z;
  water_percentage : pyfloat;
  facilities_with_internet : Z;
  internet_percentage : pyfloat;
  facilities_with_pharmacy : Z;
  pharmacy_percentage : pyfloat;
  revitalized_facilities : Z;
  revitalization_percentage : pyfloat
}.

Record human_resources_analysis : Type := {
  total_staff : Z;
  facilities_with_staff : Z;
  average_staff_per_facility : pyfloat;
  staff_by_type : list (string * Z)
}.

Record services_utilization : Type := {
  total_patients : Z;
  average_patients_per_facility : pyfloat;
  top_services_offered : list share
}.

(** An entry [{"average": average, "count": responses}]. *)
Record category_scores : Type := {
  average : pyfloat;
  responses : Z
}.

Record patient_satisfaction : Type := {
  average_score : pyfloat;
  total_responses : Z;
  scores_by_category : list (string * category_scores)
}.

Record summary : Type := {
  total_facilities : Z;
  facilities_with_complete_data : Z;
  data_completeness_percentage : pyfloat
}.

Record t : Type := {
  facility : facility_analysis;
  funding : funding_analysis;
  infrastructure : infrastructure_analysis;
  human_resources : human_resources_analysis;
  utilization : services_utilization;
  satisfaction : patient_satisfaction;
  overall : summary
}.

End Report.

(** [round((v / total * 100) if total > 0 else 0, 2)] *)
Definition percent (v total : Z) : res pyfloat :=
  x <- (if Z.gtb total 0
        then q <- truediv_int v total ;; Ok (fmul_int q 100)
        else Ok fzero) ;;
  Ok (round2 x).

(** [round((x / n) if n > 0 else 0, 2)] for an [int] [x] *)
Definition average_int (x n : Z) : res pyfloat :=
  y <- (if Z.gtb n 0 then truediv_int x n else Ok fzero) ;;
  Ok (round2 y).

(** [round((x / n) if n > 0 else 0, 2)] for a [float] [x] *)
Definition average_float (x : pyfloat) (n : Z) : res pyfloat :=
  y <- (if Z.gtb n 0 then truediv_float x n else Ok fzero) ;;
  Ok (round2 y).

(** [sum(l)] *)
Definition fsum (l : list pyfloat) : pyfloat := fold_left fadd l fzero.

Definition len {A : Type} (l : list A) : Z := Z.of_nat (List.length l).

(** [round((sum(l) / len(l)) if l else 0, 2)] *)
Definition mean (l : list pyfloat) : res pyfloat :=
  y <- (match l with
        | [] => Ok fzero
        | _ :: _ => truediv_float (fsum l) (len l)
        end) ;;
  Ok (round2 y).

(** A comprehension whose element expression can raise: elements are
    computed in order and the first exception ends it. *)
Fixpoint for_each {A B : Type} (f : A -> res B) (l : list A) : res (list B) :=
  match l with
  | [] => Ok []
  | x :: l' => y <- f x ;; ys <- for_each f l' ;; Ok (y :: ys)
  end.

Definition share_of (total : Z) (kv : string * Z) : res Report.share :=
  p <- percent (snd kv) total ;;
  Ok {| Report.name := fst kv; Report.count := snd kv;
        Report.percentage := p |}.

Definition category_of (kv : string * list pyfloat)
  : res (string * Report.category_scores) :=
  m <- mean (snd kv) ;;
  Ok (fst kv, {| Report.average := m; Report.responses := len (snd kv) |}).

(** [s.facility_condition and s.ownership_type], as a condition *)
Definition complete (s : FormSubmission) : bool :=
  (present (facility_condition s) && present (ownership_type s))%bool.

(** [get_detailed_analytics], from the rows the query returned to the
    dictionary it answers with.  The fields are computed in the order the
    source writes them. *)
Definition get_detailed_analytics (submissions : list FormSubmission)
  : res Report.t :=
  let a := scan submissions in
  let total_submissions := len submissions in
  conditions <-
    for_each (share_of total_submissions) (condition_counts (cat a)) ;;
  ownerships <-
    for_each (share_of total_submissions) (ownership_counts (cat a)) ;;
  workers <-
    for_each (share_of total_submissions)
             (has_health_workers_counts (cat a)) ;;
  bhcpf_pct <- percent (bhcpf_facilities (fund a)) total_submissions ;;
  impact_pct <- percent (impact_facilities (fund a)) total_submissions ;;
  average_funding <-
    average_float (total_funding_amount (fund a)) total_submissions ;;
  power_pct <- percent (has_power (infra a)) total_submissions ;;
  water_pct <- percent (has_water (infra a)) total_submissions ;;
  internet_pct <- percent (has_internet (infra a)) total_submissions ;;
  pharmacy_pct <- percent (has_pharmacy (infra a)) total_submissions ;;
  revitalization_pct <-
    percent (revitalization_count (infra a)) total_submissions ;;
  average_staff <-
    average_int (total_staff (hr a)) (facilities_with_staff (hr a)) ;;
  average_patients <-
    average_int (total_patients (svc a)) total_submissions ;;
  top_services <-
    for_each (share_of total_submissions)
             (top10 Z.ltb snd (services_offered (svc a))) ;;
  average_score <- mean (satisfaction_scores (sat a)) ;;
  by_category <- for_each category_of (satisfaction_by_category (sat a)) ;;
  let complete_count := len (filter complete submissions) in
  completeness <- percent complete_count total_submissions ;;
  Ok {|
    Report.facility := {|
      Report.condition_distribution := conditions;
      Report.ownership_distribution := ownerships;
      Report.assessment_type_distribution := assessment_type_counts (cat a);
      Report.health_workers_distribution := workers;
      Report.geopolitical_zone_distribution := zone_counts (cat a) |};
    Report.funding := {|
      Report.bhcpf_facilities := bhcpf_facilities (fund a);
      Report.bhcpf_percentage := bhcpf_pct;
      Report.impact_facilities := impact_facilities (fund a);
      Report.impact_percentage := impact_pct;
      Report.total_funding_amount := round2 (total_funding_amount (fund a));
      Report.average_funding_per_facility := average_funding;
      Report.funding_by_state :=
        map (fun kv => (fst kv, round2 (snd kv)))
            (top10 flt snd (funding_by_state (fund a))) |};
    Report.infrastructure := {|
      Report.facilities_with_power := has_power (infra a);
      Report.power_percentage := power_pct;
      Report.facilities_with_water := has_water (infra a);
      Report.water_percentage := water_pct;
      Report.facilities_with_internet := has_internet (infra a);
      Report.internet_percentage := internet_pct;
      Report.facilities_with_pharmacy := has_pharmacy (infra a);
      Report.pharmacy_percentage := pharmacy_pct;
      Report.revitalized_facilities := revitalization_count (infra a);
      Report.revitalization_percentage := revitalization_pct |};
    Report.human_resources := {|
      Report.total_staff := total_staff (hr a);
      Report.facilities_with_staff := facilities_with_staff (hr a);
      Report.average_staff_per_facility := average_staff;
      Report.staff_by_type := top10 Z.ltb snd (staff_by_type (hr a)) |};
    Report.utilization := {|
      Report.total_patients := total_patients (svc a);
      Report.average_patients_per_facility := average_patients;
      Report.top_services_offered := top_services |};
    Report.satisfaction := {|
      Report.average_score := average_score;
      Report.total_responses := len (satisfaction_scores (sat a));
      Report.scores_by_category := by_category |};
    Report.overall := {|
      Report.total_facilities := total_submissions;
      Report.facilities_with_complete_data := complete_count;
      Report.data_completeness_percentage := completeness |}
  |}.

End Dashboard.

(** ** The heuristic analyser ([app/services/ai_service.py]) *)

Module AIService.

Import PyStr PyNum PyVal Submission.

Local Open Scope string_scope.

(** *** Text analysis *)

Record analysis : Type := {
  sentiment : string;
  topics : list string;
  priority : string;
  insights : list string;
  summary : string
}.

Definition negative_keywords : list string :=
  ["problem"; "issue"; "broken"; "missing"; "urgent"; "critical"; "poor";
   "bad"; "lack"; "no"].

Definition positive_keywords : list string :=
  ["good"; "excellent"; "working"; "available"; "complete";
   "satisfied"].

Definition topic_keywords : list (string * list string) :=
  [ ("infrastructure", ["power"; "water"; "building"; "facility"; "structure"]);
    ("staffing", ["staff"; "worker"; "personnel"; "doctor"; "nurse"]);
    ("funding", ["money"; "budget"; "funding"; "financial"; "cost"]);
    ("equipment", ["equipment"; "machine"; "device"; "tool"]);
    ("supplies", ["supply"; "commodity"; "medicine"; "drug"; "stock"]);
    ("services", ["service"; "patient"; "treatment"; "care"]) ].

(** [sum(1 for word in words if word in text)] *)
Definition hits (words : list string) (text : string) : Z :=
  fold_left (fun n word => if contains word text then n + 1 else n) words 0.

Definition _basic_text_analysis (text : string) : analysis :=
  let text_lower := lower text in
  let negative_count := hits negative_keywords text_lower in
  let positive_count := hits positive_keywords text_lower in
  let (sentiment, priority) :=
    if Z.gtb negative_count positive_count
    then ("negative", if Z.gtb negative_count 3 then "high" else "medium")
    else if Z.gtb positive_count negative_count
         then ("positive", "low")
         else ("neutral", "medium") in
  let topics :=
    map fst
        (filter (fun tk => existsb (fun keyword => contains keyword text_lower)
                                   (snd tk))
                topic_keywords) in
  {| sentiment := sentiment;
     topics := match topics with [] => ["general"] | _ :: _ => topics end;
     priority := priority;
     insights :=
       ["Detected " ++ sentiment ++ " sentiment with "
        ++ of_Z (Z.of_nat (List.length topics)) ++ " key topics"];
     summary :=
       if Nat.ltb 200 (String.length text)
       then take 200 text ++ "..."
       else text |}.

(** The call to the remote model is commented out in the source: what is
    left hands the text to the keyword analysis. *)
Definition _analyze_with_openai (text : string) : analysis :=
  _basic_text_analysis text.

(** [enabled] is [self.enabled], set from the environment when the service
    is created. *)
Definition analyze_issues_and_comments (enabled : bool)
  (issues comments : string) : analysis :=
  if (negb (truthy (VStr issues)) && negb (truthy (VStr comments)))%bool
  then {| sentiment := "neutral"; topics := []; priority := "low";
          insights := []; summary := "No issues or comments provided" |}
  else
    let combined_text := strip (issues ++ " " ++ comments) in
    if enabled then _analyze_with_openai combined_text
    else _basic_text_analysis combined_text.

(** *** Patient satisfaction *)

Module Survey.

(** The four counts under "score_distribution". *)
Record distribution : Type := {
  excellent : Z;
  good : Z;
  fair : Z;
  poor : Z
}.

(** The answer of [analyze_patient_satisfaction]; the early answer for a
    falsy block has neither "total_responses" nor "score_distribution". *)
Record t : Type := {
  average_score : pynum;
  total_responses : option Z;
  insights : list string;
  recommendations : list string;
  score_distribution : option distribution
}.

End Survey.

(** The scores the loop over [satisfaction_data.items()] appends: a number
    as it is (a [bool] is an [int], and counts as 0 or 1 wherever the scores
    are used), a string that [float] reads, nothing otherwise. *)
Definition survey_scores (satisfaction_data : pydict) : list pynum :=
  flat_map
    (fun kv =>
       match snd kv with
       | VInt z => [NInt z]
       | VBool b => [NInt (if b then 1 else 0)]
       | VFloat f => [NFloat f]
       | VStr s =>
           match float_of_string s with
           | Ok f => [NFloat f]
           | Raise _ => []
           end
       | VNone | VList _ | VDict _ => []
       end)
    satisfaction_data.

(** [sum(1 for s in scores if test(s))] *)
Definition tally_scores (test : pynum -> bool) (scores : list pynum) : Z :=
  Z.of_nat (List.length (filter test scores)).

Definition analyze_patient_satisfaction (satisfaction_data : pyval)
  : res Survey.t :=
  if negb (truthy satisfaction_data)
  then Ok {| Survey.average_score := NInt 0;
             Survey.total_responses := None;
             Survey.insights := [];
             Survey.recommendations := [];
             Survey.score_distribution := None |}
  else
    match satisfaction_data with
    | VDict d =>
        let scores := survey_scores d in
        avg_score <-
          match scores with
          | [] => Ok (NInt 0)
          | _ :: _ =>
              total <- nsum scores ;;
              q <- ndiv total (Z.of_nat (List.length scores)) ;;
              Ok (NFloat q)
          end ;;
        let (insights, recommendations) :=
          if nlt avg_score 3
          then (["Patient satisfaction is below average"],
                ["Investigate service quality and patient experience"])
          else if nge avg_score 4
               then (["Patient satisfaction is above average"],
                     ["Maintain current service standards"])
               else ([], []) in
        Ok {| Survey.average_score := nround2 avg_score;
              Survey.total_responses :=
                Some (Z.of_nat (List.length scores));
              Survey.insights := insights;
              Survey.recommendations := recommendations;
              Survey.score_distribution :=
                Some {| Survey.excellent :=
                          tally_scores (fun s => nge s 4.5) scores;
                        Survey.good :=
                          tally_scores
                            (fun s => nge s 3.5 && nlt s 4.5)%bool scores;
                        Survey.fair :=
                          tally_scores
                            (fun s => nge s 2.5 && nlt s 3.5)%bool scores;
                        Survey.poor :=
                          tally_scores (fun s => nlt s 2.5) scores |} |}
    | _ => Raise AttributeError
    end.

(** *** Facility needs *)

Record predictions : Type := {
  priority_level : string;
  predicted_needs : list string;
  risk_factors : list string;
  recommendations : list string
}.

Definition note (risk : option string) (need recommendation : string)
  (p : predictions) : predictions := {|
  priority_level := priority_level p;
  predicted_needs := (predicted_needs p ++ [need])%list;
  risk_factors :=
    match risk with
    | Some r => (risk_factors p ++ [r])%list
    | None => risk_factors p
    end;
  recommendations := (recommendations p ++ [recommendation])%list
|}.

Definition escalate (p : predictions) : predictions := {|
  priority_level := "high";
  predicted_needs := predicted_needs p;
  risk_factors := risk_factors p;
  recommendations := recommendations p
|}.

(** [v.lower()] *)
Definition lower_of (v : pyval) : res string :=
  match v with
  | VStr s => Ok (lower s)
  | _ => Raise AttributeError
  end.

(** [int(str(v).split()[0]) if isinstance(v, (str, int)) else 0]; a [bool]
    is an [int] to [isinstance]. *)
Definition headcount (v : pyval) : res Z :=
  match v with
  | VStr _ | VInt _ | VBool _ =>
      match str_scalar v with
      | Some s => tok <- first (split s) ;; int_of_string tok
      | None => Ok 0
      end
  | VNone | VFloat _ | VList _ | VDict _ => Ok 0
  end.

(** [sum(... for k, v in hr_data.items() if ...)]: the terms are computed
    in order and the first exception ends the sum. *)
Fixpoint staff_sum (items : pydict) : res Z :=
  match items with
  | [] => Ok 0
  | (k, v) :: rest =>
      if (contains "staff" (lower k) || contains "personnel" (lower k))%bool
      then n <- headcount v ;; m <- staff_sum rest ;; Ok (n + m)
      else staff_sum rest
  end.

(** The four rules of [predict_facility_needs], in source order; each takes
    the predictions built so far. *)

(* Analyze facility condition *)
Definition condition_rule (submission_data : pydict) (p : predictions)
  : res predictions :=
  condition <- lower_of (get_or (VStr "") "facility_condition"
                                submission_data) ;;
  Ok (if mem condition ["poor"; "critical"]
      then note (Some "Poor facility condition") "Infrastructure improvement"
                "Prioritize facility rehabilitation" (escalate p)
      else p).

(* Analyze staffing *)
Definition staffing_rule (submission_data : pydict) (p : predictions)
  : res predictions :=
  match get_or (VDict []) "human_resources_data" submission_data with
  | VDict hr_data =>
      total_staff <- staff_sum hr_data ;;
      Ok (if Z.ltb total_staff 5
          then note (Some "Insufficient staffing")
                    "Additional healthcare workers"
                    "Recruit and train more staff" p
          else p)
  | _ => Ok p
  end.

(* Analyze funding *)
Definition funding_rule (submission_data : pydict) (p : predictions)
  : predictions :=
  match get_or (VDict []) "funding_data" submission_data with
  | VDict funding_data =>
      let has_funding :=
        (eq_str (get "bhcpf_status" funding_data) "Received"
         || truthy (get "has_bhcpf" funding_data))%bool in
      if negb has_funding
      then note (Some "Lack of funding") "Financial support"
                "Apply for BHCPF or IMPACT funding" p
      else p
  | _ => p
  end.

(* Analyze infrastructure *)
Definition infrastructure_rule (submission_data : pydict) (p : predictions)
  : predictions :=
  match get_or (VDict []) "infrastructure_data" submission_data with
  | VDict infra_data =>
      let has_power :=
        (eq_str (get "has_power" infra_data) "Yes"
         || truthy (get "power_available" infra_data))%bool in
      let has_water :=
        (eq_str (get "has_water" infra_data) "Yes"
         || truthy (get "water_available" infra_data))%bool in
      let q :=
        if negb has_power
        then note None "Power supply"
                  "Install or repair power infrastructure" p
        else p in
      if negb has_water
      then note None "Water supply" "Ensure reliable water access" q
      else q
  | _ => p
  end.

Definition predict_facility_needs (submission_data : pydict)
  : res predictions :=
  let p0 := {| priority_level := "medium"; predicted_needs := [];
               risk_factors := []; recommendations := [] |} in
  p1 <- condition_rule submission_data p0 ;;
  p2 <- staffing_rule submission_data p1 ;;
  Ok (infrastructure_rule submission_data
        (funding_rule submission_data p2)).

(** *** Anomalies *)

(** The text of a finding.  The coordinates finding interpolates the two
    numbers; they are kept as values, their formatting is not modelled. *)
Inductive wording : Type :=
| Text (s : string)
| Outside_Nigeria (lat lon : pyval).

Record anomaly : Type := {
  type : string;
  field : string;
  severity : string;
  message : wording
}.

(** The number a value stands for in a comparison with a [float]; a value
    that is no number makes the comparison raise. *)
Definition number_of (v : pyval) : res pyfloat :=
  match v with
  | VFloat f => Ok f
  | VInt z => Ok (FFin (inject_Z z))
  | VBool b => Ok (FFin (if b then 1 else 0))
  | VNone | VStr _ | VList _ | VDict _ => Raise TypeError
  end.

(** [lo <= v <= hi] for two [float] literals *)
Definition within (lo hi : Q) (v : pyval) : res bool :=
  x <- number_of v ;;
  Ok (fle (FFin lo) x && fle x (FFin hi))%bool.

Definition missing (submission_data : pydict) (field : string)
  : list anomaly :=
  if negb (truthy (get field submission_data))
  then [{| type := "missing_data"; field := field; severity := "high";
           message := Text ("Missing critical field: " ++ field) |}]
  else [].

Definition detect_data_anomalies (submission_data : pydict)
  : res (list anomaly) :=
  (* Check for missing critical data *)
  let a1 :=
    flat_map (missing submission_data)
             ["facility_name"; "state"; "lga"; "facility_condition"] in
  (* Check GPS coordinates validity *)
  let lat := get "latitude" submission_data in
  let lon := get "longitude" submission_data in
  a2 <-
    (if (truthy lat && truthy lon)%bool
     then
       lat_ok <- within 4 14 lat ;;
       outside <-
         (if negb lat_ok then Ok true
          else lon_ok <- within 2 15 lon ;; Ok (negb lon_ok)) ;;
       Ok (if outside : bool
           then (a1 ++ [{| type := "invalid_location";
                           field := "coordinates";
                           severity := "medium";
                           message := Outside_Nigeria lat lon |}])%list
           else a1)
     else Ok a1) ;;
  (* Check for logical inconsistencies *)
  let has_workers := get "has_health_workers" submission_data in
  match get_or (VDict []) "human_resources_data" submission_data with
  | VDict hr_data =>
      if (eq_str has_workers "No"
          && existsb (fun kv => truthy (snd kv)) hr_data)%bool
      then Ok (a2 ++ [{| type := "inconsistency";
                         field := "health_workers";
                         severity := "medium";
                         message := Text "Form indicates no health workers but HR data exists" |}])%list
      else Ok a2
  | _ => Ok a2
  end.

(** *** Summary *)

Section Summary.

(** [str(v)] for a [float] or a container, whose [repr] is left open. *)
Variable repr_of : pyval -> string.

(** [f"{v}"] *)
Definition shown (v : pyval) : string :=
  match str_scalar v with
  | Some s => s
  | None => repr_of v
  end.

Definition generate_insights_summary (submission_data : pydict)
  : res string :=
  let facility_name :=
    get_or (VStr "Unknown Facility") "facility_name" submission_data in
  let state := get_or (VStr "Unknown State") "state" submission_data in
  let condition :=
    get_or (VStr "Unknown") "facility_condition" submission_data in
  (* Analyze various aspects *)
  predictions <- predict_facility_needs submission_data ;;
  anomalies <- detect_data_anomalies submission_data ;;
  let risks :=
    match risk_factors predictions with
    | [] => []
    | _ :: _ => ["Risk Factors: " ++ join ", " (risk_factors predictions)]
    end in
  let needs :=
    match predicted_needs predictions with
    | [] => []
    | _ :: _ =>
        ["Predicted Needs: " ++ join ", " (predicted_needs predictions)]
    end in
  let quality :=
    match anomalies with
    | [] => []
    | _ :: _ =>
        ["Data Quality Issues: " ++ of_Z (Z.of_nat (List.length anomalies))
         ++ " anomalies detected"]
    end in
  let summary_parts :=
    ("Facility: " ++ shown facility_name ++ " in " ++ shown state)
    :: ("Condition: " ++ shown condition)
    :: (risks ++ needs ++ quality)%list in
  Ok (join ". " summary_parts ++ ".").

End Summary.

End AIService.

(** ** The insight endpoints ([app/routers/ai_insights.py]) *)

Module AIInsights.

Import PyStr PyNum PyVal Submission AIService.

Local Open Scope string_scope.

Module AtRisk.

(** An entry of the at-risk list. *)
Record facility : Type := {
  id : Z;
  facility_name : option string;
  state : option string;
  lga : option string;
  condition : option string;
  priority : string;
  risk_factors : list string;
  predicted_needs : list string;
  anomalies_count : Z
}.

Record t : Type := {
  total_at_risk : Z;
  facilities : list facility
}.

End AtRisk.

(** The loop of [get_at_risk_facilities]: the entries appended, in the order
    of the rows; the first exception ends it. *)
Fixpoint at_risk_entries (submissions : list FormSubmission)
  : res (list AtRisk.facility) :=
  match submissions with
  | [] => Ok []
  | submission :: rest =>
      let submission_dict := to_dict submission in
      predictions <- predict_facility_needs submission_dict ;;
      anomalies <- detect_data_anomalies submission_dict ;;
      entries <- at_risk_entries rest ;;
      Ok (if (String.eqb (priority_level predictions) "high"
              || Z.ltb 0 (Z.of_nat (List.length anomalies)))%bool
          then {| AtRisk.id := id submission;
                  AtRisk.facility_name := facility_name submission;
                  AtRisk.state := state submission;
                  AtRisk.lga := lga submission;
                  AtRisk.condition := facility_condition submission;
                  AtRisk.priority := priority_level predictions;
                  AtRisk.risk_factors := AIService.risk_factors predictions;
                  AtRisk.predicted_needs :=
                    AIService.predicted_needs predictions;
                  AtRisk.anomalies_count :=
                    Z.of_nat (List.length anomalies) |} :: entries
          else entries)
  end.

(** [0 if x["priority"] == "high" else 1] *)
Definition priority_key (x : AtRisk.facility) : Z :=
  if String.eqb (AtRisk.priority x) "high" then 0 else 1.

(** [get_at_risk_facilities], on the rows the query returned. *)
Definition get_at_risk_facilities (submissions : list FormSubmission)
  : res AtRisk.t :=
  entries <- at_risk_entries submissions ;;
  (* Sort by priority *)
  let at_risk_facilities :=
    Dashboard.sort_stable Z.ltb priority_key entries in
  Ok {| AtRisk.total_at_risk :=
          Z.of_nat (List.length at_risk_facilities);
        AtRisk.facilities := at_risk_facilities |}.

Module Advice.

(** An entry of a bucket of recommendations. *)
Record entry : Type := {
  facility : option string;
  state : option string;
  recommendation : string
}.

(** The four fixed buckets. *)
Record t : Type := {
  infrastructure : list entry;
  staffing : list entry;
  funding : list entry;
  general : list entry
}.

End Advice.

Definition mentions (words : list string) (rec : string) : bool :=
  existsb (fun w => contains w (lower rec)) words.

(** The body of [for rec in predictions.get("recommendations", [])]. *)
Definition file_advice (submission : FormSubmission) (b : Advice.t)
  (rec : string) : Advice.t :=
  let e := {| Advice.facility := facility_name submission;
              Advice.state := state submission;
              Advice.recommendation := rec |} in
  if mentions ["infrastructure"; "power"; "water"] rec
  then {| Advice.infrastructure := (Advice.infrastructure b ++ [e])%list;
          Advice.staffing := Advice.staffing b;
          Advice.funding := Advice.funding b;
          Advice.general := Advice.general b |}
  else if mentions ["staff"; "worker"] rec
  then {| Advice.infrastructure := Advice.infrastructure b;
          Advice.staffing := (Advice.staffing b ++ [e])%list;
          Advice.funding := Advice.funding b;
          Advice.general := Advice.general b |}
  else if mentions ["funding"; "financial"] rec
  then {| Advice.infrastructure := Advice.infrastructure b;
          Advice.staffing := Advice.staffing b;
          Advice.funding := (Advice.funding b ++ [e])%list;
          Advice.general := Advice.general b |}
  else {| Advice.infrastructure := Advice.infrastructure b;
          Advice.staffing := Advice.staffing b;
          Advice.funding := Advice.funding b;
          Advice.general := (Advice.general b ++ [e])%list |}.

(** The loop of [get_ai_recommendations] from the buckets [b]. *)
Fixpoint advise_from (b : Advice.t) (submissions : list FormSubmission)
  : res Advice.t :=
  match submissions with
  | [] => Ok b
  | submission :: rest =>
      predictions <- predict_facility_needs (to_dict submission) ;;
      advise_from
        (fold_left (file_advice submission) (recommendations predictions) b)
        rest
  end.

(** [get_ai_recommendations], on the rows the query returned (the optional
    filter on the state is applied by the database). *)
Definition get_ai_recommendations (submissions : list FormSubmission)
  : res Advice.t :=
  advise_from {| Advice.infrastructure := []; Advice.staffing := [];
                 Advice.funding := []; Advice.general := [] |}
              submissions.

(** [analyze_text]: the request's text, with no comments. *)
Definition analyze_text (enabled : bool) (text : string) : analysis :=
  analyze_issues_and_comments enabled text "".

Module Insights.

(** The dict under "ai_analysis". *)
Record ai_analysis : Type := {
  issues_analysis : analysis;
  satisfaction_analysis : Survey.t;
  predictions : AIService.predictions;
  anomalies : list anomaly;
  summary : string
}.

Record t : Type := {
  submission_id : Z;
  facility_name : option string;
  analysis : ai_analysis
}.

End Insights.

(** What an endpoint that looks a row up does: it answers, it refuses with
    the 404 of its [HTTPException], or the analysis raises. *)
Inductive reply (A : Type) : Type :=
| Answer (a : A)
| NotFound
| Failed (e : exn).

Arguments Answer {A} a.
Arguments NotFound {A}.
Arguments Failed {A} e.

(** [column or ""] *)
Definition or_empty (o : option string) : string :=
  match o with
  | Some s => s
  | None => ""
  end.

(** [block or {}] *)
Definition or_empty_dict (v : pyval) : pyval :=
  if truthy v then v else VDict [].

(** [get_submission_insights], on the row the query found, if any.  The
    entries of the answer are computed in the order they are written. *)
Definition get_submission_insights (repr_of : pyval -> string)
  (enabled : bool) (submission_id : Z) (found : option FormSubmission)
  : reply Insights.t :=
  match found with
  | None => NotFound
  | Some submission =>
      (* Convert submission to dict *)
      let submission_dict := to_dict submission in
      (* Get AI insights *)
      let issues_analysis :=
        analyze_issues_and_comments enabled (or_empty (issues submission))
                                    (or_empty (comments submission)) in
      match
        (satisfaction <-
           analyze_patient_satisfaction
             (or_empty_dict (satisfaction_survey_data submission)) ;;
         predictions <- predict_facility_needs submission_dict ;;
         anomalies <- detect_data_anomalies submission_dict ;;
         summary <- generate_insights_summary repr_of submission_dict ;;
         Ok {| Insights.issues_analysis := issues_analysis;
               Insights.satisfaction_analysis := satisfaction;
               Insights.predictions := predictions;
               Insights.anomalies := anomalies;
               Insights.summary := summary |})
      with
      | Ok a =>
          Answer {| Insights.submission_id := submission_id;
                    Insights.facility_name := facility_name submission;
                    Insights.analysis := a |}
      | Raise e => Failed e
      end
  end.

End AIInsights.

(** * Vocabulary of the properties *)

Module Props.

Import PyStr PyNum PyVal Submission.

Local Open Scope string_scope.

(** Records that differ from [blank] in a few columns. *)

Definition with_condition (c : string) (s : FormSubmission)
  : FormSubmission := {|
  id := id s; geopolitical_zone := geopolitical_zone s; state := state s;
  lga := lga s; facility_name := facility_name s;
  assessment_type := assessment_type s;
  has_health_workers := has_health_workers s;
  facility_condition := Some c; ownership_type := ownership_type s;
  latitude := latitude s; longitude := longitude s;
  funding_data := funding_data s;
  impact_funding_data := impact_funding_data s;
  infrastructure_data := infrastructure_data s;
  human_resources_data := human_resources_data s;
  services_data := services_data s;
  satisfaction_survey_data := satisfaction_survey_data s;
  issues := issues s; comments := comments s |}.

Definition with_state (st : string) (s : FormSubmission)
  : FormSubmission := {|
  id := id s; geopolitical_zone := geopolitical_zone s; state := Some st;
  lga := lga s; facility_name := facility_name s;
  assessment_type := assessment_type s;
  has_health_workers := has_health_workers s;
  facility_condition := facility_condition s;
  ownership_type := ownership_type s;
  latitude := latitude s; longitude := longitude s;
  funding_data := funding_data s;
  impact_funding_data := impact_funding_data s;
  infrastructure_data := infrastructure_data s;
  human_resources_data := human_resources_data s;
  services_data := services_data s;
  satisfaction_survey_data := satisfaction_survey_data s;
  issues := issues s; comments := comments s |}.

Definition with_position (lat lon : pyfloat) (s : FormSubmission)
  : FormSubmission := {|
  id := id s; geopolitical_zone := geopolitical_zone s; state := state s;
  lga := lga s; facility_name := facility_name s;
  assessment_type := assessment_type s;
  has_health_workers := has_health_workers s;
  facility_condition := facility_condition s;
  ownership_type := ownership_type s;
  latitude := Some lat; longitude := Some lon;
  funding_data := funding_data s;
  impact_funding_data := impact_funding_data s;
  infrastructure_data := infrastructure_data s;
  human_resources_data := human_resources_data s;
  services_data := services_data s;
  satisfaction_survey_data := satisfaction_survey_data s;
  issues := issues s; comments := comments s |}.

Definition with_funding (v : pyval) (s : FormSubmission)
  : FormSubmission := {|
  id := id s; geopolitical_zone := geopolitical_zone s; state := state s;
  lga := lga s; facility_name := facility_name s;
  assessment_type := assessment_type s;
  has_health_workers := has_health_workers s;
  facility_condition := facility_condition s;
  ownership_type := ownership_type s;
  latitude := latitude s; longitude := longitude s;
  funding_data := v;
  impact_funding_data := impact_funding_data s;
  infrastructure_data := infrastructure_data s;
  human_resources_data := human_resources_data s;
  services_data := services_data s;
  satisfaction_survey_data := satisfaction_survey_data s;
  issues := issues s; comments := comments s |}.

Definition with_human_resources (v : pyval) (s : FormSubmission)
  : FormSubmission := {|
  id := id s; geopolitical_zone := geopolitical_zone s; state := state s;
  lga := lga s; facility_name := facility_name s;
  assessment_type := assessment_type s;
  has_health_workers := has_health_workers s;
  facility_condition := facility_condition s;
  ownership_type := ownership_type s;
  latitude := latitude s; longitude := longitude s;
  funding_data := funding_data s;
  impact_funding_data := impact_funding_data s;
  infrastructure_data := infrastructure_data s;
  human_resources_data := v;
  services_data := services_data s;
  satisfaction_survey_data := satisfaction_survey_data s;
  issues := issues s; comments := comments s |}.

Definition with_services (v : pyval) (s : FormSubmission)
  : FormSubmission := {|
  id := id s; geopolitical_zone := geopolitical_zone s; state := state s;
  lga := lga s; facility_name := facility_name s;
  assessment_type := assessment_type s;
  has_health_workers := has_health_workers s;
  facility_condition := facility_condition s;
  ownership_type := ownership_type s;
  latitude := latitude s; longitude := longitude s;
  funding_data := funding_data s;
  impact_funding_data := impact_funding_data s;
  infrastructure_data := infrastructure_data s;
  human_resources_data := human_resources_data s;
  services_data := v;
  satisfaction_survey_data := satisfaction_survey_data s;
  issues := issues s; comments := comments s |}.

(** A facility in good condition whose staff block holds one entry. *)
Definition staffed (key : string) (value : pyval) : FormSubmission :=
  with_human_resources (VDict [(key, value)]) (with_condition "good" blank).

(** A facility in good condition at the given coordinates. *)
Definition located (lat lon : Q) : FormSubmission :=
  with_position (FFin lat) (FFin lon) (with_condition "good" blank).

(** The findings of one type. *)
Definition of_type (t : string) (l : list AIService.anomaly)
  : list AIService.anomaly :=
  filter (fun a => String.eqb (AIService.type a) t) l.

(** The finding the coordinates check appends. *)
Definition location_finding (lat lon : pyfloat) : AIService.anomaly := {|
  AIService.type := "invalid_location";
  AIService.field := "coordinates";
  AIService.severity := "medium";
  AIService.message := AIService.Outside_Nigeria (VFloat lat) (VFloat lon)
|}.

(** Outside the box [4.0, 14.0] x [2.0, 15.0]. *)
Definition outside_box (lat lon : pyfloat) : bool :=
  (negb (fle (FFin 4) lat && fle lat (FFin 14))
   || negb (fle (FFin 2) lon && fle lon (FFin 15)))%bool.

(** [submission_data.get("facility_condition", "")] *)
Definition condition_of (submission_data : pydict) : pyval :=
  get_or (VStr "") "facility_condition" submission_data.

(** [w] occurs in [s]. *)
Definition Substring (w s : string) : Prop :=
  exists pre post, s = pre ++ w ++ post.

(** The keywords of a list that occur in a text. *)
Definition occurring (words : list string) (text : string) : list string :=
  filter (fun w => contains w text) words.

(** The text the keyword analysis searches. *)
Definition searched (issues comments : string) : string :=
  lower (strip (issues ++ " " ++ comments)).

(** Every list of a report is empty, every count is 0 and every average and
    percentage is 0. *)
Definition all_zero (r : Dashboard.Report.t) : Prop :=
  let fa := Dashboard.Report.facility r in
  let fu := Dashboard.Report.funding r in
  let inf := Dashboard.Report.infrastructure r in
  let hr := Dashboard.Report.human_resources r in
  let ut := Dashboard.Report.utilization r in
  let sa := Dashboard.Report.satisfaction r in
  let su := Dashboard.Report.overall r in
  (Dashboard.Report.condition_distribution fa = []
   /\ Dashboard.Report.ownership_distribution fa = []
   /\ Dashboard.Report.assessment_type_distribution fa = []
   /\ Dashboard.Report.health_workers_distribution fa = []
   /\ Dashboard.Report.geopolitical_zone_distribution fa = [])
  /\ (Dashboard.Report.bhcpf_facilities fu = 0%Z
      /\ Dashboard.Report.bhcpf_percentage fu = FFin 0
      /\ Dashboard.Report.impact_facilities fu = 0%Z
      /\ Dashboard.Report.impact_percentage fu = FFin 0
      /\ Dashboard.Report.total_funding_amount fu = FFin 0
      /\ Dashboard.Report.average_funding_per_facility fu = FFin 0
      /\ Dashboard.Report.funding_by_state fu = [])
  /\ (Dashboard.Report.facilities_with_power inf = 0%Z
      /\ Dashboard.Report.power_percentage inf = FFin 0
      /\ Dashboard.Report.facilities_with_water inf = 0%Z
      /\ Dashboard.Report.water_percentage inf = FFin 0
      /\ Dashboard.Report.facilities_with_internet inf = 0%Z
      /\ Dashboard.Report.internet_percentage inf = FFin 0
      /\ Dashboard.Report.facilities_with_pharmacy inf = 0%Z
      /\ Dashboard.Report.pharmacy_percentage inf = FFin 0
      /\ Dashboard.Report.revitalized_facilities inf = 0%Z
      /\ Dashboard.Report.revitalization_percentage inf = FFin 0)
  /\ (Dashboard.Report.total_staff hr = 0%Z
      /\ Dashboard.Report.facilities_with_staff hr = 0%Z
      /\ Dashboard.Report.average_staff_per_facility hr = FFin 0
      /\ Dashboard.Report.staff_by_type hr = [])
  /\ (Dashboard.Report.total_patients ut = 0%Z
      /\ Dashboard.Report.average_patients_per_facility ut = FFin 0
      /\ Dashboard.Report.top_services_offered ut = [])
  /\ (Dashboard.Report.average_score sa = FFin 0
      /\ Dashboard.Report.total_responses sa = 0%Z
      /\ Dashboard.Report.scores_by_category sa = [])
  /\ (Dashboard.Report.total_facilities su = 0%Z
      /\ Dashboard.Report.facilities_with_complete_data su = 0%Z
      /\ Dashboard.Report.data_completeness_percentage su = FFin 0).

(** The amounts accumulated so far: the running total and the totals per
    state. *)
Definition amounts (f : Dashboard.funding)
  : pyfloat * list (string * pyfloat) :=
  (Dashboard.total_funding_amount f, Dashboard.funding_by_state f).

(** The amounts once [amount] is added for a record of state [st]. *)
Definition credited (st : option string) (amount : pyfloat)
  (a : pyfloat * list (string * pyfloat))
  : pyfloat * list (string * pyfloat) :=
  (fadd (fst a) amount,
   match st with
   | Some k =>
       if String.eqb k "" then snd a
       else assign k (fadd (get_or fzero k (snd a)) amount) (snd a)
   | None => snd a
   end).

(** The keys of a staff block that name staff, personnel or workers and
    whose value parses to a count: the label each is filed under and its
    count, in the order of the block. *)
Definition staff_contributions (d : pydict) : list (string * Z) :=
  flat_map
    (fun kv =>
       if Dashboard.has_any ["staff"; "personnel"; "worker"] (fst kv)
       then match Dashboard.count_of (snd kv) with
            | Ok n => [(Dashboard.label (fst kv), n)]
            | Raise _ => []
            end
       else [])
    d.

Definition sum_counts (l : list (string * Z)) : Z :=
  fold_right (fun kv n => snd kv + n)%Z 0%Z l.

(** Each count added under its label, in order. *)
Definition filed (l : list (string * Z)) (by_type : list (string * Z))
  : list (string * Z) :=
  fold_left (fun t kv => Dashboard.add_to (fst kv) (snd kv) t) l by_type.

(** *** Ranges *)

Definition nonnegative (x : pyfloat) : Prop := fle (FFin 0) x = true.

Definition at_most_100 (x : pyfloat) : Prop := fle x (FFin 100) = true.

Definition in_percent_range (x : pyfloat) : Prop :=
  nonnegative x /\ at_most_100 x.

Definition counts_nonnegative (l : list (string * Z)) : Prop :=
  Forall (fun kv => 0 <= snd kv)%Z l.

(** An entry with a count of 0 or more and a percentage in [0, 100]. *)
Definition share_in_range (s : Dashboard.Report.share) : Prop :=
  (0 <= Dashboard.Report.count s)%Z
  /\ in_percent_range (Dashboard.Report.percentage s).

(** The ranges every report keeps: all the percentages and counts of the
    report but the three of [ranges_not_kept]. *)
Definition ranges_kept (r : Dashboard.Report.t) : Prop :=
  let fa := Dashboard.Report.facility r in
  let fu := Dashboard.Report.funding r in
  let inf := Dashboard.Report.infrastructure r in
  let hr := Dashboard.Report.human_resources r in
  let ut := Dashboard.Report.utilization r in
  let sa := Dashboard.Report.satisfaction r in
  let su := Dashboard.Report.overall r in
  (Forall share_in_range (Dashboard.Report.condition_distribution fa)
   /\ Forall share_in_range (Dashboard.Report.ownership_distribution fa)
   /\ counts_nonnegative (Dashboard.Report.assessment_type_distribution fa)
   /\ Forall share_in_range (Dashboard.Report.health_workers_distribution fa)
   /\ counts_nonnegative
        (Dashboard.Report.geopolitical_zone_distribution fa))
  /\ ((0 <= Dashboard.Report.bhcpf_facilities fu)%Z
      /\ in_percent_range (Dashboard.Report.bhcpf_percentage fu)
      /\ (0 <= Dashboard.Report.impact_facilities fu)%Z
      /\ in_percent_range (Dashboard.Report.impact_percentage fu))
  /\ ((0 <= Dashboard.Report.facilities_with_power inf)%Z
      /\ in_percent_range (Dashboard.Report.power_percentage inf)
      /\ (0 <= Dashboard.Report.facilities_with_water inf)%Z
      /\ in_percent_range (Dashboard.Report.water_percentage inf)
      /\ (0 <= Dashboard.Report.facilities_with_internet inf)%Z
      /\ in_percent_range (Dashboard.Report.internet_percentage inf)
      /\ (0 <= Dashboard.Report.facilities_with_pharmacy inf)%Z
      /\ in_percent_range (Dashboard.Report.pharmacy_percentage inf)
      /\ (0 <= Dashboard.Report.revitalized_facilities inf)%Z
      /\ in_percent_range (Dashboard.Report.revitalization_percentage inf))
  /\ ((0 <= Dashboard.Report.total_staff hr)%Z
      /\ (0 <= Dashboard.Report.facilities_with_staff hr)%Z)
  /\ Forall (fun s => (0 <= Dashboard.Report.count s)%Z
                      /\ nonnegative (Dashboard.Report.percentage s))
            (Dashboard.Report.top_services_offered ut)
  /\ ((0 <= Dashboard.Report.total_responses sa)%Z
      /\ Forall (fun kc => 0 <= Dashboard.Report.responses (snd kc))%Z
                (Dashboard.Report.scores_by_category sa))
  /\ ((0 <= Dashboard.Report.total_facilities su)%Z
      /\ (0 <= Dashboard.Report.facilities_with_complete_data su)%Z
      /\ in_percent_range (Dashboard.Report.data_completeness_percentage su)).

(** The three ranges a report can leave: the counts by staff type, the
    number of patients, and the upper bound on the percentage of a service. *)
Definition ranges_not_kept (r : Dashboard.Report.t) : Prop :=
  counts_nonnegative
    (Dashboard.Report.staff_by_type (Dashboard.Report.human_resources r))
  /\ (0 <= Dashboard.Report.total_patients (Dashboard.Report.utilization r))%Z
  /\ Forall (fun s => at_most_100 (Dashboard.Report.percentage s))
            (Dashboard.Report.top_services_offered
               (Dashboard.Report.utilization r)).

(** Every percentage in [0, 100] and every count 0 or more. *)
Definition ranges_claimed (r : Dashboard.Report.t) : Prop :=
  ranges_kept r /\ ranges_not_kept r.

(** A record with a negative head count, a negative number of patients and
    two keys that name one service. *)
Definition odd_record : FormSubmission :=
  with_services
    (VDict [("anc_service", VStr "yes"); ("anc service", VStr "yes");
            ("patients", VStr "-3")])
    (with_human_resources (VDict [("staff", VStr "-5")]) blank).

(** *** What the scan keeps true *)

Definition all_within (lo hi : Z) (l : list (string * Z)) : Prop :=
  Forall (fun kv => lo <= snd kv <= hi)%Z l.

(** After [n] records: a tally is between 1 and [n], a counter between 0
    and [n], the staff total is not negative and a service is offered
    at least once. *)
Definition bounded (n : Z) (a : Dashboard.accumulators) : Prop :=
  (0 <= n)%Z
  /\ (all_within 1 n (Dashboard.condition_counts (Dashboard.cat a))
      /\ all_within 1 n (Dashboard.ownership_counts (Dashboard.cat a))
      /\ all_within 1 n (Dashboard.assessment_type_counts (Dashboard.cat a))
      /\ all_within 1 n (Dashboard.has_health_workers_counts (Dashboard.cat a))
      /\ all_within 1 n (Dashboard.zone_counts (Dashboard.cat a)))
  /\ ((0 <= Dashboard.bhcpf_facilities (Dashboard.fund a) <= n)%Z
      /\ (0 <= Dashboard.impact_facilities (Dashboard.fund a) <= n)%Z)
  /\ ((0 <= Dashboard.has_power (Dashboard.infra a) <= n)%Z
      /\ (0 <= Dashboard.has_water (Dashboard.infra a) <= n)%Z
      /\ (0 <= Dashboard.has_internet (Dashboard.infra a) <= n)%Z
      /\ (0 <= Dashboard.has_pharmacy (Dashboard.infra a) <= n)%Z
      /\ (0 <= Dashboard.revitalization_count (Dashboard.infra a) <= n)%Z)
  /\ ((0 <= Dashboard.total_staff (Dashboard.hr a))%Z
      /\ (0 <= Dashboard.facilities_with_staff (Dashboard.hr a) <= n)%Z)
  /\ Forall (fun kv => 1 <= snd kv)%Z
            (Dashboard.services_offered (Dashboard.svc a)).

(** The two-decimal rounding of a finite value, as a rational. *)
Definition rounded (q : Q) : Q :=
  (inject_Z (round_half_even (q * 100)) / 100)%Q.

(** *** Rankings *)

Section Rankings.

Context {A K : Type} (ltb : K -> K -> bool) (key : A -> K).

(** No element is followed by one with a greater key. *)
Definition descending (l : list A) : Prop :=
  StronglySorted (fun x y => ltb (key x) (key y) = false) l.

(** No element is followed by one with a smaller key. *)
Definition ascending (l : list A) : Prop :=
  StronglySorted (fun x y => ltb (key y) (key x) = false) l.

(** [x] has a key neither below nor above [k]. *)
Definition tied (k : K) (x : A) : bool :=
  (negb (ltb k (key x)) && negb (ltb (key x) k))%bool.

(** [out] holds the elements of [items], by descending key, those with
    tied keys in the order they have in [items]; [valid] tells the keys
    that can be compared. *)
Definition ranks (valid : K -> Prop) (items out : list A) : Prop :=
  Permutation out items
  /\ descending out
  /\ (forall k, valid k -> filter (tied k) out = filter (tied k) items).

(** [out] is the first ten of such a ranking of [items]. *)
Definition top_ten (valid : K -> Prop) (items out : list A) : Prop :=
  (List.length out <= 10)%nat
  /\ descending out
  /\ exists full, ranks valid items full /\ out = firstn 10 full.

End Rankings.

(** A key that every key can be compared with. *)
Definition any_count (k : Z) : Prop := True.

Definition not_nan (k : pyfloat) : Prop := k <> FNan.

(** A record of the given state whose funding block holds the amount. *)
Definition funded (st amount : string) : FormSubmission :=
  with_funding (VDict [("amount", VStr amount)]) (with_state st blank).

(** Three records, the second with the amount "nan". *)
Definition nan_records : list FormSubmission :=
  [funded "Abia" "1"; funded "Bauchi" "nan"; funded "Cross River" "2"].

End Props.

(** * Vocabulary of further properties *)

Module MoreProps.

Import PyStr PyNum PyVal Submission Props.

Local Open Scope string_scope.

(** *** The outcomes of [predict_facility_needs] *)

(** The predictions when the rules that fire are given: the condition rule,
    the staffing rule, the funding rule, the power and the water halves of
    the infrastructure rule. *)
Definition outcome (c s f pw w : bool) : AIService.predictions := {|
  AIService.priority_level := if c then "high" else "medium";
  AIService.predicted_needs :=
    ((if c then ["Infrastructure improvement"] else [])
     ++ (if s then ["Additional healthcare workers"] else [])
     ++ (if f then ["Financial support"] else [])
     ++ (if pw then ["Power supply"] else [])
     ++ (if w then ["Water supply"] else []))%list;
  AIService.risk_factors :=
    ((if c then ["Poor facility condition"] else [])
     ++ (if s then ["Insufficient staffing"] else [])
     ++ (if f then ["Lack of funding"] else []))%list;
  AIService.recommendations :=
    ((if c then ["Prioritize facility rehabilitation"] else [])
     ++ (if s then ["Recruit and train more staff"] else [])
     ++ (if f then ["Apply for BHCPF or IMPACT funding"] else [])
     ++ (if pw then ["Install or repair power infrastructure"] else [])
     ++ (if w then ["Ensure reliable water access"] else []))%list
|}.

(** The condition is poor or critical, in any case. *)
Definition poor_condition (submission_data : pydict) : bool :=
  match condition_of submission_data with
  | VStr c => mem (lower c) ["poor"; "critical"]
  | _ => false
  end.

(** The staff block is a dict whose staff sum is below 5. *)
Definition short_of_staff (submission_data : pydict) : bool :=
  match get_or (VDict []) "human_resources_data" submission_data with
  | VDict items =>
      match AIService.staff_sum items with
      | Ok n => Z.ltb n 5
      | Raise _ => false
      end
  | _ => false
  end.

(** The funding block is a dict without the predictor's funding signal. *)
Definition short_of_funds (submission_data : pydict) : bool :=
  match get_or (VDict []) "funding_data" submission_data with
  | VDict d =>
      negb (eq_str (get "bhcpf_status" d) "Received"
            || truthy (get "has_bhcpf" d))
  | _ => false
  end.

(** The infrastructure block is a dict without the signal under the two
    keys. *)
Definition lacks (k1 k2 : string) (submission_data : pydict) : bool :=
  match get_or (VDict []) "infrastructure_data" submission_data with
  | VDict d => negb (eq_str (get k1 d) "Yes" || truthy (get k2 d))
  | _ => false
  end.

(** *** The findings of [detect_data_anomalies] *)

Definition missing_finding (field : string) : AIService.anomaly := {|
  AIService.type := "missing_data";
  AIService.field := field;
  AIService.severity := "high";
  AIService.message := AIService.Text ("Missing critical field: " ++ field)
|}.

Definition inconsistency_finding : AIService.anomaly := {|
  AIService.type := "inconsistency";
  AIService.field := "health_workers";
  AIService.severity := "medium";
  AIService.message :=
    AIService.Text "Form indicates no health workers but HR data exists"
|}.

Definition if_unset (o : option string) (field : string) : list string :=
  if present o then [] else [field].

(** The critical columns of a record that are null or empty, in the order
    the check visits them. *)
Definition unset_fields (s : FormSubmission) : list string :=
  (if_unset (facility_name s) "facility_name"
   ++ if_unset (state s) "state"
   ++ if_unset (lga s) "lga"
   ++ if_unset (facility_condition s) "facility_condition")%list.

(** Both coordinates are truthy and the position is outside the box. *)
Definition misplaced (s : FormSubmission) : list AIService.anomaly :=
  match latitude s, longitude s with
  | Some lat, Some lon =>
      if (ftruthy lat && ftruthy lon && outside_box lat lon)%bool
      then [location_finding lat lon]
      else []
  | _, _ => []
  end.

(** The record says "No" to health workers and its staff block is a dict
    with a truthy value. *)
Definition contradictory (s : FormSubmission) : list AIService.anomaly :=
  match human_resources_data s with
  | VDict hr_data =>
      if (eq_str (of_opt_str (has_health_workers s)) "No"
          && existsb (fun kv => truthy (snd kv)) hr_data)%bool
      then [inconsistency_finding]
      else []
  | _ => []
  end.

(** *** The insight views *)

Definition is_high (x : AIInsights.AtRisk.facility) : bool :=
  String.eqb (AIInsights.AtRisk.priority x) "high".

(** An entry of a bucket, for a record and a recommendation. *)
Definition advice (s : FormSubmission) (rec : string)
  : AIInsights.Advice.entry := {|
  AIInsights.Advice.facility := facility_name s;
  AIInsights.Advice.state := state s;
  AIInsights.Advice.recommendation := rec
|}.

(** The entry of a record for a rule, when the rule fires on it. *)
Definition advised (fires : pydict -> bool) (rec : string)
  (s : FormSubmission) : list AIInsights.Advice.entry :=
  if fires (to_dict s) then [advice s rec] else [].

(** [f"{v}"] for a nullable text column *)
Definition shown_column (o : option string) : string :=
  match o with
  | Some t => t
  | None => "None"
  end.

(** *** Survey scores *)

Definition is_nan_score (s : pynum) : bool :=
  match s with
  | NFloat FNan => true
  | _ => false
  end.

(** *** What the aggregation counts *)

(** The column of the record holds the value [k]. *)
Definition has_value (column : FormSubmission -> option string)
  (k : string) (s : FormSubmission) : bool :=
  match column s with
  | Some v => String.eqb v k
  | None => false
  end.

Definition occurrences (column : FormSubmission -> option string)
  (k : string) (submissions : list FormSubmission) : Z :=
  Dashboard.len (filter (has_value column k) submissions).

(** The table lists, each once, the non-empty values the column takes, with
    the number of records that hold them. *)
Definition counts_of (column : FormSubmission -> option string)
  (submissions : list FormSubmission) (table : list (string * Z)) : Prop :=
  NoDup (map fst table)
  /\ forall k n,
       In (k, n) table
       <-> k <> "" /\ (0 < n)%Z /\ n = occurrences column k submissions.

(** The names and counts of a distribution. *)
Definition entries (l : list Dashboard.Report.share) : list (string * Z) :=
  map (fun s => (Dashboard.Report.name s, Dashboard.Report.count s)) l.

(** The block of the record is a non-empty dict that binds [k1] to "Yes" or
    [k2] to a truthy value. *)
Definition signals (block : FormSubmission -> pyval) (k1 k2 : string)
  (s : FormSubmission) : bool :=
  match Dashboard.as_block (block s) with
  | Some d => Dashboard.yes_or k1 k2 d
  | None => false
  end.

Definition signalled (block : FormSubmission -> pyval) (k1 k2 : string)
  (submissions : list FormSubmission) : Z :=
  Dashboard.len (filter (signals block k1 k2) submissions).

(** The responses of the categories, added up. *)
Definition responses_in
  (l : list (string * Dashboard.Report.category_scores)) : Z :=
  fold_right (fun kc n => Dashboard.Report.responses (snd kc) + n)%Z 0%Z l.

(** Every score is filed under one category: the categories have distinct
    names, none is empty, and together they hold the scores. *)
Definition filed_by_category (s : Dashboard.satisfaction) : Prop :=
  NoDup (map fst (Dashboard.satisfaction_by_category s))
  /\ Forall (fun kv => snd kv <> [])
            (Dashboard.satisfaction_by_category s)
  /\ Permutation (Dashboard.satisfaction_scores s)
                 (List.concat (map snd (Dashboard.satisfaction_by_category s))).

(** A record with the given condition, zone, infrastructure block and
    survey block, and nothing else. *)
Definition sample (condition zone : option string)
  (infrastructure survey : pyval) : FormSubmission := {|
  id := 0;
  geopolitical_zone := zone; state := None; lga := None;
  facility_name := None; assessment_type := None;
  has_health_workers := None; facility_condition := condition;
  ownership_type := None; latitude := None; longitude := None;
  funding_data := VNone; impact_funding_data := VNone;
  infrastructure_data := infrastructure; human_resources_data := VNone;
  services_data := VNone; satisfaction_survey_data := survey;
  issues := None; comments := None |}.

Definition samples : list FormSubmission :=
  [sample (Some "Good") (Some "North West")
          (VDict [("has_power", VStr "Yes")])
          (VDict [("overall_rating", VInt 4); ("staff_score", VStr "3.5")]);
   sample (Some "") None (VDict []) VNone;
   sample (Some "Poor") (Some "North West")
          (VDict [("power_available", VBool true);
                  ("has_water", VStr "yes")])
          (VDict [("overall rating", VStr "5 stars");
                  ("cleanliness_score", VStr "n/a")]);
   sample (Some "Good") None VNone VNone].

(** One record whose services block counts more patients than a [float]
    holds. *)
Definition crowded : FormSubmission :=
  with_services (VDict [("patients", VInt (10 ^ 400))]) blank.

End MoreProps.

(** * Properties of the analyser *)

Module AnalyserFacts.

Import PyStr PyNum PyVal Submission AIService Props.

Local Open Scope string_scope.

(** C1.  The claim is that an unparseable head count under a staff key is
    dropped from the staff sum and [predict_facility_needs] returns.  The
    code converts outside any [try]: the value "twelve nurses" makes the call
    raise [ValueError] and the empty string makes it raise [IndexError],
    whereas the aggregation's loop body, given the same entries, keeps its
    state and goes on.  The call does not return on every record either: a
    record whose [facility_condition] is null makes [.lower()] raise
    [AttributeError]. *)
Theorem predict_facility_needs_raises_on_unparseable_staff :
  predict_facility_needs
    (to_dict (staffed "nurse_staff_count" (VStr "twelve nurses")))
  = Raise ValueError
  /\ predict_facility_needs (to_dict (staffed "nurse_staff_count" (VStr "")))
     = Raise IndexError
  /\ (forall st,
        Dashboard.staff_item st ("nurse_staff_count", VStr "twelve nurses")
        = st)
  /\ (forall st,
        Dashboard.staff_item st ("nurse_staff_count", VStr "") = st)
  /\ predict_facility_needs (to_dict blank) = Raise AttributeError.
Proof.
  repeat split; try reflexivity.
Qed.

Lemma of_type_app t l1 l2 :
  of_type t (l1 ++ l2)%list = (of_type t l1 ++ of_type t l2)%list.
Proof. apply filter_app. Qed.

Lemma of_type_missing d f :
  of_type "invalid_location" (missing d f) = [].
Proof. unfold missing. destruct (negb _); reflexivity. Qed.

Lemma of_type_critical d fields :
  of_type "invalid_location" (flat_map (missing d) fields) = [].
Proof.
  induction fields as [|f fields IH]; simpl; [reflexivity|].
  now rewrite of_type_app, of_type_missing, IH.
Qed.

(** What the coordinates check does on a stored record: the call returns,
    and it holds one coordinates finding when both coordinates are truthy
    and outside the box, none otherwise. *)
Lemma detect_data_anomalies_location (s : FormSubmission) :
  exists l,
    detect_data_anomalies (to_dict s) = Ok l
    /\ of_type "invalid_location" l =
       match latitude s, longitude s with
       | Some lat, Some lon =>
           if (ftruthy lat && ftruthy lon && outside_box lat lon)%bool
           then [location_finding lat lon]
           else []
       | _, _ => []
       end.
Proof.
  unfold detect_data_anomalies.
  change (get "latitude" (to_dict s)) with (of_opt_float (latitude s)).
  change (get "longitude" (to_dict s)) with (of_opt_float (longitude s)).
  change (get "has_health_workers" (to_dict s))
    with (of_opt_str (has_health_workers s)).
  change (get_or (VDict []) "human_resources_data" (to_dict s))
    with (human_resources_data s).
  set (a1 := flat_map _ _).
  assert (Ha1 : of_type "invalid_location" a1 = [])
    by apply of_type_critical.
  assert (tail : forall a2 : list anomaly,
             exists l,
               match human_resources_data s with
               | VDict hr_data =>
                   if (eq_str (of_opt_str (has_health_workers s)) "No"
                       && existsb (fun kv => truthy (snd kv)) hr_data)%bool
                   then Ok (a2 ++ [{| type := "inconsistency";
                                      field := "health_workers";
                                      severity := "medium";
                                      message := Text "Form indicates no health workers but HR data exists" |}])%list
                   else Ok a2
               | _ => Ok a2
               end = Ok l
               /\ of_type "invalid_location" l
                  = of_type "invalid_location" a2).
  { intros a2. destruct (human_resources_data s); try (now exists a2).
    destruct (_ && _)%bool; [|now exists a2].
    eexists; split; [reflexivity|].
    rewrite of_type_app. simpl. now rewrite app_nil_r. }
  assert (done : forall (a2 : list anomaly) (want : list anomaly),
             of_type "invalid_location" a2 = want ->
             exists l,
               match human_resources_data s with
               | VDict hr_data =>
                   if (eq_str (of_opt_str (has_health_workers s)) "No"
                       && existsb (fun kv => truthy (snd kv)) hr_data)%bool
                   then Ok (a2 ++ [{| type := "inconsistency";
                                      field := "health_workers";
                                      severity := "medium";
                                      message := Text "Form indicates no health workers but HR data exists" |}])%list
                   else Ok a2
               | _ => Ok a2
               end = Ok l
               /\ of_type "invalid_location" l = want).
  { intros a2 want Hw. destruct (tail a2) as (l & Hl & Hof).
    exists l. split; [exact Hl|congruence]. }
  clear tail.
  destruct (latitude s) as [lat|]; cbn [of_opt_float truthy andb];
    [|now apply done].
  destruct (longitude s) as [lon|]; cbn [of_opt_float truthy andb];
    [|rewrite andb_false_r; now apply done].
  destruct (ftruthy lat); cbn [andb]; [|now apply done].
  destruct (ftruthy lon); cbn [andb]; [|now apply done].
  unfold outside_box, within. cbn [number_of bind].
  destruct (fle (FFin 4) lat && fle lat (FFin 14))%bool; cbn [negb bind orb].
  - destruct (fle (FFin 2) lon && fle lon (FFin 15))%bool;
      cbn [negb bind orb].
    + now apply done.
    + apply done. rewrite of_type_app, Ha1. reflexivity.
  - apply done. rewrite of_type_app, Ha1. reflexivity.
Qed.

(** C3.  The claim holds at the two positions it names: (9.0, 7.5) yields
    no coordinates finding and (40.0, 7.5) yields exactly one, of medium
    severity.  It fails where a coordinate is 0.0: latitude 0.0 is present
    and outside [4.0, 14.0], yet the guard [if lat and lon] takes it for
    absent and no finding is appended. *)
Theorem detect_data_anomalies_skips_zero_coordinate :
  (exists l, detect_data_anomalies (to_dict (located 9 7.5)) = Ok l
             /\ of_type "invalid_location" l = [])
  /\ (exists l, detect_data_anomalies (to_dict (located 40 7.5)) = Ok l
                /\ of_type "invalid_location" l
                   = [location_finding (FFin 40) (FFin 7.5)])
  /\ (exists l, detect_data_anomalies (to_dict (located 0 7.5)) = Ok l
                /\ latitude (located 0 7.5) = Some (FFin 0)
                /\ fle (FFin 4) (FFin 0) = false
                /\ of_type "invalid_location" l = []).
Proof.
  repeat split; eexists; repeat split.
Qed.

(** *** Priority *)

Lemma priority_level_note risk need rec p :
  priority_level (note risk need rec p) = priority_level p.
Proof. reflexivity. Qed.

Lemma priority_level_staffing_rule d p q :
  staffing_rule d p = Ok q -> priority_level q = priority_level p.
Proof.
  unfold staffing_rule.
  destruct (get_or _ _ d) as [| | | | | |hr_data];
    try (now intros [= <-]).
  destruct (staff_sum hr_data) as [n|]; cbn [bind]; [|discriminate].
  intros [= <-]. now destruct (Z.ltb n 5).
Qed.

Lemma priority_level_funding_rule d p :
  priority_level (funding_rule d p) = priority_level p.
Proof.
  unfold funding_rule.
  destruct (get_or _ _ d); try reflexivity.
  cbv zeta. now destruct (negb _).
Qed.

Lemma priority_level_infrastructure_rule d p :
  priority_level (infrastructure_rule d p) = priority_level p.
Proof.
  unfold infrastructure_rule.
  destruct (get_or _ _ d); try reflexivity.
  cbv zeta. now destruct (negb _), (negb _).
Qed.

(** The priority is settled by the condition rule; the later rules only
    append to the three lists. *)
Lemma predict_facility_needs_priority d p :
  predict_facility_needs d = Ok p ->
  exists c,
    condition_of d = VStr c
    /\ priority_level p =
       if mem (lower c) ["poor"; "critical"] then "high" else "medium".
Proof.
  unfold predict_facility_needs, condition_rule, condition_of.
  destruct (get_or (VStr "") "facility_condition" d) as [| | | |c| |];
    cbn [lower_of bind]; try discriminate.
  destruct (staffing_rule d _) as [p2|] eqn:Hstaff; cbn [bind];
    [|discriminate].
  intros [= <-]. exists c. split; [reflexivity|].
  rewrite priority_level_infrastructure_rule, priority_level_funding_rule.
  rewrite (priority_level_staffing_rule _ _ _ Hstaff).
  now destruct (mem _ _).
Qed.

(** C10.  Whenever [predict_facility_needs] returns, the priority is "high"
    exactly when the lower-cased [facility_condition] is "poor" or
    "critical" and "medium" otherwise; it is never "low", and two records
    with the same condition get the same priority whatever their staffing,
    funding and infrastructure blocks hold. *)
Theorem predict_facility_needs_priority_from_condition
  (d : pydict) (p : predictions) (returns : predict_facility_needs d = Ok p) :
  (exists c,
     condition_of d = VStr c
     /\ (mem (lower c) ["poor"; "critical"] = true
         -> priority_level p = "high")
     /\ (mem (lower c) ["poor"; "critical"] = false
         -> priority_level p = "medium"))
  /\ priority_level p <> "low"
  /\ (forall d' p',
        predict_facility_needs d' = Ok p' ->
        condition_of d' = condition_of d ->
        priority_level p' = priority_level p).
Proof.
  destruct (predict_facility_needs_priority d p returns) as (c & Hc & Hp).
  split; [|split].
  - exists c. split; [exact Hc|]. rewrite Hp.
    split; intros ->; reflexivity.
  - rewrite Hp. destruct (mem _ _); discriminate.
  - intros d' p' H' Hsame.
    destruct (predict_facility_needs_priority d' p' H') as (c' & Hc' & Hp').
    rewrite Hp, Hp'. replace c' with c; [reflexivity|congruence].
Qed.

(** A record in critical condition, short of staff, funds, power and
    water: the call returns with priority "high". *)
Lemma predict_facility_needs_priority_from_condition_witness :
  exists p,
    predict_facility_needs
      (to_dict
         (with_funding (VDict [("bhcpf_received", VStr "Yes")])
            (with_human_resources (VDict [("staff", VInt 2)])
               (with_condition "Critical" blank)))) = Ok p
    /\ priority_level p = "high"
    /\ priority_level p <> "low".
Proof.
  eexists. split; [reflexivity|].
  pose proof (predict_facility_needs_priority_from_condition
                (to_dict
                   (with_funding (VDict [("bhcpf_received", VStr "Yes")])
                      (with_human_resources (VDict [("staff", VInt 2)])
                         (with_condition "Critical" blank))))
                _ eq_refl) as (_ & Hlow & _).
  split; [reflexivity|exact Hlow].
Defined.

(** *** The two funding signals *)

Lemma get_funding_data v s :
  get_or (VDict []) "funding_data" (to_dict (with_funding v s)) = v.
Proof. reflexivity. Qed.

(** C9.  For a record whose funding block is a non-empty dict, the
    aggregation counts the facility as BHCPF-funded when [bhcpf_received] is
    "Yes" or [has_bhcpf] is truthy, while [predict_facility_needs] adds the
    risk factor "Lack of funding" unless [bhcpf_status] is "Received" or
    [has_bhcpf] is truthy.  The two disagree on the block
    [{"bhcpf_received": "Yes"}]: the report counts one funded facility and
    the prediction for the same record lists "Lack of funding". *)
Theorem funding_signal_differs_between_report_and_prediction :
  (forall kv block s f p,
     let record := with_funding (VDict (kv :: block)) s in
     Dashboard.bhcpf_facilities (Dashboard.funding_step record f)
     = (Dashboard.bhcpf_facilities f
        + if (eq_str (get "bhcpf_received" (kv :: block)) "Yes"
              || truthy (get "has_bhcpf" (kv :: block)))%bool
          then 1 else 0)%Z
     /\ risk_factors (funding_rule (to_dict record) p)
        = (risk_factors p
           ++ if (eq_str (get "bhcpf_status" (kv :: block)) "Received"
                  || truthy (get "has_bhcpf" (kv :: block)))%bool
              then [] else ["Lack of funding"])%list)
  /\ (let record :=
        with_funding (VDict [("bhcpf_received", VStr "Yes")])
                     (with_condition "good" blank) in
      (exists r,
         Dashboard.get_detailed_analytics [record] = Ok r
         /\ Dashboard.Report.bhcpf_facilities (Dashboard.Report.funding r)
            = 1%Z)
      /\ (exists p,
            predict_facility_needs (to_dict record) = Ok p
            /\ In "Lack of funding" (risk_factors p))).
Proof.
  split.
  - intros kv block s f p record. split.
    + unfold Dashboard.funding_step, Dashboard.impact_step.
      replace (Dashboard.bhcpf_facilities
                 match Dashboard.as_block (impact_funding_data record) with
                 | Some d => _
                 | None => Dashboard.bhcpf_step record f
                 end)
        with (Dashboard.bhcpf_facilities (Dashboard.bhcpf_step record f))
        by (destruct (Dashboard.as_block _); reflexivity).
      unfold Dashboard.bhcpf_step.
      change (Dashboard.as_block (funding_data record))
        with (Some (kv :: block)).
      unfold Dashboard.yes_or, Dashboard.incr_if. cbv zeta.
      destruct (eq_str _ _ || truthy _)%bool;
        destruct (truthy (get "amount" (kv :: block)));
        try destruct (Dashboard.amount_of _); cbn; lia.
    + unfold funding_rule. subst record. rewrite get_funding_data.
      cbv zeta. destruct (eq_str _ _ || truthy _)%bool; cbn [negb].
      * now rewrite app_nil_r.
      * reflexivity.
  - cbv zeta. split; eexists; (split; [reflexivity|]).
    + reflexivity.
    + vm_compute. left. reflexivity.
Qed.

(** *** Keywords *)

Lemma startswith_spec w s :
  startswith w s = true <-> exists post, s = w ++ post.
Proof.
  revert s. induction w as [|a w IH]; intros s; simpl.
  - split; [intros _; now exists s|reflexivity].
  - destruct s as [|b s].
    + split; [discriminate|intros (post & H); discriminate].
    + rewrite andb_true_iff, Ascii.eqb_eq, IH. split.
      * intros (-> & post & ->). now exists post.
      * intros (post & [= -> ->]). split; [reflexivity|now exists post].
Qed.

Lemma contains_spec w s : contains w s = true <-> Substring w s.
Proof.
  unfold Substring. induction s as [|b s IH].
  - simpl. rewrite orb_false_r, startswith_spec. split.
    + intros (post & H). now exists "", post.
    + intros ([|c pre] & post & H); [now exists post|discriminate].
  - cbn [contains]. rewrite orb_true_iff, startswith_spec, IH. split.
    + intros [(post & H)|(pre & post & ->)].
      * now exists "", post.
      * now exists (String b pre), post.
    + intros ([|c pre] & post & H).
      * left. now exists post.
      * right. injection H as -> ->. now exists pre, post.
Qed.

Lemma hits_from words text n :
  fold_left (fun n word => if contains word text then n + 1 else n) words n
  = (n + Z.of_nat (List.length (occurring words text)))%Z.
Proof.
  revert n. induction words as [|w words IH]; intros n; simpl.
  - lia.
  - rewrite IH. destruct (contains w text); simpl List.length; lia.
Qed.

Lemma hits_occurring words text :
  hits words text = Z.of_nat (List.length (occurring words text)).
Proof. unfold hits. now rewrite hits_from. Qed.

Lemma In_occurring w words text :
  In w (occurring words text) <-> In w words /\ Substring w text.
Proof. unfold occurring. now rewrite filter_In, contains_spec. Qed.

Lemma length_occurring_ge (picked words : list string) text :
  NoDup picked ->
  incl picked (occurring words text) ->
  (List.length picked <= List.length (occurring words text))%nat.
Proof. intros Hnd Hincl. now apply NoDup_incl_length. Qed.

Lemma both_empty issues comments :
  (negb (truthy (VStr issues)) && negb (truthy (VStr comments)))%bool = true
  <-> issues = "" /\ comments = "".
Proof.
  cbn [truthy]. rewrite andb_true_iff, !negb_involutive, !String.eqb_eq.
  reflexivity.
Qed.

Lemma analyze_issues_and_comments_keywords enabled issues comments :
  ~ (issues = "" /\ comments = "") ->
  analyze_issues_and_comments enabled issues comments
  = _basic_text_analysis (strip (issues ++ " " ++ comments)).
Proof.
  intros H. unfold analyze_issues_and_comments.
  destruct (negb _ && negb _)%bool eqn:E.
  - now apply both_empty in E.
  - now destruct enabled.
Qed.

(** C5.  On two empty inputs the analyser answers neutral, low and no
    topic.  On any other input, when more negative than positive keywords
    occur in the lower-cased combined text the sentiment is "negative" and
    the priority is "high" if more than three negative keywords occur and
    "medium" if not; in particular a text in which "broken", "urgent",
    "critical" and "poor" occur and no positive keyword does is rated
    negative and high. *)
Theorem analyze_issues_and_comments_negative_text
  (enabled : bool) (issues comments : string) :
  let r := analyze_issues_and_comments enabled issues comments in
  let text := searched issues comments in
  let negative := List.length (occurring negative_keywords text) in
  let positive := List.length (occurring positive_keywords text) in
  (issues = "" -> comments = "" ->
   sentiment r = "neutral" /\ priority r = "low" /\ topics r = [])
  /\ (~ (issues = "" /\ comments = "") ->
      (positive < negative)%nat ->
      sentiment r = "negative"
      /\ ((3 < negative)%nat -> priority r = "high")
      /\ ((negative <= 3)%nat -> priority r = "medium"))
  /\ (~ (issues = "" /\ comments = "") ->
      Substring "broken" text -> Substring "urgent" text ->
      Substring "critical" text -> Substring "poor" text ->
      (forall w, In w positive_keywords -> ~ Substring w text) ->
      sentiment r = "negative" /\ priority r = "high").
Proof.
  intros r text negative positive.
  assert (general :
            ~ (issues = "" /\ comments = "") ->
            (positive < negative)%nat ->
            sentiment r = "negative"
            /\ ((3 < negative)%nat -> priority r = "high")
            /\ ((negative <= 3)%nat -> priority r = "medium")).
  { intros Hne Hlt. subst r.
    rewrite (analyze_issues_and_comments_keywords _ _ _ Hne).
    unfold _basic_text_analysis.
    fold (searched issues comments). fold text.
    rewrite !hits_occurring. fold negative. fold positive.
    destruct (Z.gtb_spec (Z.of_nat negative) (Z.of_nat positive));
      [|lia].
    clearbody negative positive.
    destruct (Z.gtb_spec (Z.of_nat negative) 3); cbn [sentiment priority];
      (split; [reflexivity|split; intros; try reflexivity; lia]). }
  split; [|split].
  - intros -> ->. subst r. now destruct enabled.
  - exact general.
  - intros Hne Hb Hu Hc Hp Hnone.
    assert (Hpos : positive = 0%nat).
    { subst positive.
      destruct (occurring positive_keywords text) as [|w l] eqn:E;
        [reflexivity|].
      assert (Hin : In w (occurring positive_keywords text))
        by (rewrite E; now left).
      apply In_occurring in Hin. destruct Hin as (Hin & Hsub).
      now destruct (Hnone w Hin). }
    assert (Hneg : (4 <= negative)%nat).
    { subst negative.
      apply (length_occurring_ge ["broken"; "urgent"; "critical"; "poor"]).
      - repeat constructor; simpl; intuition discriminate.
      - intros w Hw. apply In_occurring.
        simpl in Hw.
        destruct Hw as [<-|[<-|[<-|[<-|[]]]]];
          (split; [simpl; tauto|assumption]). }
    destruct (general Hne) as (Hs & Hhigh & _); [lia|].
    split; [exact Hs|apply Hhigh; lia].
Qed.

(** The theorem at a complaint that names the four keywords. *)
Lemma analyze_issues_and_comments_negative_text_witness :
  let r :=
    analyze_issues_and_comments false
      "Roof BROKEN, urgent repair" "critical and poor state" in
  sentiment r = "negative" /\ priority r = "high".
Proof.
  refine (proj2 (proj2
    (analyze_issues_and_comments_negative_text false
       "Roof BROKEN, urgent repair" "critical and poor state"))
    _ _ _ _ _ _).
  - intros (H & _). discriminate H.
  - exists "roof ", ", urgent repair critical and poor state". reflexivity.
  - exists "roof broken, ", " repair critical and poor state". reflexivity.
  - exists "roof broken, urgent repair ", " and poor state". reflexivity.
  - exists "roof broken, urgent repair critical and ", " state". reflexivity.
  - intros w Hw Hsub. apply contains_spec in Hsub.
    simpl in Hw.
    destruct Hw as [<-|[<-|[<-|[<-|[<-|[<-|[]]]]]]]; discriminate Hsub.
Defined.

End AnalyserFacts.

(** * Numerals written and read back *)

Module LiteralFacts.

Import PyStr PyNum PyVal Submission Dashboard AIService.

Local Open Scope Z_scope.

(** The digits of a decimal numeral, first digit first. *)
Fixpoint numeral (d : Decimal.uint) : list Z :=
  match d with
  | Decimal.Nil => []
  | Decimal.D0 d' => 0 :: numeral d'
  | Decimal.D1 d' => 1 :: numeral d'
  | Decimal.D2 d' => 2 :: numeral d'
  | Decimal.D3 d' => 3 :: numeral d'
  | Decimal.D4 d' => 4 :: numeral d'
  | Decimal.D5 d' => 5 :: numeral d'
  | Decimal.D6 d' => 6 :: numeral d'
  | Decimal.D7 d' => 7 :: numeral d'
  | Decimal.D8 d' => 8 :: numeral d'
  | Decimal.D9 d' => 9 :: numeral d'
  end.

Definition written (d : Decimal.uint) : list ascii :=
  list_ascii_of_string (NilEmpty.string_of_uint d).

Lemma digit_tail_written d : digit_tail (written d) = (numeral d, []).
Proof.
  unfold written.
  induction d as [|d IH|d IH|d IH|d IH|d IH|d IH|d IH|d IH|d IH|d IH];
    [reflexivity|..];
    cbn [NilEmpty.string_of_uint list_ascii_of_string digit_tail numeral];
    match goal with
    | |- context [digit_val ?c] =>
        let v := eval vm_compute in (digit_val c) in
        change (digit_val c) with v
    end;
    cbv iota; rewrite IH; reflexivity.
Qed.

Lemma digitpart_written d :
  d <> Decimal.Nil -> digitpart (written d) = Some (numeral d, []).
Proof.
  intros Hd. unfold written.
  destruct d; [contradiction|..];
    cbn [NilEmpty.string_of_uint list_ascii_of_string digitpart numeral];
    match goal with
    | |- context [digit_val ?c] =>
        let v := eval vm_compute in (digit_val c) in
        change (digit_val c) with v
    end;
    cbv iota;
    match goal with
    | |- context [digit_tail (list_ascii_of_string
                                (NilEmpty.string_of_uint ?d'))] =>
        change (list_ascii_of_string (NilEmpty.string_of_uint d'))
          with (written d');
        rewrite (digit_tail_written d')
    end;
    reflexivity.
Qed.

Lemma sign_written d : sign (written d) = (false, written d).
Proof. destruct d; reflexivity. Qed.

Lemma fold_numeral d acc :
  fold_left (fun a x => 10 * a + x) (numeral d) (Z.pos acc)
  = Z.pos (Pos.of_uint_acc d acc).
Proof.
  revert acc.
  induction d as [|d IH|d IH|d IH|d IH|d IH|d IH|d IH|d IH|d IH|d IH];
    intros acc; [reflexivity|..];
    cbn [numeral fold_left Pos.of_uint_acc]; rewrite <- IH; f_equal; lia.
Qed.

Lemma Z_of_digits_numeral d : Z_of_digits (numeral d) = Z.of_N (Pos.of_uint d).
Proof.
  unfold Z_of_digits.
  induction d as [|d IH|d IH|d IH|d IH|d IH|d IH|d IH|d IH|d IH|d IH];
    [reflexivity|exact IH|..];
    cbn [numeral fold_left Pos.of_uint Z.of_N];
    rewrite <- fold_numeral; reflexivity.
Qed.

(** A numeral holds no blank of either kind and no comma. *)
Definition no_blank (c : ascii) : Prop :=
  is_space c = false /\ is_c_space c = false /\ Ascii.eqb c "," = false.

Lemma written_no_blank d : Forall no_blank (written d).
Proof.
  unfold written.
  induction d as [|d IH|d IH|d IH|d IH|d IH|d IH|d IH|d IH|d IH|d IH];
    [constructor|..];
    cbn [NilEmpty.string_of_uint list_ascii_of_string];
    (constructor; [repeat split|exact IH]).
Qed.

Lemma drop_while_clean p l :
  Forall (fun c => p c = false) l -> drop_while p l = l.
Proof.
  intros H. destruct H as [|c l Hc _]; [reflexivity|].
  cbn [drop_while]. now rewrite Hc.
Qed.

Lemma strip_list_clean p l :
  Forall (fun c => p c = false) l -> strip_list p l = l.
Proof.
  intros H. unfold strip_list.
  rewrite (drop_while_clean p l H), drop_while_clean.
  - apply rev_involutive.
  - apply Forall_rev. exact H.
Qed.

Lemma split_from_clean s tok :
  Forall (fun c => is_space c = false) (list_ascii_of_string s) ->
  split_from tok s
  = match (rev (list_ascii_of_string s) ++ tok)%list with
    | [] => []
    | l => [of_rev l]
    end.
Proof.
  revert tok.
  induction s as [|c s IH]; intros tok H;
    cbn [list_ascii_of_string split_from rev app].
  - now destruct tok.
  - inversion H as [|? ? Hc Hs]; subst. rewrite Hc, (IH _ Hs).
    now rewrite <- app_assoc.
Qed.

Lemma split_clean s :
  s <> EmptyString ->
  Forall (fun c => is_space c = false) (list_ascii_of_string s) ->
  split s = [s].
Proof.
  intros Hs H. unfold split. rewrite (split_from_clean s [] H).
  rewrite app_nil_r.
  destruct (rev (list_ascii_of_string s)) as [|c l] eqn:E.
  - exfalso. apply Hs. apply (f_equal (@rev ascii)) in E.
    rewrite rev_involutive in E. cbn in E.
    rewrite <- (string_of_list_ascii_of_string s), E. reflexivity.
  - unfold of_rev. rewrite <- E, rev_involutive.
    now rewrite string_of_list_ascii_of_string.
Qed.

Lemma of_Z_clean z :
  of_Z z <> EmptyString /\ Forall no_blank (list_ascii_of_string (of_Z z)).
Proof.
  unfold of_Z.
  assert (nonnil : forall p, Pos.to_uint p <> Decimal.Nil)
    by apply DecimalPos.Unsigned.to_uint_nonnil.
  assert (shape : forall d, d <> Decimal.Nil ->
            NilZero.string_of_uint d = NilEmpty.string_of_uint d
            /\ NilEmpty.string_of_uint d <> EmptyString).
  { intros d Hd. destruct d; [contradiction|..]; split;
      solve [reflexivity|discriminate]. }
  destruct z as [|p|p]; cbn [Z.to_int NilZero.string_of_int].
  - split; [discriminate|]. repeat constructor.
  - destruct (shape _ (nonnil p)) as [-> Hne].
    split; [exact Hne|apply written_no_blank].
  - destruct (shape _ (nonnil p)) as [-> Hne].
    split; [discriminate|]. cbn [list_ascii_of_string].
    constructor; [repeat split|apply written_no_blank].
Qed.

Lemma int_of_string_of_Z z : int_of_string (of_Z z) = Ok z.
Proof.
  destruct (of_Z_clean z) as [_ clean]. unfold int_of_string.
  rewrite strip_list_clean
    by (eapply Forall_impl; [|exact clean]; now intros c (_ & H & _)).
  unfold of_Z.
  assert (nonnil : forall p, Pos.to_uint p <> Decimal.Nil)
    by apply DecimalPos.Unsigned.to_uint_nonnil.
  assert (shape : forall d, d <> Decimal.Nil ->
            NilZero.string_of_uint d = NilEmpty.string_of_uint d).
  { intros d Hd. now destruct d; [contradiction|..]. }
  destruct z as [|p|p]; cbn [Z.to_int NilZero.string_of_int].
  - reflexivity.
  - rewrite (shape _ (nonnil p)).
    change (list_ascii_of_string (NilEmpty.string_of_uint (Pos.to_uint p)))
      with (written (Pos.to_uint p)).
    rewrite sign_written, (digitpart_written _ (nonnil p)).
    rewrite Z_of_digits_numeral, DecimalPos.Unsigned.of_to. reflexivity.
  - rewrite (shape _ (nonnil p)). cbn [list_ascii_of_string sign].
    change (list_ascii_of_string (NilEmpty.string_of_uint (Pos.to_uint p)))
      with (written (Pos.to_uint p)).
    rewrite (digitpart_written _ (nonnil p)).
    rewrite Z_of_digits_numeral, DecimalPos.Unsigned.of_to. reflexivity.
Qed.

Lemma headcount_of_int z : headcount (VInt z) = Ok z.
Proof.
  unfold headcount. cbn [str_scalar].
  destruct (of_Z_clean z) as [nonempty clean].
  rewrite split_clean;
    [|exact nonempty
     |eapply Forall_impl; [|exact clean]; now intros c (H & _)].
  cbn [first bind]. apply int_of_string_of_Z.
Qed.

(** *** [float] of a written integer *)

Lemma replace_clean c r s :
  Forall (fun a => Ascii.eqb a c = false) (list_ascii_of_string s) ->
  replace c r s = s.
Proof.
  induction s as [|a s IH]; cbn [list_ascii_of_string replace];
    [reflexivity|].
  intros H. inversion H as [|? ? Ha Hs]; subst.
  now rewrite Ha, (IH Hs).
Qed.

Lemma numeral_is_no_word d :
  d <> Decimal.Nil ->
  mem (lower (NilEmpty.string_of_uint d)) ["inf"; "infinity"]%string = false
  /\ String.eqb (lower (NilEmpty.string_of_uint d)) "nan" = false.
Proof.
  intros Hd. destruct d; [contradiction|..]; split; reflexivity.
Qed.

Lemma number_written d :
  d <> Decimal.Nil -> number (written d) = Some (numeral d, [], []).
Proof.
  intros Hd. unfold number. now rewrite (digitpart_written d Hd).
Qed.

Lemma float_of_numeral neg d :
  d <> Decimal.Nil ->
  (let word := lower (string_of_list_ascii (written d)) in
   if mem word ["inf"; "infinity"]%string then Ok (FInf neg)
   else if String.eqb word "nan" then Ok FNan
   else
     match number (written d) with
     | Some (ds, fs, r') =>
         match exponent r' with
         | Some e =>
             let m := signed neg (Z_of_digits (ds ++ fs)) in
             Ok (fnorm (scale10 m (e - Z.of_nat (List.length fs))))
         | None => Raise ValueError
         end
     | None => Raise ValueError
     end)
  = Ok (fnorm (inject_Z (signed neg (Z.of_N (Pos.of_uint d))))).
Proof.
  intros Hd. cbv zeta.
  assert (E : string_of_list_ascii (written d) = NilEmpty.string_of_uint d)
    by apply string_of_list_ascii_of_string.
  rewrite E. destruct (numeral_is_no_word d Hd) as [-> ->].
  rewrite (number_written d Hd). cbn [exponent].
  rewrite app_nil_r, Z_of_digits_numeral.
  cbn [List.length Z.of_nat Z.sub Z.opp]. unfold scale10. cbn [Z.leb Z.compare].
  now rewrite Z.pow_0_r, Z.mul_1_r.
Qed.

Lemma float_of_string_of_Z z :
  float_of_string (of_Z z) = Ok (fnorm (inject_Z z)).
Proof.
  destruct z as [|p|p]; [vm_compute; reflexivity|..].
  - destruct (of_Z_clean (Z.pos p)) as [_ clean]. unfold float_of_string.
    rewrite strip_list_clean
      by (eapply Forall_impl; [|exact clean]; now intros c (_ & H & _)).
    unfold of_Z. cbn [Z.to_int NilZero.string_of_int].
    pose proof (DecimalPos.Unsigned.to_uint_nonnil p) as nonnil.
    replace (NilZero.string_of_uint (Pos.to_uint p))
      with (NilEmpty.string_of_uint (Pos.to_uint p))
      by (now destruct (Pos.to_uint p)).
    change (list_ascii_of_string (NilEmpty.string_of_uint (Pos.to_uint p)))
      with (written (Pos.to_uint p)).
    rewrite sign_written.
    etransitivity; [exact (float_of_numeral false _ nonnil)|].
    now rewrite DecimalPos.Unsigned.of_to.
  - destruct (of_Z_clean (Z.neg p)) as [_ clean]. unfold float_of_string.
    rewrite strip_list_clean
      by (eapply Forall_impl; [|exact clean]; now intros c (_ & H & _)).
    unfold of_Z. cbn [Z.to_int NilZero.string_of_int].
    pose proof (DecimalPos.Unsigned.to_uint_nonnil p) as nonnil.
    replace (NilZero.string_of_uint (Pos.to_uint p))
      with (NilEmpty.string_of_uint (Pos.to_uint p))
      by (now destruct (Pos.to_uint p)).
    cbn [list_ascii_of_string sign].
    change (list_ascii_of_string (NilEmpty.string_of_uint (Pos.to_uint p)))
      with (written (Pos.to_uint p)).
    etransitivity; [exact (float_of_numeral true _ nonnil)|].
    now rewrite DecimalPos.Unsigned.of_to.
Qed.

(** [float(str(z).replace(',', ''))] is [z] as a [float]. *)
Lemma amount_of_int z : amount_of (VInt z) = Ok (fnorm (inject_Z z)).
Proof.
  unfold amount_of. cbn [str_scalar].
  destruct (of_Z_clean z) as [_ clean].
  rewrite replace_clean
    by (eapply Forall_impl; [|exact clean]; now intros c (_ & _ & H)).
  apply float_of_string_of_Z.
Qed.

End LiteralFacts.

(** * Properties of the analytics *)

Module AnalyticsFacts.

Import PyStr PyNum PyVal Submission Dashboard Props LiteralFacts.

Local Open Scope string_scope.

(** C4.  On no record at all the aggregation returns, and in its report
    every list is empty and every count, average and percentage is 0.  The
    guards in front of the divisions answer 0 for a denominator of 0
    whatever the numerator is, and no exception is raised. *)
Theorem get_detailed_analytics_of_no_record :
  (exists r, get_detailed_analytics [] = Ok r /\ all_zero r)
  /\ (forall v, percent v 0 = Ok (FFin 0))
  /\ (forall x, average_int x 0 = Ok (FFin 0))
  /\ (forall x, average_float x 0 = Ok (FFin 0))
  /\ mean [] = Ok (FFin 0).
Proof.
  split; [|repeat split].
  eexists. split; [reflexivity|].
  unfold all_zero. cbn. repeat split.
Qed.

(** *** Funding amounts *)

Lemma amounts_impact_step s f : amounts (impact_step s f) = amounts f.
Proof. unfold impact_step. now destruct (as_block _). Qed.

Lemma amounts_add_amount s x f :
  amounts (add_amount s x f) = credited (state s) x (amounts f).
Proof.
  unfold amounts, credited, add_amount, present. cbn.
  destruct (state s) as [k|]; [|reflexivity].
  cbn. now destruct (String.eqb k "").
Qed.

Lemma as_block_bound d k (v : pyval) :
  lookup k d = Some v -> as_block (VDict d) = Some d.
Proof. destruct d; [discriminate|reflexivity]. Qed.

(** What the funding block of one record does to the amounts, by the value
    under "amount". *)
Lemma amounts_funding_step s d v f :
  funding_data s = VDict d ->
  lookup "amount" d = Some v ->
  amounts (funding_step s f) =
    if truthy v
    then match amount_of v with
         | Ok x => credited (state s) x (amounts f)
         | Raise _ => amounts f
         end
    else amounts f.
Proof.
  intros Hblock Hamount. unfold funding_step.
  rewrite amounts_impact_step. unfold bhcpf_step.
  rewrite Hblock, (as_block_bound _ _ _ Hamount). cbv zeta.
  unfold get, get_or. rewrite Hamount.
  destruct (truthy v); [|reflexivity].
  destruct (amount_of v); [|reflexivity].
  now rewrite amounts_add_amount.
Qed.

(** The amounts after a record depend on the amounts before it, not on the
    counters next to them. *)
Lemma amounts_funding_step_congruent s f g :
  amounts f = amounts g ->
  amounts (funding_step s f) = amounts (funding_step s g).
Proof.
  intros H. unfold funding_step. rewrite !amounts_impact_step.
  unfold bhcpf_step. destruct (as_block (funding_data s)) as [d|];
    [|exact H].
  cbv zeta. destruct (truthy _); [|exact H].
  destruct (amount_of _); [|exact H].
  rewrite !amounts_add_amount. f_equal. exact H.
Qed.

Lemma amounts_fold_congruent subs a b :
  amounts (fund a) = amounts (fund b) ->
  amounts (fund (fold_left step subs a))
  = amounts (fund (fold_left step subs b)).
Proof.
  revert a b. induction subs as [|s subs IH]; intros a b H; [exact H|].
  cbn [fold_left]. apply IH. cbn [step fund].
  now apply amounts_funding_step_congruent.
Qed.

(** C6.  For a record whose funding block binds "amount" to [v]: a truthy
    [v] that [float] accepts once its commas are removed is added to the
    running total and, for a record with a state, to that state's total; any
    other [v] leaves both as they were.  The string "12,500" adds 12500.0;
    "not-a-number" adds nothing, raises nothing, and the scan goes on to the
    records after it as if the record had not been there.  What is added is
    settled for every kind of value: an integer other than 0 adds itself as
    a [float] (300 adds 300.0), a [float] other than 0.0 adds itself, a
    string adds what [float] reads in it without its commas, and [None], a
    boolean, a list or a dict adds nothing. *)
Theorem funding_amount_is_parsed_or_skipped
  (sub : FormSubmission) (d : pydict) (v : pyval)
  (block : funding_data sub = VDict d)
  (bound : lookup "amount" d = Some v) :
  (forall f x,
     truthy v = true -> amount_of v = Ok x ->
     amounts (funding_step sub f) = credited (state sub) x (amounts f))
  /\ (forall f,
        truthy v = false \/ (exists e, amount_of v = Raise e) ->
        amounts (funding_step sub f) = amounts f)
  /\ (forall t, amount_of (VStr t) = float_of_string (replace ","%char "" t))
  /\ (v = VStr "12,500" ->
      forall f,
        amounts (funding_step sub f)
        = credited (state sub) (FFin 12500) (amounts f))
  /\ (v = VStr "not-a-number" ->
      (forall f, amounts (funding_step sub f) = amounts f)
      /\ (forall before after,
            amounts (fund (scan (before ++ sub :: after)))
            = amounts (fund (scan (before ++ after)))))
  /\ (forall z, v = VInt z ->
      forall f,
        amounts (funding_step sub f)
        = if Z.eqb z 0 then amounts f
          else credited (state sub) (fnorm (inject_Z z)) (amounts f))
  /\ (forall x, v = VFloat x ->
      forall f,
        amounts (funding_step sub f)
        = if ftruthy x then credited (state sub) x (amounts f)
          else amounts f)
  /\ (forall t, v = VStr t ->
      forall f,
        amounts (funding_step sub f)
        = match float_of_string (replace ","%char "" t) with
          | Ok x => credited (state sub) x (amounts f)
          | Raise _ => amounts f
          end)
  /\ (v = VNone \/ (exists b, v = VBool b) \/ (exists l, v = VList l)
      \/ (exists d', v = VDict d') ->
      forall f, amounts (funding_step sub f) = amounts f)
  /\ (v = VInt 300 ->
      forall f,
        amounts (funding_step sub f)
        = credited (state sub) (FFin 300) (amounts f)).
Proof.
  pose proof (fun f => amounts_funding_step sub d v f block bound) as E.
  split; [|split; [|split; [|split; [|split; [|split; [|split;
    [|split; [|split]]]]]]]].
  - intros f x Ht Hx. now rewrite E, Ht, Hx.
  - intros f [Hf|(e & He)]; rewrite E.
    + now rewrite Hf.
    + rewrite He. now destruct (truthy v).
  - reflexivity.
  - intros -> f. now rewrite E.
  - intros ->. split.
    + intros f. now rewrite E.
    + intros before after. unfold scan. rewrite !fold_left_app.
      cbn [fold_left]. apply amounts_fold_congruent.
      cbn [step fund]. now rewrite E.
  - intros z -> f. rewrite E, amount_of_int. cbn [truthy].
    now destruct (Z.eqb z 0).
  - intros x -> f. rewrite E. cbn [truthy amount_of str_scalar].
    reflexivity.
  - intros t -> f. rewrite E. cbn [truthy amount_of str_scalar].
    destruct (String.eqb_spec t "") as [->|_]; [reflexivity|].
    reflexivity.
  - intros [->|[(b & ->)|[(l & ->)|(d' & ->)]]] f; rewrite E.
    + reflexivity.
    + now destruct b.
    + now destruct (truthy (VList l)).
    + now destruct (truthy (VDict d')).
  - intros -> f. now rewrite E.
Qed.

(** The theorem at a record of Kano state with the amount "12,500", and at
    one with the amount 300, each scanned on its own: the total and the
    state's total are 12500, and 300. *)
Lemma funding_amount_is_parsed_or_skipped_witness :
  amounts
    (funding_step
       (with_funding (VDict [("amount", VStr "12,500")])
          (with_state "Kano" blank))
       (fund initial))
  = (FFin 12500, [("Kano", FFin 12500)])
  /\ amounts
       (funding_step
          (with_funding (VDict [("amount", VInt 300)])
             (with_state "Kano" blank))
          (fund initial))
     = (FFin 300, [("Kano", FFin 300)]).
Proof.
  split.
  - rewrite (proj1 (proj2 (proj2 (proj2
               (funding_amount_is_parsed_or_skipped
                  (with_funding (VDict [("amount", VStr "12,500")])
                     (with_state "Kano" blank))
                  [("amount", VStr "12,500")] (VStr "12,500")
                  eq_refl eq_refl)))) eq_refl).
    reflexivity.
  - rewrite (proj2 (proj2 (proj2 (proj2 (proj2 (proj2 (proj2 (proj2 (proj2
               (funding_amount_is_parsed_or_skipped
                  (with_funding (VDict [("amount", VInt 300)])
                     (with_state "Kano" blank))
                  [("amount", VInt 300)] (VInt 300)
                  eq_refl eq_refl))))))))) eq_refl).
    reflexivity.
Defined.

(** *** Staff counts *)

Lemma fold_staff_item d n t :
  fold_left staff_item d (n, t)
  = ((n + sum_counts (staff_contributions d))%Z,
     filed (staff_contributions d) t).
Proof.
  revert n t. induction d as [|[k v] d IH]; intros n t.
  - cbn [fold_left staff_contributions flat_map sum_counts fold_right].
    f_equal. lia.
  - cbn [fold_left staff_contributions flat_map fst snd].
    unfold staff_item at 2.
    destruct (has_any _ k); cbn [app]; [|apply IH].
    destruct (count_of v) as [c|]; cbn [app]; [|apply IH].
    rewrite IH. unfold filed, sum_counts.
    cbn [fold_right fold_left fst snd]. fold (staff_contributions d).
    f_equal. lia.
Qed.

(** The staff block of one record: every count is filed by type; the
    record's own sum reaches the total only when it is positive. *)
Lemma staffing_step_block sub kv d h :
  human_resources_data sub = VDict (kv :: d) ->
  let l := staff_contributions (kv :: d) in
  staffing_step sub h =
    if Z.gtb (sum_counts l) 0
    then {| total_staff := total_staff h + sum_counts l;
            staff_by_type := filed l (staff_by_type h);
            facilities_with_staff := facilities_with_staff h + 1 |}
    else {| total_staff := total_staff h;
            staff_by_type := filed l (staff_by_type h);
            facilities_with_staff := facilities_with_staff h |}.
Proof.
  intros Hblock l. unfold staffing_step. rewrite Hblock.
  cbn [as_block truthy]. rewrite fold_staff_item. reflexivity.
Qed.

(** C7, as stated, fails on a negative count: under the key
    "nurse_staff_count" the value "-2 nurses" parses to -2, which is filed
    under the key's type but never reaches the total-staff accumulator. *)
Lemma negative_staff_count_misses_total :
  let sub := staffed "nurse_staff_count" (VStr "-2 nurses") in
  let after := staffing_step sub (hr initial) in
  staff_contributions [("nurse_staff_count", VStr "-2 nurses")]
  = [("Nurse Staff Count", (-2)%Z)]
  /\ staff_by_type after = [("Nurse Staff Count", (-2)%Z)]
  /\ total_staff after = 0%Z
  /\ total_staff after <> (total_staff (hr initial) + -2)%Z.
Proof.
  cbv zeta. repeat split. discriminate.
Qed.

(** C7, amended.  For a record with a non-empty staff block, every key that
    names staff, personnel or workers (in any case) and whose value parses
    to an integer, by its first blank-delimited token when it is a string,
    adds that integer to the accumulator of its type and to the record's own
    staff sum; the record's sum is added to the total-staff accumulator, and
    the record counted among the facilities with staff, when the sum is
    positive.  The block [{"nurse_staff_count": "12 nurses"}] adds 12 to the
    total and to the type "Nurse Staff Count". *)
Theorem staff_counts_are_filed_and_summed
  (sub : FormSubmission) (d : pydict) (h : staffing)
  (block : human_resources_data sub = VDict d) (nonempty : d <> []) :
  let l := staff_contributions d in
  let after := staffing_step sub h in
  staff_by_type after = filed l (staff_by_type h)
  /\ (0 < sum_counts l ->
      total_staff after = total_staff h + sum_counts l
      /\ facilities_with_staff after = facilities_with_staff h + 1)%Z
  /\ (sum_counts l <= 0 ->
      total_staff after = total_staff h
      /\ facilities_with_staff after = facilities_with_staff h)%Z
  /\ (forall k v n,
        In (k, v) d ->
        has_any ["staff"; "personnel"; "worker"] k = true ->
        count_of v = Ok n ->
        In (label k, n) l)
  /\ (forall s,
        count_of (VStr s) = (tok <- first (split s) ;; int_of_string tok))
  /\ (d = [("nurse_staff_count", VStr "12 nurses")] ->
      total_staff after = total_staff h + 12
      /\ staff_by_type after
         = add_to "Nurse Staff Count" 12 (staff_by_type h))%Z.
Proof.
  destruct d as [|kv d]; [now destruct nonempty|].
  intros l after. subst after.
  rewrite (staffing_step_block sub kv d h block). fold l.
  split; [|split; [|split; [|split; [|split]]]].
  - now destruct (Z.gtb _ 0).
  - intros Hpos. destruct (Z.gtb_spec (sum_counts l) 0); [|lia].
    now split.
  - intros Hneg. destruct (Z.gtb_spec (sum_counts l) 0); [lia|].
    now split.
  - intros k v n Hin Hk Hv. subst l. unfold staff_contributions.
    apply in_flat_map. exists (k, v). split; [exact Hin|].
    cbn [fst snd]. rewrite Hk, Hv. now left.
  - reflexivity.
  - intros E. subst l. rewrite E. now split.
Qed.

(** The theorem at the record whose staff block is
    [{"nurse_staff_count": "12 nurses"}], scanned first. *)
Lemma staff_counts_are_filed_and_summed_witness :
  let after :=
    staffing_step (staffed "nurse_staff_count" (VStr "12 nurses"))
                  (hr initial) in
  total_staff after = 12%Z
  /\ staff_by_type after = [("Nurse Staff Count", 12%Z)].
Proof.
  refine (proj2 (proj2 (proj2 (proj2 (proj2
    (staff_counts_are_filed_and_summed
       (staffed "nurse_staff_count" (VStr "12 nurses"))
       [("nurse_staff_count", VStr "12 nurses")] (hr initial)
       eq_refl _))))) eq_refl).
  discriminate.
Defined.

End AnalyticsFacts.

(** * Facts on numbers *)

Module NumFacts.

Import PyNum Props.

Local Open Scope Q_scope.

Lemma round_half_even_between q :
  (Qfloor q <= round_half_even q <= Qfloor q + 1)%Z.
Proof.
  unfold round_half_even.
  destruct (Qcompare _ _); [destruct (Z.even _)| |]; lia.
Qed.

(** Rounding to the nearest integer keeps the order. *)
Lemma round_half_even_monotone x y :
  x <= y -> (round_half_even x <= round_half_even y)%Z.
Proof.
  intros Hxy.
  pose proof (Qfloor_resp_le x y Hxy) as Hf.
  destruct (Z.eq_dec (Qfloor x) (Qfloor y)) as [E|NE].
  - unfold round_half_even. rewrite <- E.
    destruct (Qcompare_spec (x - inject_Z (Qfloor x)) (1 # 2)) as [Hx|Hx|Hx];
      destruct (Qcompare_spec (y - inject_Z (Qfloor x)) (1 # 2))
        as [Hy|Hy|Hy];
      try destruct (Z.even (Qfloor x)); try lia; exfalso; lra.
  - pose proof (round_half_even_between x).
    pose proof (round_half_even_between y). lia.
Qed.

Lemma round_half_even_Z z : round_half_even (inject_Z z) = z.
Proof.
  unfold round_half_even. rewrite Qfloor_Z.
  destruct (Qcompare_spec (inject_Z z - inject_Z z) (1 # 2)) as [H|H|H];
    [exfalso; lra|reflexivity|exfalso; lra].
Qed.

Lemma round2_finite q : round2 (FFin q) = FFin (Qred (rounded q)).
Proof. reflexivity. Qed.

Lemma rounded_monotone x y : x <= y -> rounded x <= rounded y.
Proof.
  intros H. unfold rounded.
  assert (Hz : (round_half_even (x * 100) <= round_half_even (y * 100))%Z)
    by (apply round_half_even_monotone; lra).
  rewrite Zle_Qle in Hz.
  apply Qmult_le_compat_r; [exact Hz|]. discriminate.
Qed.

Lemma rounded_Z z : rounded (inject_Z z) == inject_Z z.
Proof.
  unfold rounded.
  assert (E : inject_Z z * 100 == inject_Z (z * 100)).
  { rewrite inject_Z_mult. reflexivity. }
  unfold round_half_even. rewrite (Qfloor_comp _ _ E), Qfloor_Z.
  destruct (Qcompare_spec (inject_Z z * 100 - inject_Z (z * 100)) (1 # 2))
    as [H|H|H]; [exfalso; lra| |exfalso; lra].
  rewrite inject_Z_mult. field.
Qed.

Lemma rounded_range lo hi q :
  inject_Z lo <= q <= inject_Z hi ->
  inject_Z lo <= rounded q <= inject_Z hi.
Proof.
  intros [Hlo Hhi]. split.
  - rewrite <- (rounded_Z lo). now apply rounded_monotone.
  - rewrite <- (rounded_Z hi). now apply rounded_monotone.
Qed.

(** *** The order on floats *)

Lemma fle_finite x y : fle (FFin x) (FFin y) = true <-> x <= y.
Proof. apply Qle_bool_iff. Qed.

Lemma Qltb_lt x y : Qltb x y = true <-> x < y.
Proof.
  unfold Qltb. rewrite Qlt_alt. destruct (x ?= y); split; congruence.
Qed.

Lemma Qltb_ge x y : Qltb x y = false <-> y <= x.
Proof.
  unfold Qltb. rewrite Qge_alt. destruct (x ?= y); split; congruence.
Qed.

(** Away from NaN, [a < b] fails exactly when [b <= a]. *)
Lemma flt_false_fle a b :
  a <> FNan -> b <> FNan -> (flt a b = false <-> fle b a = true).
Proof.
  intros Ha Hb.
  destruct a as [x|[]|], b as [y|[]|]; cbn; try congruence;
    try (split; congruence).
  now rewrite Qltb_ge, Qle_bool_iff.
Qed.

Lemma flt_asymmetric a b : flt a b = true -> flt b a = false.
Proof.
  destruct a as [x|[]|], b as [y|[]|]; cbn; try congruence.
  rewrite Qltb_lt, Qltb_ge. apply Qlt_le_weak.
Qed.

Lemma flt_cotransitive a b c :
  b <> FNan ->
  flt a b = false -> flt b c = false -> flt a c = false.
Proof.
  intros Hb.
  destruct a as [x|[]|], b as [y|[]|], c as [z|[]|]; cbn;
    try congruence.
  rewrite !Qltb_ge. intros H1 H2. now apply Qle_trans with y.
Qed.

(** Rounding to two decimals keeps [<=]. *)
Lemma round2_monotone a b : fle a b = true -> fle (round2 a) (round2 b) = true.
Proof.
  destruct a as [x|[]|], b as [y|[]|]; cbn [round2 fle]; try congruence.
  rewrite !Qle_bool_iff, !Qred_correct. apply rounded_monotone.
Qed.

Lemma round2_nan a : round2 a = FNan <-> a = FNan.
Proof. destruct a as [x|[]|]; cbn; split; congruence. Qed.

(** *** Percentages *)

Lemma small_does_not_overflow q :
  Qabs q <= 100 -> overflows q = false.
Proof.
  intros H. unfold overflows.
  destruct (Qle_bool _ _) eqn:E; [|reflexivity].
  apply Qle_bool_iff in E.
  assert (Hbig : 100 < inject_Z float_overflow).
  { change 100 with (inject_Z 100). rewrite <- Zlt_Qlt.
    apply Z.ltb_lt. vm_compute. reflexivity. }
  exfalso. lra.
Qed.

End NumFacts.

(** * Facts on the ranking *)

Module RankFacts.

Import Dashboard Props.

Section Sorting.

Context {A K : Type} (ltb : K -> K -> bool) (key : A -> K).

(** The keys that can be compared, and what comparing them obeys. *)
Variable valid : K -> Prop.
Hypothesis asymmetric :
  forall a b, valid a -> valid b -> ltb a b = true -> ltb b a = false.
Hypothesis cotransitive :
  forall a b c, valid a -> valid b -> valid c ->
    ltb a b = false -> ltb b c = false -> ltb a c = false.

Let valid_keys (l : list A) : Prop := Forall (fun x => valid (key x)) l.

Lemma insert_permutation x l : Permutation (insert ltb key x l) (x :: l).
Proof.
  induction l as [|y l IH]; cbn [insert]; [reflexivity|].
  destruct (ltb (key y) (key x)); [|reflexivity].
  rewrite IH. apply perm_swap.
Qed.

Lemma sort_stable_permutation l : Permutation (sort_stable ltb key l) l.
Proof.
  induction l as [|x l IH]; cbn [sort_stable fold_right]; [reflexivity|].
  fold (sort_stable ltb key l). rewrite insert_permutation. now rewrite IH.
Qed.

Lemma sorted_reverse_permutation l :
  Permutation (sorted_reverse ltb key l) l.
Proof.
  unfold sorted_reverse.
  rewrite <- Permutation_rev, sort_stable_permutation.
  symmetry. apply Permutation_rev.
Qed.

Lemma valid_keys_permutation l l' :
  Permutation l l' -> valid_keys l -> valid_keys l'.
Proof. intros H. unfold valid_keys. now rewrite H. Qed.

Lemma insert_ascending x l :
  valid (key x) -> valid_keys l ->
  ascending ltb key l -> ascending ltb key (insert ltb key x l).
Proof.
  intros Hx. induction l as [|y l IH]; intros Hv Hs; cbn [insert].
  - repeat constructor.
  - apply Forall_cons_iff in Hv. destruct Hv as (Hy & Hv).
    apply StronglySorted_inv in Hs. destruct Hs as (Hs & Hall).
    destruct (ltb (key y) (key x)) eqn:E.
    + constructor; [now apply IH|].
      rewrite (insert_permutation x l). constructor; [|exact Hall].
      now apply asymmetric.
    + constructor; [now constructor|].
      constructor; [exact E|].
      rewrite Forall_forall in Hall, Hv |- *. intros z Hz.
      apply cotransitive with (key y); auto.
Qed.

Lemma sort_stable_ascending l :
  valid_keys l -> ascending ltb key (sort_stable ltb key l).
Proof.
  induction l as [|x l IH]; intros Hv; cbn [sort_stable fold_right].
  - constructor.
  - fold (sort_stable ltb key l).
    apply Forall_cons_iff in Hv. destruct Hv as (Hx & Hv).
    apply insert_ascending; [exact Hx| |now apply IH].
    apply (valid_keys_permutation l); [|exact Hv].
    symmetry. apply sort_stable_permutation.
Qed.

Lemma strongly_sorted_app (R : A -> A -> Prop) l1 l2 :
  StronglySorted R l1 -> StronglySorted R l2 ->
  (forall x y, In x l1 -> In y l2 -> R x y) ->
  StronglySorted R (l1 ++ l2).
Proof.
  induction l1 as [|a l1 IH]; intros H1 H2 H12; [exact H2|].
  apply StronglySorted_inv in H1. destruct H1 as (H1 & Ha).
  cbn. constructor.
  - apply IH; [exact H1|exact H2|]. intros x y Hx. apply H12. now right.
  - apply Forall_app. split; [exact Ha|].
    apply Forall_forall. intros y Hy. apply H12; [now left|exact Hy].
Qed.

Lemma strongly_sorted_rev (R : A -> A -> Prop) l :
  StronglySorted R l -> StronglySorted (fun x y => R y x) (rev l).
Proof.
  induction 1 as [|a l Hs IH Ha]; cbn [rev]; [constructor|].
  apply strongly_sorted_app; [exact IH|repeat constructor|].
  intros x y Hx [<-|[]]. rewrite Forall_forall in Ha.
  apply Ha. now apply in_rev.
Qed.

Lemma strongly_sorted_firstn (R : A -> A -> Prop) n l :
  StronglySorted R l -> StronglySorted R (firstn n l).
Proof.
  intros H. revert n. induction H as [|a l Hs IH Ha]; intros [|n];
    cbn [firstn]; try constructor.
  - apply IH.
  - rewrite Forall_forall in Ha |- *. intros x Hx. apply Ha.
    rewrite <- (firstn_skipn n l). apply in_or_app. now left.
Qed.

Lemma sorted_reverse_descending l :
  valid_keys l -> descending ltb key (sorted_reverse ltb key l).
Proof.
  intros Hv. unfold sorted_reverse, descending.
  apply (strongly_sorted_rev
           (fun x y => ltb (key y) (key x) = false)).
  apply sort_stable_ascending.
  apply (valid_keys_permutation l); [apply Permutation_rev|exact Hv].
Qed.

(** Two valid keys tied with a valid key are not below one another. *)
Lemma tied_not_below k x y :
  valid k -> valid (key x) -> valid (key y) ->
  tied ltb key k x = true -> tied ltb key k y = true ->
  ltb (key y) (key x) = false.
Proof.
  unfold tied. rewrite !andb_true_iff, !negb_true_iff.
  intros Hk Hx Hy (Hkx & _) (_ & Hyk).
  now apply cotransitive with k.
Qed.

Lemma insert_keeps_ties k x l :
  valid k -> valid (key x) -> valid_keys l ->
  filter (tied ltb key k) (insert ltb key x l)
  = filter (tied ltb key k) (x :: l).
Proof.
  intros Hk Hx. induction l as [|y l IH]; intros Hv; [reflexivity|].
  apply Forall_cons_iff in Hv. destruct Hv as (Hy & Hv).
  cbn [insert]. destruct (ltb (key y) (key x)) eqn:E; [|reflexivity].
  cbn [filter]. rewrite (IH Hv). cbn [filter].
  destruct (tied ltb key k y) eqn:Ty; [|reflexivity].
  destruct (tied ltb key k x) eqn:Tx; [|reflexivity].
  rewrite (tied_not_below k x y Hk Hx Hy Tx Ty) in E. discriminate.
Qed.

Lemma sort_stable_keeps_ties k l :
  valid k -> valid_keys l ->
  filter (tied ltb key k) (sort_stable ltb key l)
  = filter (tied ltb key k) l.
Proof.
  intros Hk. induction l as [|x l IH]; intros Hv; [reflexivity|].
  apply Forall_cons_iff in Hv. destruct Hv as (Hx & Hv).
  cbn [sort_stable fold_right]. fold (sort_stable ltb key l).
  rewrite insert_keeps_ties; [|exact Hk|exact Hx|].
  - cbn [filter]. now rewrite IH.
  - apply (valid_keys_permutation l); [|exact Hv].
    symmetry. apply sort_stable_permutation.
Qed.

Lemma sorted_reverse_ranks l :
  valid_keys l -> ranks ltb key valid l (sorted_reverse ltb key l).
Proof.
  intros Hv. split; [|split].
  - apply sorted_reverse_permutation.
  - now apply sorted_reverse_descending.
  - intros k Hk. unfold sorted_reverse.
    rewrite filter_rev, sort_stable_keeps_ties, filter_rev, rev_involutive;
      [reflexivity|exact Hk|].
    apply (valid_keys_permutation l); [apply Permutation_rev|exact Hv].
Qed.

Lemma top10_length l : (List.length (top10 ltb key l) <= 10)%nat.
Proof. unfold top10. apply firstn_le_length. Qed.

Lemma top10_incl l : incl (top10 ltb key l) l.
Proof.
  intros x Hx. unfold top10 in Hx.
  apply (Permutation_in x (sorted_reverse_permutation l)).
  rewrite <- (firstn_skipn 10 (sorted_reverse ltb key l)).
  apply in_or_app. now left.
Qed.

Lemma top10_top_ten l :
  valid_keys l -> top_ten ltb key valid l (top10 ltb key l).
Proof.
  intros Hv. split; [apply top10_length|split].
  - apply strongly_sorted_firstn. now apply sorted_reverse_descending.
  - exists (sorted_reverse ltb key l).
    split; [now apply sorted_reverse_ranks|reflexivity].
Qed.

End Sorting.

End RankFacts.

(** * Ranges of the report *)

Module RangeFacts.

Import PyStr PyNum PyVal Submission Dashboard Props NumFacts RankFacts.

Local Open Scope Z_scope.

(** *** Dictionaries *)

Lemma lookup_In {V : Type} k (d : list (string * V)) v :
  lookup k d = Some v -> In (k, v) d.
Proof.
  induction d as [|[k' v'] d IH]; cbn [lookup]; [discriminate|].
  destruct (String.eqb_spec k k') as [<-|_].
  - intros [= <-]. now left.
  - intros H. right. now apply IH.
Qed.

Lemma assign_Forall {V : Type} (P : string * V -> Prop) k v d :
  Forall P d -> P (k, v) -> Forall P (assign k v d).
Proof.
  intros Hd Hkv. induction Hd as [|[k' v'] d Hx Hd IH]; cbn [assign].
  - now constructor.
  - destruct (String.eqb k k'); constructor; assumption.
Qed.

Lemma get_or_Forall {V : Type} (P : V -> Prop) default k d :
  P default -> Forall (fun kv => P (snd kv)) d -> P (get_or default k d).
Proof.
  intros Hdef Hd. unfold get_or.
  destruct (lookup k d) as [v|] eqn:E; [|exact Hdef].
  apply lookup_In in E. rewrite Forall_forall in Hd. exact (Hd _ E).
Qed.

Lemma add_to_Forall (P P' : Z -> Prop) k n d :
  (forall v, P v -> P' v) ->
  (forall v, v = 0 \/ P v -> P' (v + n)) ->
  Forall (fun kv => P (snd kv)) d ->
  Forall (fun kv => P' (snd kv)) (add_to k n d).
Proof.
  intros Hweak Hadd Hd. unfold add_to. apply assign_Forall.
  - revert Hd. apply Forall_impl. intros kv. apply Hweak.
  - cbn [snd]. apply Hadd.
    apply (get_or_Forall (fun v => v = 0 \/ P v)); [now left|].
    revert Hd. apply Forall_impl. intros kv H. now right.
Qed.

Lemma tally_within n field d :
  0 <= n -> all_within 1 n d -> all_within 1 (n + 1) (tally field d).
Proof.
  intros Hn Hd. unfold tally.
  assert (Hweak : all_within 1 (n + 1) d).
  { revert Hd. apply Forall_impl. intros kv. cbn. lia. }
  destruct field as [k|]; [|exact Hweak].
  destruct (present _); [|exact Hweak].
  apply (add_to_Forall (fun v => 1 <= v <= n) (fun v => 1 <= v <= n + 1));
    [intros; lia|intros; lia|exact Hd].
Qed.

Lemma incr_if_within b n c :
  0 <= c <= n -> 0 <= incr_if b c <= n + 1.
Proof. unfold incr_if. destruct b; lia. Qed.

(** *** One record *)

Lemma counters_bhcpf_step s f :
  (bhcpf_facilities (bhcpf_step s f) = bhcpf_facilities f
   \/ bhcpf_facilities (bhcpf_step s f) = bhcpf_facilities f + 1)
  /\ impact_facilities (bhcpf_step s f) = impact_facilities f.
Proof.
  unfold bhcpf_step. destruct (as_block _) as [d|]; [|now split; [left|]].
  cbv zeta. unfold incr_if.
  destruct (yes_or _ _ d), (truthy _); try destruct (amount_of _);
    cbn; split; auto.
Qed.

Lemma counters_impact_step s f :
  bhcpf_facilities (impact_step s f) = bhcpf_facilities f
  /\ (impact_facilities (impact_step s f) = impact_facilities f
      \/ impact_facilities (impact_step s f) = impact_facilities f + 1).
Proof.
  unfold impact_step. destruct (as_block _) as [d|]; [|now split; [|left]].
  unfold incr_if. destruct (yes_or _ _ d); cbn; split; auto.
Qed.

Lemma offered_item_positive offered kv :
  Forall (fun kv => 1 <= snd kv) offered ->
  Forall (fun kv => 1 <= snd kv) (offered_item offered kv).
Proof.
  intros H. destruct kv as [key value]. unfold offered_item.
  destruct value; try exact H.
  destruct (mem _ _); [|exact H].
  apply (add_to_Forall (fun v => 1 <= v) (fun v => 1 <= v));
    [intros; lia|intros; lia|exact H].
Qed.

Lemma fold_offered_item_positive d offered :
  Forall (fun kv => 1 <= snd kv) offered ->
  Forall (fun kv => 1 <= snd kv) (fold_left offered_item d offered).
Proof.
  revert offered. induction d as [|kv d IH]; intros offered H; [exact H|].
  cbn [fold_left]. apply IH. now apply offered_item_positive.
Qed.

Lemma staffing_step_totals s h :
  0 <= total_staff h ->
  0 <= total_staff (staffing_step s h)
  /\ (facilities_with_staff (staffing_step s h) = facilities_with_staff h
      \/ facilities_with_staff (staffing_step s h)
         = facilities_with_staff h + 1).
Proof.
  intros H. unfold staffing_step.
  destruct (as_block _) as [d|]; [|split; [exact H|now left]].
  destruct (fold_left staff_item d (0, staff_by_type h)) as [n t].
  destruct (Z.gtb_spec n 0); cbn; split; auto; lia.
Qed.

Lemma step_bounded n a s : bounded n a -> bounded (n + 1) (step a s).
Proof.
  intros (Hn & (C1 & C2 & C3 & C4 & C5) & (F1 & F2)
          & (I1 & I2 & I3 & I4 & I5) & (H1 & H2) & S1).
  split; [lia|]. split; [|split; [|split; [|split]]].
  - cbn [step cat categorical_step condition_counts ownership_counts
         assessment_type_counts has_health_workers_counts zone_counts].
    split; [|split; [|split; [|split]]]; now apply tally_within.
  - cbn [step fund]. unfold funding_step.
    destruct (counters_impact_step s (bhcpf_step s (fund a))) as (E1 & E2).
    destruct (counters_bhcpf_step s (fund a)) as (E3 & E4).
    rewrite E1. split; [destruct E3 as [-> | ->]; lia|].
    destruct E2 as [-> | ->]; rewrite E4; lia.
  - cbn [step infra]. unfold infrastructure_step.
    destruct (as_block _) as [d|];
      cbn [has_power has_water has_internet has_pharmacy
           revitalization_count];
      (split; [|split; [|split; [|split]]]);
      try (apply incr_if_within; assumption); lia.
  - cbn [step hr].
    destruct (staffing_step_totals s (hr a) H1) as (T1 & T2).
    split; [exact T1|]. destruct T2 as [-> | ->]; lia.
  - cbn [step svc]. unfold services_step.
    destruct (as_block _) as [d|]; [|exact S1].
    cbn [services_offered]. now apply fold_offered_item_positive.
Qed.

Lemma len_cons {A : Type} (x : A) l : len (x :: l) = len l + 1.
Proof. unfold len. cbn [List.length]. lia. Qed.

Lemma fold_step_bounded subs n a :
  bounded n a -> bounded (n + len subs) (fold_left step subs a).
Proof.
  revert n a. induction subs as [|s subs IH]; intros n a H.
  - unfold len. cbn. now rewrite Z.add_0_r.
  - cbn [fold_left]. rewrite len_cons.
    replace (n + (len subs + 1)) with (n + 1 + len subs) by lia.
    apply IH. now apply step_bounded.
Qed.

(** After the scan every tally and counter is within the number of
    records. *)
Lemma scan_bounded subs : bounded (len subs) (scan subs).
Proof.
  unfold scan. change (len subs) with (0 + len subs).
  apply fold_step_bounded. unfold bounded, all_within. cbn.
  repeat split; try lia; constructor.
Qed.

(** *** Percentages *)

Lemma ratio_range v n :
  0 <= v <= n -> 0 < n ->
  (0 <= inject_Z v / inject_Z n <= 1)%Q.
Proof.
  intros (Hv & Hvn) Hn.
  assert (Hq : (0 < inject_Z n)%Q)
    by (change 0%Q with (inject_Z 0); now rewrite <- Zlt_Qlt).
  split.
  - apply Qle_shift_div_l; [exact Hq|].
    rewrite Qmult_0_l. change 0%Q with (inject_Z 0). now rewrite <- Zle_Qle.
  - apply Qle_shift_div_r; [exact Hq|].
    rewrite Qmult_1_l. now rewrite <- Zle_Qle.
Qed.

Lemma ratio_nonnegative v n :
  0 <= v -> 0 < n -> (0 <= inject_Z v / inject_Z n)%Q.
Proof.
  intros Hv Hn.
  apply Qle_shift_div_l.
  - change 0%Q with (inject_Z 0). now rewrite <- Zlt_Qlt.
  - rewrite Qmult_0_l. change 0%Q with (inject_Z 0). now rewrite <- Zle_Qle.
Qed.

Lemma Qneg_nonnegative q : (0 <= q)%Q -> Qneg q = false.
Proof.
  unfold Qneg, Qle. cbn. intros H. apply Z.ltb_ge. lia.
Qed.

Lemma round2_finite_range lo hi q :
  (inject_Z lo <= q <= inject_Z hi)%Q ->
  fle (FFin (inject_Z lo)) (round2 (FFin q)) = true
  /\ fle (round2 (FFin q)) (FFin (inject_Z hi)) = true.
Proof.
  intros H. rewrite round2_finite, !fle_finite, Qred_correct.
  now apply rounded_range.
Qed.

Lemma round2_finite_nonnegative q :
  (inject_Z 0 <= q)%Q -> fle (FFin 0) (round2 (FFin q)) = true.
Proof.
  intros H. rewrite round2_finite. apply fle_finite. rewrite Qred_correct.
  rewrite <- (rounded_Z 0). now apply rounded_monotone.
Qed.

(** A part of a whole is between 0 and 100 percent of it. *)
Lemma percent_in_range v n p :
  0 <= v <= n -> percent v n = Ok p -> in_percent_range p.
Proof.
  intros Hv. unfold percent, in_percent_range, nonnegative, at_most_100.
  destruct (Z.gtb_spec n 0) as [Hn|Hn]; cbn [bind].
  - unfold truediv_int.
    destruct (Z.eqb_spec n 0) as [->|_]; [lia|].
    pose proof (ratio_range v n Hv Hn) as Hq.
    set (q := (inject_Z v / inject_Z n)%Q) in *.
    rewrite small_does_not_overflow
      by (apply Qabs_Qle_condition; split; lra).
    cbn [bind fmul_int]. unfold fnorm.
    rewrite small_does_not_overflow
      by (rewrite Qred_correct; apply Qabs_Qle_condition;
          change (inject_Z 100) with 100%Q; split; lra).
    assert (Hy : (inject_Z 0 <= Qred (Qred q * inject_Z 100)
                  <= inject_Z 100)%Q).
    { rewrite !Qred_correct.
      change (inject_Z 100) with 100%Q. change (inject_Z 0) with 0%Q.
      split; lra. }
    revert Hy. generalize (Qred (Qred q * inject_Z 100)). intros y Hy.
    intros [= <-]. exact (round2_finite_range 0 100 y Hy).
  - intros [= <-]. split; reflexivity.
Qed.

(** A count that is not negative has a percentage that is not negative. *)
Lemma percent_nonnegative v n p :
  0 <= v -> percent v n = Ok p -> nonnegative p.
Proof.
  intros Hv. unfold percent, nonnegative.
  destruct (Z.gtb_spec n 0) as [Hn|Hn]; cbn [bind].
  - unfold truediv_int.
    destruct (Z.eqb_spec n 0) as [->|_]; [lia|].
    pose proof (ratio_nonnegative v n Hv Hn) as Hq.
    set (q := (inject_Z v / inject_Z n)%Q) in *.
    destruct (overflows q); [discriminate|].
    cbn [bind fmul_int]. unfold fnorm.
    assert (Hx : (0 <= Qred q * inject_Z 100)%Q).
    { rewrite Qred_correct. change (inject_Z 100) with 100%Q. lra. }
    destruct (overflows _).
    + rewrite (Qneg_nonnegative _ Hx). now intros [= <-].
    + assert (Hy : (inject_Z 0 <= Qred (Qred q * inject_Z 100))%Q)
        by now rewrite Qred_correct.
      revert Hy. generalize (Qred (Qred q * inject_Z 100)). intros y Hy.
      intros [= <-]. exact (round2_finite_nonnegative y Hy).
  - intros [= <-]. reflexivity.
Qed.

(** *** Comprehensions *)

Lemma for_each_Forall {A B : Type} (f : A -> res B)
  (P : A -> Prop) (Q : B -> Prop) l ys :
  (forall x y, P x -> f x = Ok y -> Q y) ->
  Forall P l -> for_each f l = Ok ys -> Forall Q ys.
Proof.
  intros Hf Hl. revert ys.
  induction Hl as [|x l Hx Hl IH]; intros ys; cbn [for_each].
  - intros [= <-]. constructor.
  - destruct (f x) as [y|] eqn:Ey; cbn [bind]; [|discriminate].
    destruct (for_each f l) as [ys'|]; cbn [bind]; [|discriminate].
    intros [= <-]. constructor; [now apply (Hf x)|now apply IH].
Qed.

Lemma for_each_map {A B C : Type} (f : A -> res B) (g : A -> C)
  (h : B -> C) l ys :
  (forall x y, f x = Ok y -> h y = g x) ->
  for_each f l = Ok ys -> map h ys = map g l.
Proof.
  intros Hf. revert ys.
  induction l as [|x l IH]; intros ys; cbn [for_each].
  - now intros [= <-].
  - destruct (f x) as [y|] eqn:Ey; cbn [bind]; [|discriminate].
    destruct (for_each f l) as [ys'|]; cbn [bind]; [|discriminate].
    intros [= <-]. cbn [map]. now rewrite (Hf x y Ey), (IH ys').
Qed.

Lemma shares_in_range n d l :
  all_within 1 n d ->
  for_each (share_of n) d = Ok l -> Forall share_in_range l.
Proof.
  intros Hd. apply for_each_Forall with (P := fun kv => 1 <= snd kv <= n);
    [|exact Hd].
  intros [k v] y Hv. unfold share_of. cbn [fst snd] in *.
  destruct (percent v n) as [p|] eqn:Ep; cbn [bind]; [|discriminate].
  intros [= <-]. split; cbn; [lia|].
  apply (percent_in_range v n); [lia|exact Ep].
Qed.

Lemma shares_nonnegative n d l :
  Forall (fun kv => 1 <= snd kv) d ->
  for_each (share_of n) d = Ok l ->
  Forall (fun s => 0 <= Report.count s /\ nonnegative (Report.percentage s))
         l.
Proof.
  intros Hd. apply for_each_Forall with (P := fun kv => 1 <= snd kv);
    [|exact Hd].
  intros [k v] y Hv. unfold share_of. cbn [fst snd] in *.
  destruct (percent v n) as [p|] eqn:Ep; cbn [bind]; [|discriminate].
  intros [= <-]. split; cbn; [lia|].
  apply (percent_nonnegative v n); [lia|exact Ep].
Qed.

Lemma categories_nonnegative d l :
  for_each category_of d = Ok l ->
  Forall (fun kc => 0 <= Report.responses (snd kc)) l.
Proof.
  apply for_each_Forall with (P := fun _ => True).
  - intros [k v] y _. unfold category_of. cbn [fst snd].
    destruct (mean v); cbn [bind]; [|discriminate].
    intros [= <-]. cbn. unfold len. lia.
  - apply Forall_forall. trivial.
Qed.

Lemma within_nonnegative n d : all_within 1 n d -> counts_nonnegative d.
Proof. apply Forall_impl. intros kv. cbn. lia. Qed.

Lemma len_filter_le {A : Type} (f : A -> bool) l :
  0 <= len (filter f l) <= len l.
Proof. unfold len. pose proof (filter_length_le f l). lia. Qed.

(** The chain of computations of [get_detailed_analytics], taken apart: each
    fallible field is named and given the equation that produced it. *)
Ltac take_apart H :=
  unfold get_detailed_analytics in H; cbv zeta in H;
  repeat match type of H with
    | bind ?c _ = Ok _ =>
        let x := fresh "x" in
        let E := fresh "E" in
        destruct c as [x|] eqn:E; cbn [bind] in H; [|discriminate H]
    end;
  injection H as H; subst.

(** C2, as stated, fails on [odd_record], whose staff block holds the count
    "-5", whose services block holds "-3" patients and two keys,
    "anc_service" and "anc service", that name the one service "Anc Service":
    the report of that record alone shows -5 staff of type "Staff", -3
    patients and the service at 200 percent. *)
Lemma odd_record_leaves_the_ranges :
  exists r,
    get_detailed_analytics [odd_record] = Ok r
    /\ Report.staff_by_type (Report.human_resources r) = [("Staff"%string, -5)]
    /\ Report.total_patients (Report.utilization r) = -3
    /\ Report.top_services_offered (Report.utilization r)
       = [{| Report.name := "Anc Service"; Report.count := 2;
             Report.percentage := FFin 200 |}]
    /\ ~ ranges_claimed r.
Proof.
  eexists. split; [reflexivity|].
  split; [reflexivity|split; [reflexivity|split; [reflexivity|]]].
  intros (_ & _ & H & _). exact (H eq_refl).
Qed.

(** C2, amended.  In every report the aggregation returns, each percentage
    of a distribution entry, of BHCPF and IMPACT funding, of the five
    infrastructure capabilities and of data completeness lies in [0, 100],
    the percentage of a service is 0 or more, and each count is 0 or more
    but for the counts by staff type and the number of patients. *)
Theorem report_ranges (submissions : list FormSubmission) (r : Report.t)
  (returned : get_detailed_analytics submissions = Ok r) :
  ranges_kept r.
Proof.
  destruct (scan_bounded submissions)
    as (Hn & (C1 & C2 & C3 & C4 & C5) & (F1 & F2)
        & (I1 & I2 & I3 & I4 & I5) & (H1 & H2) & S1).
  take_apart returned. unfold ranges_kept.
  cbn [Report.facility Report.funding Report.infrastructure
       Report.human_resources Report.utilization Report.satisfaction
       Report.overall Report.condition_distribution
       Report.ownership_distribution Report.assessment_type_distribution
       Report.health_workers_distribution
       Report.geopolitical_zone_distribution Report.bhcpf_facilities
       Report.bhcpf_percentage Report.impact_facilities
       Report.impact_percentage Report.facilities_with_power
       Report.power_percentage Report.facilities_with_water
       Report.water_percentage Report.facilities_with_internet
       Report.internet_percentage Report.facilities_with_pharmacy
       Report.pharmacy_percentage Report.revitalized_facilities
       Report.revitalization_percentage Report.total_staff
       Report.facilities_with_staff Report.top_services_offered
       Report.total_responses Report.scores_by_category
       Report.total_facilities Report.facilities_with_complete_data
       Report.data_completeness_percentage].
  pose proof (len_filter_le complete submissions) as Hc.
  repeat match goal with
    | |- _ /\ _ => split
    | |- Forall share_in_range _ =>
        eapply shares_in_range; [|eassumption]; assumption
    | |- counts_nonnegative _ => eapply within_nonnegative; eassumption
    | |- in_percent_range _ =>
        eapply percent_in_range; [|eassumption]; assumption
    | |- Forall (fun kc => 0 <= Report.responses (snd kc)) _ =>
        eapply categories_nonnegative; eassumption
    | |- (0 <= len _) => unfold len; lia
    | |- (0 <= _) => lia
    end.
  eapply shares_nonnegative; [|eassumption].
  apply Forall_forall. intros kv Hkv.
  rewrite Forall_forall in S1. apply S1.
  now apply (top10_incl Z.ltb snd) in Hkv.
Qed.

(** The theorem at the report of [odd_record] alone: the ranges that are
    kept hold of it. *)
Lemma report_ranges_witness :
  exists r, get_detailed_analytics [odd_record] = Ok r /\ ranges_kept r.
Proof.
  eexists. split; [reflexivity|].
  exact (report_ranges [odd_record] _ eq_refl).
Defined.

End RangeFacts.

(** * The top-ten lists *)

Module TopTenFacts.

Import PyStr PyNum PyVal Submission Dashboard Props NumFacts RankFacts.
Import RangeFacts.

Lemma strongly_sorted_impl {A : Type} (R R' : A -> A -> Prop) l :
  (forall x y, In x l -> In y l -> R x y -> R' x y) ->
  StronglySorted R l -> StronglySorted R' l.
Proof.
  intros HR H. induction H as [|a l Hs IH Ha]; constructor.
  - apply IH. intros x y Hx Hy. apply HR; now right.
  - rewrite Forall_forall in Ha |- *. intros y Hy.
    apply HR; [now left|now right|now apply Ha].
Qed.

Lemma strongly_sorted_map {A B : Type} (f : A -> B) (R : B -> B -> Prop) l :
  StronglySorted (fun x y => R (f x) (f y)) l -> StronglySorted R (map f l).
Proof.
  induction 1 as [|a l Hs IH Ha]; cbn [map]; constructor; [exact IH|].
  apply Forall_map. exact Ha.
Qed.

(** The entries of a distribution are the tallies, in their order. *)
Lemma shares_entries n d l :
  for_each (share_of n) d = Ok l ->
  map (fun s => (Report.name s, Report.count s)) l = d.
Proof.
  intros H. rewrite <- (map_id d).
  apply (for_each_map (share_of n)); [|exact H].
  intros [k v] y. unfold share_of.
  destruct (percent (snd (k, v)) n); cbn [bind]; [|discriminate].
  now intros [= <-].
Qed.

(** Counts are ranked whatever they are. *)
Lemma top10_counts (d : list (string * Z)) :
  top_ten Z.ltb snd any_count d (top10 Z.ltb snd d).
Proof.
  apply top10_top_ten.
  - intros a b _ _ H. apply Z.ltb_lt in H. apply Z.ltb_ge. lia.
  - intros a b c _ _ _ H1 H2. apply Z.ltb_ge in H1, H2. apply Z.ltb_ge. lia.
  - apply Forall_forall. intros x _. exact I.
Qed.

Lemma descending_counts (l : list (string * Z)) :
  descending Z.ltb snd l ->
  StronglySorted (fun x y => snd y <= snd x)%Z l.
Proof.
  apply strongly_sorted_impl. intros x y _ _ H. now apply Z.ltb_ge.
Qed.

(** Amounts are ranked when none of them is NaN. *)
Lemma top10_amounts (d : list (string * pyfloat)) :
  Forall (fun kv => not_nan (snd kv)) d ->
  top_ten flt snd not_nan d (top10 flt snd d).
Proof.
  intros Hd. apply top10_top_ten.
  - intros a b _ _. apply flt_asymmetric.
  - intros a b c _ Hb _. now apply flt_cotransitive.
  - exact Hd.
Qed.

Lemma descending_rounded (l : list (string * pyfloat)) :
  Forall (fun kv => not_nan (snd kv)) l ->
  descending flt snd l ->
  StronglySorted (fun x y => fle (snd y) (snd x) = true)
                 (map (fun kv => (fst kv, round2 (snd kv))) l).
Proof.
  intros Hl H. apply strongly_sorted_map. cbn [snd].
  revert H. apply strongly_sorted_impl. intros x y Hx Hy Hxy.
  rewrite Forall_forall in Hl.
  apply round2_monotone. now apply flt_false_fle; [apply Hl..|].
Qed.

(** C8, as stated, fails on [nan_records]: the amount "nan" makes the total
    of the second state NaN, which compares false with every number, and
    the ranking leaves the three states as they came, 1.0 in front of 2.0. *)
Lemma nan_amount_breaks_the_ranking :
  exists r,
    get_detailed_analytics nan_records = Ok r
    /\ Report.funding_by_state (Report.funding r)
       = [("Abia"%string, FFin 1); ("Bauchi"%string, FNan);
          ("Cross River"%string, FFin 2)]
    /\ ~ descending flt snd (Report.funding_by_state (Report.funding r))
    /\ ~ StronglySorted (fun x y => fle (snd y) (snd x) = true)
                        (Report.funding_by_state (Report.funding r)).
Proof.
  eexists. split; [reflexivity|]. split; [reflexivity|].
  split; intros H; apply StronglySorted_inv in H; destruct H as (_ & H);
    apply Forall_cons_iff in H; destruct H as (_ & H);
    apply Forall_cons_iff in H; destruct H as (H & _);
    discriminate H.
Qed.

(** C8, amended.  In every report the aggregation returns, the lists of
    staff by type, of services offered and of funding by state have at most
    ten entries.  The first two are the first ten of the accumulated counts
    ranked by descending count, entries with equal counts in the order they
    were first met.  So is the third, by descending amount, when no state's
    accumulated amount is NaN; the rounded amounts it shows descend as
    well. *)
Theorem top_ten_lists (submissions : list FormSubmission) (r : Report.t)
  (returned : get_detailed_analytics submissions = Ok r) :
  let a := scan submissions in
  let staff := Report.staff_by_type (Report.human_resources r) in
  let offered :=
    map (fun s => (Report.name s, Report.count s))
        (Report.top_services_offered (Report.utilization r)) in
  let funded := Report.funding_by_state (Report.funding r) in
  (top_ten Z.ltb snd any_count (staff_by_type (hr a)) staff
   /\ StronglySorted (fun x y => snd y <= snd x)%Z staff)
  /\ (top_ten Z.ltb snd any_count (services_offered (svc a)) offered
      /\ StronglySorted (fun x y => snd y <= snd x)%Z offered)
  /\ (List.length funded <= 10)%nat
  /\ (Forall (fun kv => not_nan (snd kv)) (funding_by_state (fund a)) ->
      (exists ranked,
         top_ten flt snd not_nan (funding_by_state (fund a)) ranked
         /\ funded = map (fun kv => (fst kv, round2 (snd kv))) ranked)
      /\ StronglySorted (fun x y => fle (snd y) (snd x) = true) funded).
Proof.
  take_apart returned.
  cbn [Report.human_resources Report.staff_by_type Report.utilization
       Report.top_services_offered Report.funding Report.funding_by_state].
  assert (Eoffered :
            map (fun s => (Report.name s, Report.count s)) x12
            = top10 Z.ltb snd (services_offered (svc (scan submissions)))).
  { eapply shares_entries; eassumption. }
  rewrite Eoffered.
  split; [|split; [|split]].
  - split; [apply top10_counts|].
    apply descending_counts, top10_counts.
  - split; [apply top10_counts|].
    apply descending_counts, top10_counts.
  - rewrite length_map. apply top10_length.
  - intros Hnan. split.
    + eexists. split; [now apply top10_amounts|reflexivity].
    + apply descending_rounded; [|now apply top10_amounts].
      apply Forall_forall. intros kv Hkv.
      rewrite Forall_forall in Hnan. apply Hnan.
      now apply (top10_incl flt snd).
Qed.

(** The theorem at three records of two states: the state with the larger
    total comes first. *)
Lemma top_ten_lists_witness :
  exists r,
    get_detailed_analytics
      [funded "Abia" "1,000"; funded "Bauchi" "2,500.50";
       funded "Abia" "250"] = Ok r
    /\ Report.funding_by_state (Report.funding r)
       = [("Bauchi"%string, FFin (5001 # 2)); ("Abia"%string, FFin 1250)]
    /\ StronglySorted (fun x y => fle (snd y) (snd x) = true)
                      (Report.funding_by_state (Report.funding r)).
Proof.
  eexists. split; [reflexivity|]. split; [reflexivity|].
  refine (proj2 (proj2 (proj2 (proj2
    (top_ten_lists
       [funded "Abia" "1,000"; funded "Bauchi" "2,500.50";
        funded "Abia" "250"] _ eq_refl))) _)).
  repeat constructor; discriminate.
Defined.

End TopTenFacts.

(** * The outcomes of the predictor *)

Module PredictFacts.

Import PyStr PyNum PyVal Submission AIService Props MoreProps.

Local Open Scope string_scope.

(** Whenever [predict_facility_needs] returns, its answer is one of the 32
    outcomes, the one of the rules that fire on the record. *)
Lemma predict_facility_needs_outcome d p :
  predict_facility_needs d = Ok p ->
  p = outcome (poor_condition d) (short_of_staff d) (short_of_funds d)
              (lacks "has_power" "power_available" d)
              (lacks "has_water" "water_available" d).
Proof.
  unfold predict_facility_needs, condition_rule, poor_condition, condition_of.
  destruct (get_or (VStr "") "facility_condition" d) as [| | | |c| |];
    cbn [lower_of bind]; try discriminate.
  unfold staffing_rule, short_of_staff.
  set (cflag := mem (lower c) ["poor"; "critical"]).
  assert (E1 : (if cflag
                then note (Some "Poor facility condition")
                       "Infrastructure improvement"
                       "Prioritize facility rehabilitation"
                       (escalate {| priority_level := "medium";
                                    predicted_needs := [];
                                    risk_factors := [];
                                    recommendations := [] |})
                else {| priority_level := "medium"; predicted_needs := [];
                        risk_factors := []; recommendations := [] |})
               = outcome cflag false false false false)
    by (destruct cflag; reflexivity).
  rewrite E1. clear E1.
  assert (tail : forall sflag,
             infrastructure_rule d
               (funding_rule d (outcome cflag sflag false false false))
             = outcome cflag sflag (short_of_funds d)
                 (lacks "has_power" "power_available" d)
                 (lacks "has_water" "water_available" d)).
  { intros sflag. unfold infrastructure_rule, funding_rule, short_of_funds,
      lacks.
    destruct (get_or (VDict []) "funding_data" d);
      destruct (get_or (VDict []) "infrastructure_data" d);
      cbv zeta;
      repeat match goal with
        | |- context [negb ?b] => destruct (negb b)
        end;
      destruct cflag, sflag; reflexivity. }
  destruct (get_or (VDict []) "human_resources_data" d) as [| | | | | |items];
    cbn [bind]; try (intros [= <-]; apply tail).
  destruct (staff_sum items) as [n|]; cbn [bind]; [|discriminate].
  intros [= <-].
  destruct (Z.ltb n 5); [|apply tail].
  rewrite <- tail. f_equal. f_equal. destruct cflag; reflexivity.
Qed.

Ltac flags :=
  match goal with
  | |- context [outcome ?c ?s ?f ?pw ?w] =>
      generalize c, s, f, pw, w;
      let c' := fresh "c" in
      let s' := fresh "s" in
      let f' := fresh "f" in
      let pw' := fresh "pw" in
      let w' := fresh "w" in
      intros c' s' f' pw' w'
  end.

(** X1.  Whenever [predict_facility_needs] returns, it lists as many
    recommendations as predicted needs, at most five of each and none twice,
    and at most three risk factors, never more than the needs; the priority
    is "high" exactly when "Poor facility condition" is among the risk
    factors. *)
Theorem predict_facility_needs_lists
  (d : pydict) (p : predictions)
  (returned : predict_facility_needs d = Ok p) :
  List.length (recommendations p) = List.length (predicted_needs p)
  /\ (List.length (predicted_needs p) <= 5)%nat
  /\ (List.length (risk_factors p) <= 3)%nat
  /\ (List.length (risk_factors p) <= List.length (predicted_needs p))%nat
  /\ NoDup (recommendations p)
  /\ NoDup (predicted_needs p)
  /\ NoDup (risk_factors p)
  /\ (priority_level p = "high"
      <-> In "Poor facility condition" (risk_factors p)).
Proof.
  rewrite (predict_facility_needs_outcome d p returned). flags.
  destruct c, s, f, pw, w; cbn;
    (split; [reflexivity|]); (split; [lia|]); (split; [lia|]);
    (split; [lia|]);
    (split; [repeat constructor; cbn; intuition discriminate|]);
    (split; [repeat constructor; cbn; intuition discriminate|]);
    (split; [repeat constructor; cbn; intuition discriminate|]);
    split; intros H; try reflexivity; try discriminate H; cbn in *;
    intuition discriminate.
Qed.

(** The theorem at a record in critical condition with two staff and no
    funding signal. *)
Lemma predict_facility_needs_lists_witness :
  exists p,
    predict_facility_needs
      (to_dict
         (with_funding (VDict [("bhcpf_received", VStr "Yes")])
            (with_human_resources (VDict [("staff", VInt 2)])
               (with_condition "Critical" blank)))) = Ok p
    /\ List.length (recommendations p) = List.length (predicted_needs p)
    /\ NoDup (recommendations p).
Proof.
  eexists. split; [reflexivity|].
  pose proof (predict_facility_needs_lists
                (to_dict
                   (with_funding (VDict [("bhcpf_received", VStr "Yes")])
                      (with_human_resources (VDict [("staff", VInt 2)])
                         (with_condition "Critical" blank))))
                _ eq_refl) as (H1 & _ & _ & _ & H2 & _).
  split; [exact H1|exact H2].
Defined.

(** *** Power and water *)

Lemma power_need_listed c s f pw w :
  In "Power supply" (predicted_needs (outcome c s f pw w)) <-> pw = true.
Proof.
  destruct c, s, f, pw, w; cbn; split; intros H; try reflexivity;
    try discriminate H; intuition discriminate.
Qed.

Lemma water_need_listed c s f pw w :
  In "Water supply" (predicted_needs (outcome c s f pw w)) <-> w = true.
Proof.
  destruct c, s, f, pw, w; cbn; split; intros H; try reflexivity;
    try discriminate H; intuition discriminate.
Qed.

Lemma get_infrastructure_data s :
  get_or (VDict []) "infrastructure_data" (to_dict s) = infrastructure_data s.
Proof. reflexivity. Qed.

Lemma infrastructure_step_dict s block i :
  infrastructure_data s = VDict block ->
  Dashboard.has_power (Dashboard.infrastructure_step s i)
  = Dashboard.incr_if (Dashboard.yes_or "has_power" "power_available" block)
                      (Dashboard.has_power i)
  /\ Dashboard.has_water (Dashboard.infrastructure_step s i)
     = Dashboard.incr_if
         (Dashboard.yes_or "has_water" "water_available" block)
         (Dashboard.has_water i).
Proof.
  intros E. unfold Dashboard.infrastructure_step. rewrite E.
  destruct block; split; reflexivity.
Qed.

(** X2.  For a record whose infrastructure block is a dict, the report and
    the predictor agree on power and on water: the aggregation counts the
    facility as having power exactly when [predict_facility_needs] does not
    list the need "Power supply", and likewise for water.  For a record
    whose infrastructure block is null they part: the facility is counted
    for neither, and no power or water need is predicted. *)
Theorem power_and_water_agree_on_a_dict
  (s : FormSubmission) (p : predictions)
  (returned : predict_facility_needs (to_dict s) = Ok p) :
  (forall block i,
     infrastructure_data s = VDict block ->
     let after := Dashboard.infrastructure_step s i in
     (In "Power supply" (predicted_needs p)
      -> Dashboard.has_power after = Dashboard.has_power i)
     /\ (~ In "Power supply" (predicted_needs p)
         -> Dashboard.has_power after = Dashboard.has_power i + 1)%Z
     /\ (In "Water supply" (predicted_needs p)
         -> Dashboard.has_water after = Dashboard.has_water i)
     /\ (~ In "Water supply" (predicted_needs p)
         -> Dashboard.has_water after = Dashboard.has_water i + 1)%Z)
  /\ (infrastructure_data s = VNone ->
      ~ In "Power supply" (predicted_needs p)
      /\ ~ In "Water supply" (predicted_needs p)
      /\ forall i, Dashboard.infrastructure_step s i = i).
Proof.
  rewrite (predict_facility_needs_outcome _ p returned).
  unfold lacks. rewrite get_infrastructure_data. split.
  - intros block i E. cbv zeta.
    destruct (infrastructure_step_dict s block i E) as (-> & ->).
    rewrite E. unfold Dashboard.yes_or, Dashboard.incr_if.
    destruct (eq_str (get "has_power" block) "Yes"
              || truthy (get "power_available" block))%bool;
      destruct (eq_str (get "has_water" block) "Yes"
                || truthy (get "water_available" block))%bool;
      cbn [negb]; (split; [|split; [|split]]); intros H;
      rewrite ?power_need_listed, ?water_need_listed in H;
      try discriminate H; try (exfalso; apply H; reflexivity); reflexivity.
  - intros E. rewrite E. rewrite power_need_listed, water_need_listed.
    split; [discriminate|split; [discriminate|]].
    intros i. unfold Dashboard.infrastructure_step. now rewrite E.
Qed.

(** The theorem at a record whose infrastructure block reports power and
    no water. *)
Lemma power_and_water_agree_on_a_dict_witness :
  let s :=
    {| id := 1; geopolitical_zone := None; state := None; lga := None;
       facility_name := None; assessment_type := None;
       has_health_workers := None; facility_condition := Some "good";
       ownership_type := None; latitude := None; longitude := None;
       funding_data := VNone; impact_funding_data := VNone;
       infrastructure_data := VDict [("has_power", VStr "Yes")];
       human_resources_data := VNone; services_data := VNone;
       satisfaction_survey_data := VNone; issues := None;
       comments := None |} in
  let after := Dashboard.infrastructure_step s (Dashboard.infra Dashboard.initial) in
  Dashboard.has_power after = 1%Z /\ Dashboard.has_water after = 0%Z.
Proof.
  intros s after.
  destruct (proj1 (power_and_water_agree_on_a_dict s _ eq_refl)
              [("has_power", VStr "Yes")]
              (Dashboard.infra Dashboard.initial) eq_refl)
    as (_ & Hp & Hw & _).
  split.
  - apply Hp. vm_compute. intros [H|[]]. discriminate H.
  - apply Hw. vm_compute. left. reflexivity.
Defined.

(** *** Workers *)

(** X3.  The aggregation reads a head count under a key that names staff,
    personnel or workers; [predict_facility_needs] reads keys that name
    staff or personnel only.  So for a record whose staff block has a single
    key naming workers alone, with a positive count [n], the report counts
    [n] staff and one facility with staff, while the prediction sums no
    staff at all and lists the risk factor "Insufficient staffing", however
    large [n] is. *)
Theorem workers_are_staff_to_the_report_only
  (key : string) (value : pyval) (n : Z)
  (workers : contains "worker" (lower key) = true)
  (no_staff : contains "staff" (lower key) = false)
  (no_personnel : contains "personnel" (lower key) = false)
  (parsed : Dashboard.count_of value = Ok n)
  (positive : (0 < n)%Z) :
  (forall h,
     let after := Dashboard.staffing_step (staffed key value) h in
     Dashboard.total_staff after = (Dashboard.total_staff h + n)%Z
     /\ Dashboard.facilities_with_staff after
        = (Dashboard.facilities_with_staff h + 1)%Z)
  /\ exists p,
      predict_facility_needs (to_dict (staffed key value)) = Ok p
      /\ In "Insufficient staffing" (risk_factors p).
Proof.
  split.
  - intros h. cbv zeta.
    rewrite (AnalyticsFacts.staffing_step_block
               (staffed key value) (key, value) [] h eq_refl).
    unfold staff_contributions.
    cbn [flat_map fst snd app Dashboard.has_any existsb].
    rewrite workers, no_staff, no_personnel, parsed.
    cbn [orb app sum_counts fold_right snd].
    destruct (Z.gtb_spec (n + 0) 0) as [_|H]; [|lia].
    cbn [Dashboard.total_staff Dashboard.facilities_with_staff].
    split; lia.
  - unfold predict_facility_needs, condition_rule, staffing_rule.
    change (get_or (VStr "") "facility_condition"
              (to_dict (staffed key value))) with (VStr "good").
    change (get_or (VDict []) "human_resources_data"
              (to_dict (staffed key value))) with (VDict [(key, value)]).
    cbn [lower_of bind staff_sum]. rewrite no_staff, no_personnel.
    cbn [orb bind]. eexists. split; [reflexivity|].
    vm_compute. left. reflexivity.
Qed.

(** The theorem at the staff block [{"health_workers": 20}]. *)
Lemma workers_are_staff_to_the_report_only_witness :
  Dashboard.total_staff
    (Dashboard.staffing_step (staffed "health_workers" (VInt 20))
       (Dashboard.hr Dashboard.initial)) = 20%Z
  /\ exists p,
      predict_facility_needs
        (to_dict (staffed "health_workers" (VInt 20))) = Ok p
      /\ In "Insufficient staffing" (risk_factors p).
Proof.
  destruct (workers_are_staff_to_the_report_only
              "health_workers" (VInt 20) 20
              eq_refl eq_refl eq_refl eq_refl eq_refl) as (H & Hp).
  split; [exact (proj1 (H (Dashboard.hr Dashboard.initial)))|exact Hp].
Defined.

End PredictFacts.

(** * Further facts on the text analysis *)

Module TextFacts.

Import PyStr PyNum PyVal Submission AIService Props MoreProps AnalyserFacts.

Local Open Scope string_scope.

Lemma in_occurring_hit keywords text :
  existsb (fun keyword => contains keyword text) keywords = true
  <-> exists w, In w keywords /\ Substring w text.
Proof.
  rewrite existsb_exists. split; intros (w & Hw & H); exists w;
    (split; [exact Hw|now apply contains_spec]).
Qed.

Lemma NoDup_map_filter {A B : Type} (f : A -> B) (p : A -> bool) l :
  NoDup (map f l) -> NoDup (map f (filter p l)).
Proof.
  induction l as [|x l IH]; cbn [map filter]; [trivial|].
  intros H. apply NoDup_cons_iff in H. destruct H as (Hx & Hl).
  destruct (p x); [|now apply IH].
  cbn [map]. constructor; [|now apply IH].
  intros Hin. apply Hx. apply in_map_iff in Hin.
  destruct Hin as (y & Hy & Hin). apply filter_In in Hin.
  apply in_map_iff. exists y. tauto.
Qed.

(** The topics before the fallback to "general". *)
Lemma matched_topics text t :
  In t (map fst
          (filter (fun tk => existsb (fun keyword => contains keyword text)
                                     (snd tk))
                  topic_keywords))
  <-> exists keywords w,
        In (t, keywords) topic_keywords /\ In w keywords /\ Substring w text.
Proof.
  rewrite in_map_iff. split.
  - intros ([t' keywords] & <- & H). apply filter_In in H.
    destruct H as (Hin & Hhit). cbn [snd] in Hhit.
    apply in_occurring_hit in Hhit. destruct Hhit as (w & Hw & Hsub).
    now exists keywords, w.
  - intros (keywords & w & Hin & Hw & Hsub). exists (t, keywords).
    split; [reflexivity|]. apply filter_In. split; [exact Hin|].
    cbn [snd]. apply in_occurring_hit. now exists w.
Qed.

(** X4.  For an input that is not empty, the topics of the analysis are
    exactly the categories one of whose keywords occurs in the lower-cased
    combined text, each once; when no keyword of any category occurs, the
    topics are the single "general".  The list is never empty. *)
Theorem topics_are_the_categories_met
  (enabled : bool) (issues comments : string)
  (nonempty : ~ (issues = "" /\ comments = "")) :
  let r := analyze_issues_and_comments enabled issues comments in
  let text := searched issues comments in
  let met t :=
    exists keywords w,
      In (t, keywords) topic_keywords /\ In w keywords /\ Substring w text in
  (forall t, In t (topics r)
             <-> met t \/ (t = "general" /\ forall t', ~ met t'))
  /\ NoDup (topics r)
  /\ topics r <> [].
Proof.
  intros r text met. subst r.
  rewrite (analyze_issues_and_comments_keywords _ _ _ nonempty).
  unfold _basic_text_analysis. fold (searched issues comments). fold text.
  destruct (Z.gtb _ _); [|destruct (Z.gtb _ _)]; cbn [topics];
    (set (raw := map fst (filter _ topic_keywords));
     assert (Hraw : forall t, In t raw <-> met t)
       by (intros t; apply matched_topics);
     assert (Hnd : NoDup raw)
       by (apply NoDup_map_filter; vm_compute;
           repeat constructor; cbn; intuition discriminate);
     destruct raw as [|t0 raw'];
     [ split; [|split; [repeat constructor; intros []|discriminate]];
       intros t; split;
       [ intros [<-|[]]; right; split; [reflexivity|];
         intros t' Ht'; now apply Hraw in Ht'
       | intros [Ht|(-> & _)]; [now apply Hraw in Ht|now left] ]
     | split; [|split; [exact Hnd|discriminate]];
       intros t; split;
       [ intros Ht; left; now apply Hraw
       | intros [Ht|(_ & Hnone)]; [now apply Hraw|];
         exfalso; apply (Hnone t0); apply Hraw; now left ] ]).
Qed.

(** The theorem at a complaint about the water pump and the nurses. *)
Lemma topics_are_the_categories_met_witness :
  topics (analyze_issues_and_comments false
            "Water pump broken" "Nurses left")
  = ["infrastructure"; "staffing"]
  /\ NoDup (topics (analyze_issues_and_comments false
                      "Water pump broken" "Nurses left")).
Proof.
  split; [reflexivity|].
  refine (proj1 (proj2
    (topics_are_the_categories_met false
       "Water pump broken" "Nurses left" _))).
  intros (H & _). discriminate H.
Defined.

(** *** Sentiment and priority *)

(** X5.  For an input that is not empty: when more positive than negative
    keywords occur the analysis is positive with priority "low"; when as
    many of each occur (none at all included) it is neutral with priority
    "medium".  Priority "high" is given only when more than three negative
    keywords occur and outnumber the positive ones, and priority "low"
    exactly when the sentiment is positive. *)
Theorem sentiment_follows_the_keyword_counts
  (enabled : bool) (issues comments : string)
  (nonempty : ~ (issues = "" /\ comments = "")) :
  let r := analyze_issues_and_comments enabled issues comments in
  let text := searched issues comments in
  let negative := List.length (occurring negative_keywords text) in
  let positive := List.length (occurring positive_keywords text) in
  ((negative < positive)%nat ->
   sentiment r = "positive" /\ priority r = "low")
  /\ (negative = positive ->
      sentiment r = "neutral" /\ priority r = "medium")
  /\ (priority r = "high" -> (3 < negative)%nat /\ (positive < negative)%nat)
  /\ (priority r = "low" <-> sentiment r = "positive").
Proof.
  intros r text negative positive. subst r.
  rewrite (analyze_issues_and_comments_keywords _ _ _ nonempty).
  unfold _basic_text_analysis. fold (searched issues comments). fold text.
  rewrite !hits_occurring. fold negative. fold positive.
  clearbody negative positive.
  destruct (Z.gtb_spec (Z.of_nat negative) (Z.of_nat positive));
    [destruct (Z.gtb_spec (Z.of_nat negative) 3)
    |destruct (Z.gtb_spec (Z.of_nat positive) (Z.of_nat negative))];
    cbn [sentiment priority];
    (split; [intros; try lia; now split|]);
    (split; [intros; try lia; now split|]);
    (split; [intros H'; try discriminate H'; split; lia|]);
    split; intros H'; try reflexivity; discriminate H'.
Qed.

(** The theorem at a note of praise. *)
Lemma sentiment_follows_the_keyword_counts_witness :
  let r :=
    analyze_issues_and_comments false "All equipment working" "excellent" in
  sentiment r = "positive" /\ priority r = "low".
Proof.
  refine (proj1
    (sentiment_follows_the_keyword_counts false
       "All equipment working" "excellent" _) _).
  - intros (H & _). discriminate H.
  - vm_compute. lia.
Defined.

(** *** The summary *)

Lemma length_append (a b : string) :
  String.length (a ++ b) = (String.length a + String.length b)%nat.
Proof. induction a as [|c a IH]; cbn; [reflexivity|now rewrite IH]. Qed.

Lemma length_take n (s : string) :
  String.length (take n s) = Nat.min n (String.length s).
Proof.
  revert s. induction n as [|n IH]; intros [|c s]; cbn; try reflexivity.
  now rewrite IH.
Qed.

Lemma take_all n (s : string) :
  (String.length s <= n)%nat -> take n s = s.
Proof.
  revert s. induction n as [|n IH]; intros [|c s]; cbn; try reflexivity.
  - lia.
  - intros H. rewrite IH; [reflexivity|lia].
Qed.

Lemma take_of_cut n (s t : string) :
  (n <= String.length s)%nat -> take n (take n s ++ t) = take n s.
Proof.
  revert s. induction n as [|n IH]; intros [|c s]; cbn; try reflexivity.
  - lia.
  - intros H. rewrite IH; [reflexivity|lia].
Qed.

Lemma summary_of_text text :
  let r := _basic_text_analysis text in
  ((String.length text <= 200)%nat -> summary r = text)
  /\ ((200 < String.length text)%nat ->
      summary r = take 200 text ++ "..."
      /\ String.length (summary r) = 203%nat)
  /\ (String.length (summary r) <= 203)%nat
  /\ take 200 (summary r) = take 200 text.
Proof.
  unfold _basic_text_analysis.
  destruct (Z.gtb _ _); [|destruct (Z.gtb _ _)]; cbn [summary];
    (destruct (Nat.ltb_spec 200 (String.length text)) as [Hlong|Hshort];
     [ assert (Hlen : String.length (take 200 text ++ "...") = 203%nat)
         by (rewrite length_append, length_take;
             change (String.length "...") with 3%nat; lia);
       split; [lia|]; split; [now split|]; split; [lia|];
       apply take_of_cut; lia
     | split; [reflexivity|]; split; [lia|]; split; [lia|reflexivity] ]).
Qed.

(** X6.  For an input that is not empty, the summary is the combined text
    itself (the two inputs joined by a blank and stripped, in their original
    case) when that has at most 200 characters, and its first 200
    characters followed by "..." otherwise; it never has more than 203
    characters. *)
Theorem summary_is_cut_at_200_characters
  (enabled : bool) (issues comments : string)
  (nonempty : ~ (issues = "" /\ comments = "")) :
  let r := analyze_issues_and_comments enabled issues comments in
  let text := strip (issues ++ " " ++ comments) in
  ((String.length text <= 200)%nat -> summary r = text)
  /\ ((200 < String.length text)%nat ->
      summary r = take 200 text ++ "..."
      /\ String.length (summary r) = 203%nat)
  /\ (String.length (summary r) <= 203)%nat
  /\ take 200 (summary r) = take 200 text.
Proof.
  cbv zeta.
  rewrite (analyze_issues_and_comments_keywords _ _ _ nonempty).
  apply summary_of_text.
Qed.

(** The theorem at a short note, which is its own summary. *)
Lemma summary_is_cut_at_200_characters_witness :
  summary (analyze_issues_and_comments false "  Roof leaks " "since May ")
  = "Roof leaks  since May".
Proof.
  refine (proj1
    (summary_is_cut_at_200_characters false "  Roof leaks " "since May " _)
    _).
  - intros (H & _). discriminate H.
  - vm_compute. lia.
Defined.

(** *** Blank input *)

Lemma list_ascii_of_append (a b : string) :
  list_ascii_of_string (a ++ b)
  = (list_ascii_of_string a ++ list_ascii_of_string b)%list.
Proof. induction a as [|c a IH]; cbn; [reflexivity|now rewrite IH]. Qed.

Lemma drop_while_all p l : forallb p l = true -> drop_while p l = [].
Proof.
  induction l as [|c l IH]; cbn; [reflexivity|].
  destruct (p c); [exact IH|discriminate].
Qed.

Lemma strip_blank (s : string) :
  forallb is_space (list_ascii_of_string s) = true -> strip s = "".
Proof.
  intros H. unfold strip, strip_list. now rewrite (drop_while_all _ _ H).
Qed.

(** X7.  An input made of blanks only, but not empty, is not taken for "no
    content": it is analysed as the empty text, which gives a neutral
    sentiment, priority "medium" (not "low"), the topic "general" and an
    empty summary. *)
Theorem blank_input_is_analysed_as_empty_text
  (enabled : bool) (issues comments : string)
  (blank_issues : forallb is_space (list_ascii_of_string issues) = true)
  (blank_comments : forallb is_space (list_ascii_of_string comments) = true)
  (nonempty : ~ (issues = "" /\ comments = "")) :
  analyze_issues_and_comments enabled issues comments
  = {| sentiment := "neutral";
       topics := ["general"];
       priority := "medium";
       insights := ["Detected neutral sentiment with 0 key topics"];
       summary := "" |}.
Proof.
  rewrite (analyze_issues_and_comments_keywords _ _ _ nonempty).
  rewrite strip_blank; [reflexivity|].
  rewrite !list_ascii_of_append, !forallb_app, blank_issues, blank_comments.
  reflexivity.
Qed.

(** The theorem at a text of three blanks, as [analyze_text] passes it. *)
Lemma blank_input_is_analysed_as_empty_text_witness :
  priority (AIInsights.analyze_text false "   ") = "medium"
  /\ priority (AIInsights.analyze_text false "") = "low".
Proof.
  split; [|reflexivity].
  unfold AIInsights.analyze_text.
  rewrite (blank_input_is_analysed_as_empty_text false "   " ""
             eq_refl eq_refl); [reflexivity|].
  intros (H & _). discriminate H.
Defined.

End TextFacts.

(** * The findings on a stored record *)

Module DetectFacts.

Import PyStr PyNum PyVal Submission AIService Props MoreProps.

Local Open Scope string_scope.

Lemma missing_if_unset s o field :
  get field (to_dict s) = of_opt_str o ->
  missing (to_dict s) field = map missing_finding (if_unset o field).
Proof.
  intros E. unfold missing, if_unset, present. rewrite E.
  now destruct (truthy (of_opt_str o)).
Qed.

Lemma critical_findings s :
  flat_map (missing (to_dict s))
           ["facility_name"; "state"; "lga"; "facility_condition"]
  = map missing_finding (unset_fields s).
Proof.
  cbn [flat_map]. unfold unset_fields. rewrite !map_app, app_nil_r.
  rewrite (missing_if_unset s (facility_name s)) by reflexivity.
  rewrite (missing_if_unset s (state s)) by reflexivity.
  rewrite (missing_if_unset s (lga s)) by reflexivity.
  rewrite (missing_if_unset s (facility_condition s)) by reflexivity.
  reflexivity.
Qed.

Lemma findings_on_a_record (s : FormSubmission) :
  detect_data_anomalies (to_dict s)
  = Ok (map missing_finding (unset_fields s)
        ++ misplaced s ++ contradictory s)%list.
Proof.
  unfold detect_data_anomalies. rewrite critical_findings.
  change (get "latitude" (to_dict s)) with (of_opt_float (latitude s)).
  change (get "longitude" (to_dict s)) with (of_opt_float (longitude s)).
  change (get "has_health_workers" (to_dict s))
    with (of_opt_str (has_health_workers s)).
  change (get_or (VDict []) "human_resources_data" (to_dict s))
    with (human_resources_data s).
  set (a1 := map missing_finding (unset_fields s)).
  assert (tail : forall a2 : list anomaly,
             match human_resources_data s with
             | VDict hr_data =>
                 if (eq_str (of_opt_str (has_health_workers s)) "No"
                     && existsb (fun kv => truthy (snd kv)) hr_data)%bool
                 then Ok (a2 ++ [inconsistency_finding])%list
                 else Ok a2
             | _ => Ok a2
             end = Ok (a2 ++ contradictory s)%list).
  { intros a2. unfold contradictory.
    destruct (human_resources_data s); try now rewrite app_nil_r.
    destruct (_ && _)%bool; [reflexivity|now rewrite app_nil_r]. }
  unfold inconsistency_finding in tail. unfold misplaced.
  destruct (latitude s) as [lat|]; cbn [of_opt_float truthy andb bind];
    [|now rewrite tail].
  destruct (longitude s) as [lon|]; cbn [of_opt_float truthy andb bind];
    [|rewrite andb_false_r; cbn [bind]; now rewrite tail].
  destruct (ftruthy lat); cbn [andb bind]; [|now rewrite tail].
  destruct (ftruthy lon); cbn [andb bind]; [|now rewrite tail].
  unfold outside_box, within. cbn [number_of bind].
  destruct (fle (FFin 4) lat && fle lat (FFin 14))%bool;
    cbn [negb bind orb].
  + destruct (fle (FFin 2) lon && fle lon (FFin 15))%bool;
      cbn [negb bind orb]; rewrite tail; [reflexivity|].
    now rewrite <- app_assoc.
  + rewrite tail. now rewrite <- app_assoc.
Qed.

(** X8.  On the dict of a stored record [detect_data_anomalies] always
    returns, and its findings are, in this order: one "missing_data" finding
    of high severity for each of facility_name, state, lga and
    facility_condition that is null or empty; one "invalid_location" finding
    when both coordinates are truthy and outside the box; one
    "inconsistency" finding when has_health_workers is "No" and the staff
    block is a dict with a truthy value.  There are at most six. *)
Theorem detect_data_anomalies_on_a_record (s : FormSubmission) :
  detect_data_anomalies (to_dict s)
  = Ok (map missing_finding (unset_fields s)
        ++ misplaced s ++ contradictory s)%list
  /\ (List.length (map missing_finding (unset_fields s)
                   ++ misplaced s ++ contradictory s)%list <= 6)%nat.
Proof.
  split; [apply findings_on_a_record|].
  - rewrite !length_app, length_map.
    assert (H1 : (List.length (unset_fields s) <= 4)%nat).
    { unfold unset_fields, if_unset. rewrite !length_app.
      destruct (present _), (present _), (present _), (present _);
        cbn; lia. }
    assert (H2 : (List.length (misplaced s) <= 1)%nat).
    { unfold misplaced. destruct (latitude s), (longitude s);
        try destruct (_ && _)%bool; cbn; lia. }
    assert (H3 : (List.length (contradictory s) <= 1)%nat).
    { unfold contradictory. destruct (human_resources_data s);
        try destruct (_ && _)%bool; cbn; lia. }
    lia.
Qed.

End DetectFacts.

(** * The insight views *)

Module InsightFacts.

Import PyStr PyNum PyVal Submission AIService AIInsights Props MoreProps.
Import PredictFacts DetectFacts.

Local Open Scope string_scope.

(** *** The at-risk list *)

Lemma priority_key_high x : is_high x = true -> priority_key x = 0%Z.
Proof. unfold is_high, priority_key. now intros ->. Qed.

Lemma priority_key_other x : is_high x = false -> priority_key x = 1%Z.
Proof. unfold is_high, priority_key. now intros ->. Qed.

Lemma insert_behind_high x highs others :
  is_high x = false ->
  Forall (fun y => is_high y = true) highs ->
  Forall (fun y => is_high y = false) others ->
  Dashboard.insert Z.ltb priority_key x (highs ++ others)
  = (highs ++ x :: others)%list.
Proof.
  intros Hx Hh Ho. induction Hh as [|y highs Hy Hh IH]; cbn [app].
  - destruct Ho as [|z others Hz Ho]; cbn [Dashboard.insert]; [reflexivity|].
    now rewrite (priority_key_other _ Hz), (priority_key_other _ Hx).
  - cbn [Dashboard.insert].
    rewrite (priority_key_high _ Hy), (priority_key_other _ Hx).
    cbn. now rewrite IH.
Qed.

Lemma insert_in_front x l :
  is_high x = true -> Dashboard.insert Z.ltb priority_key x l = x :: l.
Proof.
  intros Hx. destruct l as [|y l]; cbn [Dashboard.insert]; [reflexivity|].
  rewrite (priority_key_high _ Hx). unfold priority_key.
  now destruct (String.eqb _ _).
Qed.

(** Sorting by the priority key puts the high entries first and keeps the
    order within the two groups. *)
Lemma sort_by_priority l :
  Dashboard.sort_stable Z.ltb priority_key l
  = (filter is_high l ++ filter (fun x => negb (is_high x)) l)%list.
Proof.
  induction l as [|x l IH]; [reflexivity|].
  cbn [Dashboard.sort_stable fold_right filter].
  fold (Dashboard.sort_stable Z.ltb priority_key l). rewrite IH.
  destruct (is_high x) eqn:Hx; cbn [negb app].
  - now apply insert_in_front.
  - apply insert_behind_high; [exact Hx| |];
      apply Forall_forall; intros y Hy; apply filter_In in Hy;
      destruct Hy as (_ & Hy); [exact Hy|now apply negb_true_iff].
Qed.

Lemma at_risk_entries_listed subs entries :
  at_risk_entries subs = Ok entries ->
  Forall (fun x => AtRisk.priority x = "high"
                   \/ (0 < AtRisk.anomalies_count x)%Z) entries
  /\ (List.length entries <= List.length subs)%nat.
Proof.
  revert entries. induction subs as [|s subs IH]; intros entries;
    cbn [at_risk_entries].
  - intros [= <-]. split; [constructor|reflexivity].
  - destruct (predict_facility_needs _) as [p|]; cbn [bind];
      [|discriminate].
    destruct (detect_data_anomalies _) as [a|]; cbn [bind]; [|discriminate].
    destruct (at_risk_entries subs) as [rest|]; cbn [bind]; [|discriminate].
    destruct (IH rest eq_refl) as (IH1 & IH2).
    destruct (String.eqb_spec (priority_level p) "high") as [Hp|Hp];
      cbn [orb].
    + intros [= <-]. split; [|cbn [List.length]; lia].
      constructor; [now left|exact IH1].
    + destruct (Z.ltb_spec 0 (Z.of_nat (List.length a))) as [Ha|Ha].
      * intros [= <-]. split; [|cbn [List.length]; lia].
        constructor; [now right|exact IH1].
      * intros [= <-]. split; [exact IH1|cbn [List.length]; lia].
Qed.

(** X9.  Whenever [get_at_risk_facilities] returns, every facility it lists
    has priority "high" or at least one anomaly; the list holds the
    facilities of priority "high" first and the others behind them, each
    group in the order of the rows; and [total_at_risk] is the length of the
    list, which is at most the number of rows. *)
Theorem at_risk_list_is_high_first
  (submissions : list FormSubmission) (r : AtRisk.t)
  (returned : get_at_risk_facilities submissions = Ok r) :
  Forall (fun x => AtRisk.priority x = "high"
                   \/ (0 < AtRisk.anomalies_count x)%Z)
         (AtRisk.facilities r)
  /\ (exists entries,
        at_risk_entries submissions = Ok entries
        /\ AtRisk.facilities r
           = (filter is_high entries
              ++ filter (fun x => negb (is_high x)) entries)%list)
  /\ AtRisk.total_at_risk r = Z.of_nat (List.length (AtRisk.facilities r))
  /\ (AtRisk.total_at_risk r <= Z.of_nat (List.length submissions))%Z.
Proof.
  unfold get_at_risk_facilities in returned.
  destruct (at_risk_entries submissions) as [entries|] eqn:E;
    cbn [bind] in returned; [|discriminate].
  injection returned as <-. cbn [AtRisk.facilities AtRisk.total_at_risk].
  destruct (at_risk_entries_listed _ _ E) as (H1 & H2).
  rewrite sort_by_priority.
  split; [|split; [|split]].
  - apply Forall_app. split; apply Forall_forall; intros x Hx;
      apply filter_In in Hx; destruct Hx as (Hx & _);
      rewrite Forall_forall in H1; now apply H1.
  - now exists entries.
  - reflexivity.
  - rewrite length_app.
    pose proof (filter_length is_high entries) as Hlen.
    lia.
Qed.

(** The theorem at three rows: one in good condition with every critical
    column filled (not listed), one without a name, one in poor condition. *)
Lemma at_risk_list_is_high_first_witness :
  let named c :=
    {| id := 7; geopolitical_zone := None; state := Some "Kano";
       lga := Some "Dala"; facility_name := Some "Dala PHC";
       assessment_type := None; has_health_workers := None;
       facility_condition := Some c; ownership_type := None;
       latitude := None; longitude := None; funding_data := VNone;
       impact_funding_data := VNone; infrastructure_data := VNone;
       human_resources_data := VNone; services_data := VNone;
       satisfaction_survey_data := VNone; issues := None;
       comments := None |} in
  exists r,
    get_at_risk_facilities
      [named "good"; with_condition "fair" blank; named "Poor"] = Ok r
    /\ map AtRisk.condition (AtRisk.facilities r)
       = [Some "Poor"; Some "fair"]
    /\ AtRisk.total_at_risk r = 2%Z.
Proof.
  intros named. eexists. split; [reflexivity|]. split; [reflexivity|].
  exact (proj1 (proj2 (proj2
    (at_risk_list_is_high_first
       [named "good"; with_condition "fair" blank; named "Poor"]
       _ eq_refl)))).
Defined.

(** *** A record without a condition *)

Lemma predict_needs_a_condition s :
  facility_condition s = None ->
  predict_facility_needs (to_dict s) = Raise AttributeError.
Proof.
  intros E. unfold predict_facility_needs, condition_rule.
  change (get_or (VStr "") "facility_condition" (to_dict s))
    with (of_opt_str (facility_condition s)).
  now rewrite E.
Qed.

Lemma at_risk_entries_need_conditions subs s :
  In s subs -> facility_condition s = None ->
  exists e, at_risk_entries subs = Raise e.
Proof.
  intros Hin Hs. induction subs as [|s' subs IH]; [destruct Hin|].
  cbn [at_risk_entries].
  destruct (predict_facility_needs (to_dict s')) as [p|e] eqn:Ep;
    cbn [bind]; [|now exists e].
  destruct (detect_data_anomalies (to_dict s')) as [a|e]; cbn [bind];
    [|now exists e].
  destruct Hin as [->|Hin].
  - rewrite (predict_needs_a_condition _ Hs) in Ep. discriminate.
  - destruct (IH Hin) as (e & ->). now exists e.
Qed.

Lemma advise_from_needs_conditions subs s b :
  In s subs -> facility_condition s = None ->
  exists e, advise_from b subs = Raise e.
Proof.
  intros Hin Hs. revert b. induction subs as [|s' subs IH]; intros b;
    [destruct Hin|].
  cbn [advise_from].
  destruct (predict_facility_needs (to_dict s')) as [p|e] eqn:Ep;
    cbn [bind]; [|now exists e].
  destruct Hin as [->|Hin].
  - rewrite (predict_needs_a_condition _ Hs) in Ep. discriminate.
  - apply (IH Hin).
Qed.

(** X10.  A stored record whose facility_condition is null is flagged by
    [detect_data_anomalies] as missing that field, and makes
    [predict_facility_needs] raise [AttributeError]; so does its summary,
    and any set of rows that holds such a record makes both the at-risk list
    and the recommendations raise instead of answering. *)
Theorem a_null_condition_aborts_the_views
  (s : FormSubmission) (unset : facility_condition s = None) :
  (exists findings,
     detect_data_anomalies (to_dict s) = Ok findings
     /\ In (missing_finding "facility_condition") findings)
  /\ predict_facility_needs (to_dict s) = Raise AttributeError
  /\ (forall repr_of,
        generate_insights_summary repr_of (to_dict s) = Raise AttributeError)
  /\ (forall submissions,
        In s submissions ->
        (exists e, get_at_risk_facilities submissions = Raise e)
        /\ (exists e, get_ai_recommendations submissions = Raise e)).
Proof.
  split; [|split; [|split]].
  - eexists. split; [apply DetectFacts.findings_on_a_record|].
    apply in_or_app. left. apply in_map. unfold unset_fields.
    rewrite !in_app_iff. right. right. right.
    unfold if_unset. rewrite unset. now left.
  - now apply predict_needs_a_condition.
  - intros repr_of. unfold generate_insights_summary.
    now rewrite (predict_needs_a_condition _ unset).
  - intros subs Hin. split.
    + destruct (at_risk_entries_need_conditions subs s Hin unset) as (e & E).
      exists e. unfold get_at_risk_facilities. now rewrite E.
    + now apply advise_from_needs_conditions with s.
Qed.

(** The theorem at the record with every column null, among two rows. *)
Lemma a_null_condition_aborts_the_views_witness :
  get_at_risk_facilities [with_condition "good" blank; blank]
  = Raise AttributeError
  /\ exists e,
       get_ai_recommendations [with_condition "good" blank; blank] = Raise e.
Proof.
  split; [reflexivity|].
  exact (proj2 (proj2 (proj2 (proj2
    (a_null_condition_aborts_the_views blank eq_refl)))
    [with_condition "good" blank; blank] (or_intror (or_introl eq_refl)))).
Defined.

(** *** The buckets of recommendations *)

Lemma file_rehabilitation s b :
  file_advice s b "Prioritize facility rehabilitation"
  = {| Advice.infrastructure := Advice.infrastructure b;
       Advice.staffing := Advice.staffing b;
       Advice.funding := Advice.funding b;
       Advice.general :=
         (Advice.general b
          ++ [advice s "Prioritize facility rehabilitation"])%list |}.
Proof. reflexivity. Qed.

Lemma file_recruitment s b :
  file_advice s b "Recruit and train more staff"
  = {| Advice.infrastructure := Advice.infrastructure b;
       Advice.staffing :=
         (Advice.staffing b ++ [advice s "Recruit and train more staff"])
         %list;
       Advice.funding := Advice.funding b;
       Advice.general := Advice.general b |}.
Proof. reflexivity. Qed.

Lemma file_application s b :
  file_advice s b "Apply for BHCPF or IMPACT funding"
  = {| Advice.infrastructure := Advice.infrastructure b;
       Advice.staffing := Advice.staffing b;
       Advice.funding :=
         (Advice.funding b ++ [advice s "Apply for BHCPF or IMPACT funding"])
         %list;
       Advice.general := Advice.general b |}.
Proof. reflexivity. Qed.

Lemma file_power s b :
  file_advice s b "Install or repair power infrastructure"
  = {| Advice.infrastructure :=
         (Advice.infrastructure b
          ++ [advice s "Install or repair power infrastructure"])%list;
       Advice.staffing := Advice.staffing b;
       Advice.funding := Advice.funding b;
       Advice.general := Advice.general b |}.
Proof. reflexivity. Qed.

Lemma file_water s b :
  file_advice s b "Ensure reliable water access"
  = {| Advice.infrastructure :=
         (Advice.infrastructure b
          ++ [advice s "Ensure reliable water access"])%list;
       Advice.staffing := Advice.staffing b;
       Advice.funding := Advice.funding b;
       Advice.general := Advice.general b |}.
Proof. reflexivity. Qed.

Lemma file_outcome s b c st f pw w :
  fold_left (file_advice s) (recommendations (outcome c st f pw w)) b
  = {| Advice.infrastructure :=
         (Advice.infrastructure b
          ++ (if pw
              then [advice s "Install or repair power infrastructure"]
              else [])
          ++ (if w then [advice s "Ensure reliable water access"] else []))
         %list;
       Advice.staffing :=
         (Advice.staffing b
          ++ (if st then [advice s "Recruit and train more staff"] else []))
         %list;
       Advice.funding :=
         (Advice.funding b
          ++ (if f then [advice s "Apply for BHCPF or IMPACT funding"]
              else []))%list;
       Advice.general :=
         (Advice.general b
          ++ (if c then [advice s "Prioritize facility rehabilitation"]
              else []))%list |}.
Proof.
  destruct b as [bi bs bf bg].
  destruct c, st, f, pw, w;
    cbn [recommendations outcome app fold_left];
    rewrite ?file_rehabilitation, ?file_recruitment, ?file_application,
      ?file_power, ?file_water;
    cbn [Advice.infrastructure Advice.staffing Advice.funding
         Advice.general];
    rewrite ?app_nil_r, <- ?app_assoc; reflexivity.
Qed.

Lemma advise_from_buckets subs b b' :
  advise_from b subs = Ok b' ->
  b' = {| Advice.infrastructure :=
            (Advice.infrastructure b
             ++ flat_map
                  (fun s =>
                     advised (lacks "has_power" "power_available")
                             "Install or repair power infrastructure" s
                     ++ advised (lacks "has_water" "water_available")
                                "Ensure reliable water access" s)
                  subs)%list;
          Advice.staffing :=
            (Advice.staffing b
             ++ flat_map (advised short_of_staff
                                  "Recruit and train more staff") subs)%list;
          Advice.funding :=
            (Advice.funding b
             ++ flat_map (advised short_of_funds
                                  "Apply for BHCPF or IMPACT funding") subs)
            %list;
          Advice.general :=
            (Advice.general b
             ++ flat_map (advised poor_condition
                                  "Prioritize facility rehabilitation") subs)
            %list |}.
Proof.
  revert b. induction subs as [|s subs IH]; intros b; cbn [advise_from].
  - intros [= <-]. cbn [flat_map]. rewrite !app_nil_r. now destruct b.
  - destruct (predict_facility_needs (to_dict s)) as [p|] eqn:Ep;
      cbn [bind]; [|discriminate].
    intros H. apply IH in H. rewrite H. clear H.
    rewrite (predict_facility_needs_outcome _ _ Ep), file_outcome.
    cbn [Advice.infrastructure Advice.staffing Advice.funding
         Advice.general flat_map].
    unfold advised at 1 3 5 7 9. rewrite <- !app_assoc. reflexivity.
Qed.

(** X11.  Whenever [get_ai_recommendations] returns, its four buckets are
    settled by the rules that fire on each row, in the order of the rows:
    "general" holds "Prioritize facility rehabilitation" for every row in
    poor or critical condition, "staffing" holds "Recruit and train more
    staff" for every row short of staff, "funding" holds "Apply for BHCPF or
    IMPACT funding" for every row without the funding signal, and
    "infrastructure" holds the power and the water recommendation of every
    row that lacks them; no bucket holds anything else. *)
Theorem recommendations_are_filed_by_rule
  (submissions : list FormSubmission) (b : Advice.t)
  (returned : get_ai_recommendations submissions = Ok b) :
  Advice.general b
  = flat_map (advised poor_condition "Prioritize facility rehabilitation")
             submissions
  /\ Advice.staffing b
     = flat_map (advised short_of_staff "Recruit and train more staff")
                submissions
  /\ Advice.funding b
     = flat_map (advised short_of_funds "Apply for BHCPF or IMPACT funding")
                submissions
  /\ Advice.infrastructure b
     = flat_map
         (fun s =>
            advised (lacks "has_power" "power_available")
                    "Install or repair power infrastructure" s
            ++ advised (lacks "has_water" "water_available")
                       "Ensure reliable water access" s)%list
         submissions.
Proof.
  apply advise_from_buckets in returned. rewrite returned.
  repeat split.
Qed.

(** The theorem at a row in poor condition: its rehabilitation advice is
    filed under "general", not under "infrastructure". *)
Lemma recommendations_are_filed_by_rule_witness :
  exists b,
    get_ai_recommendations [with_condition "poor" blank] = Ok b
    /\ Advice.general b
       = [advice (with_condition "poor" blank)
                 "Prioritize facility rehabilitation"]
    /\ Advice.infrastructure b = [].
Proof.
  eexists. split; [reflexivity|].
  destruct (recommendations_are_filed_by_rule
              [with_condition "poor" blank] _ eq_refl)
    as (Hg & _ & _ & Hi).
  split; [exact Hg|exact Hi].
Defined.

(** *** The summary *)

Lemma shown_of_column repr_of o :
  shown repr_of (of_opt_str o) = shown_column o.
Proof. now destruct o. Qed.

(** X12.  Whenever [generate_insights_summary] returns on the dict of a
    stored record, the record has a facility_condition [c], and the text is
    "Facility: <name> in <state>", then "Condition: <c>", then at most three
    further clauses, joined by ". " and closed by "."; a null name or state
    is written "None" (the defaults "Unknown Facility" and "Unknown State"
    are never used, as [to_dict] binds every key), and the text does not
    depend on how floats or containers are printed. *)
Theorem insights_summary_of_a_record
  (repr_of : pyval -> string) (s : FormSubmission) (text : string)
  (returned : generate_insights_summary repr_of (to_dict s) = Ok text) :
  exists c clauses,
    facility_condition s = Some c
    /\ text
       = join ". "
           (("Facility: " ++ shown_column (facility_name s) ++ " in "
             ++ shown_column (state s))
            :: ("Condition: " ++ c) :: clauses) ++ "."
    /\ (List.length clauses <= 3)%nat
    /\ forall repr_of',
         generate_insights_summary repr_of' (to_dict s) = Ok text.
Proof.
  destruct (facility_condition s) as [c|] eqn:Ec.
  2:{ unfold generate_insights_summary in returned.
      rewrite (predict_needs_a_condition _ Ec) in returned.
      discriminate returned. }
  unfold generate_insights_summary in returned.
  change (get_or (VStr "Unknown Facility") "facility_name" (to_dict s))
    with (of_opt_str (facility_name s)) in returned.
  change (get_or (VStr "Unknown State") "state" (to_dict s))
    with (of_opt_str (state s)) in returned.
  change (get_or (VStr "Unknown") "facility_condition" (to_dict s))
    with (of_opt_str (facility_condition s)) in returned.
  rewrite Ec, !shown_of_column in returned.
  destruct (predict_facility_needs (to_dict s)) as [p|] eqn:Ep;
    cbn [bind] in returned; [|discriminate].
  destruct (detect_data_anomalies (to_dict s)) as [a|] eqn:Ea;
    cbn [bind] in returned; [|discriminate].
  cbv zeta in returned. injection returned as <-.
  exists c. eexists. split; [reflexivity|]. split; [reflexivity|]. split.
  - rewrite !length_app.
    destruct (risk_factors p), (predicted_needs p), a; cbn; lia.
  - intros r. unfold generate_insights_summary.
    change (get_or (VStr "Unknown Facility") "facility_name" (to_dict s))
      with (of_opt_str (facility_name s)).
    change (get_or (VStr "Unknown State") "state" (to_dict s))
      with (of_opt_str (state s)).
    change (get_or (VStr "Unknown") "facility_condition" (to_dict s))
      with (of_opt_str (facility_condition s)).
    rewrite Ec, !shown_of_column, Ep, Ea. reflexivity.
Qed.

(** The theorem at a record in poor condition with no name and no state. *)
Lemma insights_summary_of_a_record_witness :
  generate_insights_summary (fun _ => "") (to_dict (with_condition "Poor" blank))
  = Ok "Facility: None in None. Condition: Poor. Risk Factors: Poor facility condition. Predicted Needs: Infrastructure improvement. Data Quality Issues: 3 anomalies detected."
  /\ forall repr_of,
       generate_insights_summary repr_of (to_dict (with_condition "Poor" blank))
       = Ok "Facility: None in None. Condition: Poor. Risk Factors: Poor facility condition. Predicted Needs: Infrastructure improvement. Data Quality Issues: 3 anomalies detected.".
Proof.
  split; [reflexivity|].
  destruct (insights_summary_of_a_record (fun _ => "")
              (with_condition "Poor" blank) _ eq_refl)
    as (c & clauses & _ & _ & _ & H).
  exact H.
Defined.

(** *** The insights of one row *)

Lemma summary_whatever_repr repr_of repr_of' s :
  generate_insights_summary repr_of (to_dict s)
  = generate_insights_summary repr_of' (to_dict s).
Proof.
  unfold generate_insights_summary.
  change (get_or (VStr "Unknown Facility") "facility_name" (to_dict s))
    with (of_opt_str (facility_name s)).
  change (get_or (VStr "Unknown State") "state" (to_dict s))
    with (of_opt_str (state s)).
  change (get_or (VStr "Unknown") "facility_condition" (to_dict s))
    with (of_opt_str (facility_condition s)).
  rewrite !shown_of_column. reflexivity.
Qed.

Lemma missing_condition_is_empty s c :
  facility_condition s = Some c ->
  In (missing_finding "facility_condition")
     (map missing_finding (unset_fields s) ++ misplaced s ++ contradictory s) ->
  c = "".
Proof.
  intros Ec HIn. apply in_app_or in HIn. destruct HIn as [HIn|HIn].
  - apply in_map_iff in HIn. destruct HIn as (f & Ef & HIn).
    apply (f_equal field) in Ef. cbn [field missing_finding] in Ef.
    subst f. unfold unset_fields in HIn. rewrite !in_app_iff in HIn.
    unfold if_unset in HIn.
    destruct HIn as [HIn|[HIn|[HIn|HIn]]].
    + destruct (present (facility_name s)); [destruct HIn|].
      destruct HIn as [E|[]]. discriminate E.
    + destruct (present (state s)); [destruct HIn|].
      destruct HIn as [E|[]]. discriminate E.
    + destruct (present (lga s)); [destruct HIn|].
      destruct HIn as [E|[]]. discriminate E.
    + rewrite Ec in HIn.
      change (present (Some c)) with (negb (String.eqb c "")) in HIn.
      destruct (String.eqb_spec c ""); [assumption|destruct HIn].
  - exfalso. apply in_app_or in HIn. destruct HIn as [HIn|HIn].
    + unfold misplaced in HIn.
      destruct (latitude s), (longitude s); try destruct HIn.
      destruct (_ && _)%bool; [|destruct HIn].
      destruct HIn as [E|[]]. discriminate E.
    + unfold contradictory in HIn.
      destruct (human_resources_data s); try destruct HIn.
      destruct (_ && _)%bool; [|destruct HIn].
      destruct HIn as [E|[]]. discriminate E.
Qed.

(** X20 ([get_submission_insights]).  Whenever the endpoint answers, a row
    was found and its facility_condition is not null: a row with a null
    condition never gets insights.  The answer carries the id asked for,
    and its anomalies are the findings on the row; the finding "Missing
    critical field: facility_condition" can be among them only for a
    condition that is the empty string.  A falsy survey block is analysed as
    the empty dict, so its analysis has no "total_responses".  The answer
    does not depend on how floats or containers are printed. *)
Theorem insights_of_a_row
  (repr_of : pyval -> string) (enabled : bool) (n : Z)
  (found : option FormSubmission) (r : Insights.t)
  (answered : get_submission_insights repr_of enabled n found = Answer r) :
  exists s c,
    found = Some s
    /\ facility_condition s = Some c
    /\ Insights.submission_id r = n
    /\ Insights.anomalies (Insights.analysis r)
       = (map missing_finding (unset_fields s)
          ++ misplaced s ++ contradictory s)%list
    /\ (In (missing_finding "facility_condition")
           (Insights.anomalies (Insights.analysis r)) -> c = "")
    /\ (truthy (satisfaction_survey_data s) = false ->
        Survey.total_responses
          (Insights.satisfaction_analysis (Insights.analysis r)) = None)
    /\ forall repr_of',
         get_submission_insights repr_of' enabled n found = Answer r.
Proof.
  destruct found as [s|]; [|discriminate answered].
  assert (whatever : forall repr_of',
            get_submission_insights repr_of' enabled n (Some s) = Answer r).
  { intros repr_of'. rewrite <- answered. unfold get_submission_insights.
    now rewrite (summary_whatever_repr repr_of' repr_of s). }
  unfold get_submission_insights in answered. cbv zeta in answered.
  destruct (analyze_patient_satisfaction _) as [sa|] eqn:Es;
    cbn [bind] in answered; [|discriminate answered].
  destruct (predict_facility_needs (to_dict s)) as [p|] eqn:Ep;
    cbn [bind] in answered; [|discriminate answered].
  rewrite findings_on_a_record in answered. cbn [bind] in answered.
  destruct (generate_insights_summary repr_of (to_dict s)) as [text|];
    cbn [bind] in answered; [|discriminate answered].
  injection answered as <-.
  destruct (facility_condition s) as [c|] eqn:Ec.
  2:{ rewrite (predict_needs_a_condition _ Ec) in Ep. discriminate Ep. }
  exists s, c.
  cbn [Insights.submission_id Insights.analysis Insights.anomalies
       Insights.satisfaction_analysis].
  split; [reflexivity|]. split; [exact Ec|]. split; [reflexivity|].
  split; [reflexivity|]. split; [now apply missing_condition_is_empty|].
  split; [|exact whatever].
  intros falsy. unfold or_empty_dict in Es. rewrite falsy in Es.
  injection Es as <-. reflexivity.
Qed.

(** The theorem at a row in good condition with an empty survey block. *)
Lemma insights_of_a_row_witness :
  exists r,
    get_submission_insights (fun _ => "") false 7
      (Some (with_condition "Good" blank)) = Answer r
    /\ Insights.submission_id r = 7%Z
    /\ List.length (Insights.anomalies (Insights.analysis r)) = 3%nat
    /\ Survey.total_responses
         (Insights.satisfaction_analysis (Insights.analysis r)) = None.
Proof.
  eexists. split; [reflexivity|].
  destruct (insights_of_a_row (fun _ => "") false 7
              (Some (with_condition "Good" blank)) _ eq_refl)
    as (s & c & _ & _ & Hid & _ & _ & _ & _).
  split; [exact Hid|]. split; reflexivity.
Defined.

End InsightFacts.

(** * The satisfaction analysis *)

Module SurveyFacts.

Import PyStr PyNum PyVal Submission AIService Props MoreProps NumFacts.

Local Open Scope string_scope.

Lemma Qle_bool_false a b : Qle_bool a b = false <-> (b < a)%Q.
Proof.
  rewrite <- Qltb_lt. unfold Qltb.
  destruct (Qle_bool a b) eqn:E.
  - apply Qle_bool_iff in E. split; [discriminate|].
    destruct (Qcompare_spec b a) as [H|H|H]; try discriminate.
    exfalso. apply (Qlt_irrefl a). now apply Qle_lt_trans with b.
  - split; [intros _|reflexivity].
    destruct (Qcompare_spec b a) as [H|H|H]; try reflexivity; exfalso.
    + assert (Qle_bool a b = true)
        by (apply Qle_bool_iff; rewrite H; apply Qle_refl).
      congruence.
    + assert (Qle_bool a b = true)
        by (apply Qle_bool_iff; now apply Qlt_le_weak).
      congruence.
Qed.

Definition bit (b : bool) : nat := if b then 1%nat else 0%nat.

(** A score falls in exactly one of the four classes, or is NaN. *)
Lemma one_class s :
  (bit (nge s 4.5) + bit (nge s 3.5 && nlt s 4.5)
   + bit (nge s 2.5 && nlt s 3.5) + bit (nlt s 2.5)
   + bit (is_nan_score s) = 1)%nat.
Proof.
  unfold nge, nlt.
  assert (finite : forall q,
            (bit (fle (FFin 4.5) (FFin q))
             + bit (fle (FFin 3.5) (FFin q) && flt (FFin q) (FFin 4.5))
             + bit (fle (FFin 2.5) (FFin q) && flt (FFin q) (FFin 3.5))
             + bit (flt (FFin q) (FFin 2.5)) = 1)%nat).
  { intros q. cbn [fle flt].
    destruct (Qle_bool 4.5 q) eqn:E1;
      [apply Qle_bool_iff in E1|apply Qle_bool_false in E1];
      (destruct (Qle_bool 3.5 q) eqn:E2;
       [apply Qle_bool_iff in E2|apply Qle_bool_false in E2]);
      (destruct (Qle_bool 2.5 q) eqn:E3;
       [apply Qle_bool_iff in E3|apply Qle_bool_false in E3]);
      (destruct (Qltb q 4.5) eqn:E4;
       [apply Qltb_lt in E4|apply Qltb_ge in E4]);
      (destruct (Qltb q 3.5) eqn:E5;
       [apply Qltb_lt in E5|apply Qltb_ge in E5]);
      (destruct (Qltb q 2.5) eqn:E6;
       [apply Qltb_lt in E6|apply Qltb_ge in E6]);
      try reflexivity; exfalso; lra. }
  destruct s as [z|[q|[]|]]; cbn [value_of is_nan_score].
  - rewrite finite. reflexivity.
  - rewrite finite. reflexivity.
  - reflexivity.
  - reflexivity.
  - reflexivity.
Qed.

Lemma length_filter_bits {A : Type} (p : A -> bool) l :
  List.length (filter p l) = list_sum (map (fun x => bit (p x)) l).
Proof.
  induction l as [|x l IH]; [reflexivity|].
  cbn [filter map]. change (list_sum (?a :: ?r)) with (a + list_sum r)%nat.
  destruct (p x); cbn [List.length bit]; lia.
Qed.

Lemma classes_cover (scores : list pynum) :
  (tally_scores (fun s => nge s 4.5) scores
   + tally_scores (fun s => nge s 3.5 && nlt s 4.5)%bool scores
   + tally_scores (fun s => nge s 2.5 && nlt s 3.5)%bool scores
   + tally_scores (fun s => nlt s 2.5) scores
   + Z.of_nat (List.length (filter is_nan_score scores))
   = Z.of_nat (List.length scores))%Z.
Proof.
  unfold tally_scores. rewrite !length_filter_bits.
  induction scores as [|s scores IH]; [reflexivity|].
  cbn [map List.length].
  repeat match goal with
         | |- context [list_sum (?a :: ?r)] =>
             change (list_sum (a :: r)) with (a + list_sum r)%nat
         end.
  pose proof (one_class s). lia.
Qed.

(** X13 ([analyze_patient_satisfaction]).  For a non-empty survey block
    that is analysed, "total_responses" is the number of scores collected
    and every count of "score_distribution" is at least 0; the four counts
    add up to the responses less the scores that are NaN, which no class
    takes: a NaN score is counted as a response and filed under no class. *)
Theorem score_classes_cover_all_but_nan (d : pydict) (r : Survey.t)
    (nonempty : d <> [])
    (returned : analyze_patient_satisfaction (VDict d) = Ok r) :
  exists dist,
    Survey.score_distribution r = Some dist /\
    Survey.total_responses r
    = Some (Z.of_nat (List.length (survey_scores d))) /\
    (0 <= Survey.excellent dist /\ 0 <= Survey.good dist /\
     0 <= Survey.fair dist /\ 0 <= Survey.poor dist)%Z /\
    (Survey.excellent dist + Survey.good dist + Survey.fair dist
     + Survey.poor dist
     + Z.of_nat (List.length (filter is_nan_score (survey_scores d)))
     = Z.of_nat (List.length (survey_scores d)))%Z.
Proof.
  unfold analyze_patient_satisfaction in returned.
  destruct d as [|kv d]; [now destruct nonempty|].
  cbn [truthy negb] in returned.
  set (scores := survey_scores (kv :: d)) in *.
  destruct (match scores with
            | [] => Ok (NInt 0)
            | _ :: _ => _
            end) as [avg|e]; [|discriminate returned].
  cbn [bind] in returned.
  destruct (if nlt avg 3 then _ else _) as [ins recs].
  injection returned as <-. cbn [Survey.score_distribution
                                 Survey.total_responses].
  eexists. split; [reflexivity|]. split; [reflexivity|].
  cbn [Survey.excellent Survey.good Survey.fair Survey.poor].
  split; [|apply classes_cover].
  unfold tally_scores. repeat split; apply Nat2Z.is_nonneg.
Qed.

Lemma score_classes_cover_all_but_nan_witness :
  exists dist,
    Some {| Survey.excellent := 1; Survey.good := 0;
            Survey.fair := 0; Survey.poor := 1 |} = Some dist /\
    Some 3%Z = Some 3%Z /\
    (0 <= Survey.excellent dist /\ 0 <= Survey.good dist /\
     0 <= Survey.fair dist /\ 0 <= Survey.poor dist)%Z /\
    (Survey.excellent dist + Survey.good dist + Survey.fair dist
     + Survey.poor dist + 1 = 3)%Z.
Proof.
  exact (score_classes_cover_all_but_nan
           [("cleanliness", VInt 5); ("waiting_time", VStr "nan");
            ("staff_attitude", VStr " 2 ")]
           _ ltac:(discriminate) eq_refl).
Defined.

(** X14 ([analyze_patient_satisfaction]).  What the analysis does without a
    usable score.  A falsy block ([None], an empty dict, an empty string,
    0, ...) gets the early answer, which has neither "total_responses" nor
    "score_distribution".  A truthy block that is no dict raises
    [AttributeError].  A non-empty dict none of whose values is a number or
    a string [float] reads is rated 0 with 0 responses, and so is reported
    as below average with the advice to investigate. *)
Theorem survey_without_a_usable_score :
  (forall v, truthy v = false ->
     analyze_patient_satisfaction v
     = Ok {| Survey.average_score := NInt 0;
             Survey.total_responses := None;
             Survey.insights := [];
             Survey.recommendations := [];
             Survey.score_distribution := None |}) /\
  (forall v, truthy v = true -> (forall d, v <> VDict d) ->
     analyze_patient_satisfaction v = Raise AttributeError) /\
  (forall d, d <> [] -> survey_scores d = [] ->
     analyze_patient_satisfaction (VDict d)
     = Ok {| Survey.average_score := NInt 0;
             Survey.total_responses := Some 0%Z;
             Survey.insights := ["Patient satisfaction is below average"];
             Survey.recommendations :=
               ["Investigate service quality and patient experience"];
             Survey.score_distribution :=
               Some {| Survey.excellent := 0; Survey.good := 0;
                       Survey.fair := 0; Survey.poor := 0 |} |}).
Proof.
  split; [|split].
  - intros v falsy. unfold analyze_patient_satisfaction.
    rewrite falsy. reflexivity.
  - intros v true_v no_dict. unfold analyze_patient_satisfaction.
    rewrite true_v. cbn [negb].
    destruct v as [|b|z|f|s|l|d]; try reflexivity.
    now destruct (no_dict d).
  - intros d nonempty none. unfold analyze_patient_satisfaction.
    destruct d as [|kv d]; [now destruct nonempty|].
    cbn [truthy negb]. rewrite none. reflexivity.
Qed.

Lemma survey_without_a_usable_score_witness :
  analyze_patient_satisfaction (VStr "")
  = Ok {| Survey.average_score := NInt 0;
          Survey.total_responses := None;
          Survey.insights := [];
          Survey.recommendations := [];
          Survey.score_distribution := None |} /\
  analyze_patient_satisfaction (VList [VInt 4]) = Raise AttributeError /\
  analyze_patient_satisfaction
    (VDict [("overall", VStr "n/a"); ("note", VNone)])
  = Ok {| Survey.average_score := NInt 0;
          Survey.total_responses := Some 0%Z;
          Survey.insights := ["Patient satisfaction is below average"];
          Survey.recommendations :=
            ["Investigate service quality and patient experience"];
          Survey.score_distribution :=
            Some {| Survey.excellent := 0; Survey.good := 0;
                    Survey.fair := 0; Survey.poor := 0 |} |}.
Proof.
  destruct survey_without_a_usable_score as [falsy [no_dict no_score]].
  split; [|split].
  - apply falsy. reflexivity.
  - apply no_dict; [reflexivity|discriminate].
  - apply no_score; [discriminate|reflexivity].
Defined.

End SurveyFacts.

(** * What the aggregation counts *)

Module CountFacts.

Import PyStr PyNum PyVal Submission Dashboard Props MoreProps NumFacts
       RankFacts RangeFacts TopTenFacts.

Local Open Scope Z_scope.

(** *** Dictionaries *)

Lemma lookup_assign_same {V : Type} k (v : V) d :
  lookup k (assign k v d) = Some v.
Proof.
  induction d as [|[k' v'] d IH]; cbn [assign lookup].
  - now rewrite String.eqb_refl.
  - destruct (String.eqb k k') eqn:E; cbn [lookup].
    + now rewrite String.eqb_refl.
    + now rewrite E.
Qed.

Lemma lookup_assign_other {V : Type} k k' (v : V) d :
  k <> k' -> lookup k (assign k' v d) = lookup k d.
Proof.
  intros Hk. induction d as [|[k'' v'] d IH]; cbn [assign lookup].
  - destruct (String.eqb_spec k k'); [contradiction|reflexivity].
  - destruct (String.eqb_spec k' k'') as [<-|_]; cbn [lookup].
    + destruct (String.eqb_spec k k'); [contradiction|reflexivity].
    + now rewrite IH.
Qed.

Lemma keys_assign {V : Type} k (v : V) d :
  map fst (assign k v d)
  = match lookup k d with
    | Some _ => map fst d
    | None => (map fst d ++ [k])%list
    end.
Proof.
  induction d as [|[k' v'] d IH]; cbn [assign lookup map fst app];
    [reflexivity|].
  destruct (String.eqb_spec k k') as [<-|_]; cbn [map fst]; [reflexivity|].
  rewrite IH. now destruct (lookup k d).
Qed.

Lemma lookup_None_keys {V : Type} k (d : list (string * V)) :
  lookup k d = None -> ~ In k (map fst d).
Proof.
  induction d as [|[k' v'] d IH]; cbn [lookup map fst In]; [tauto|].
  destruct (String.eqb_spec k k') as [<-|Hk]; [discriminate|].
  intros H [E|HIn]; [now symmetry in E|now apply IH].
Qed.

Lemma NoDup_assign {V : Type} k (v : V) d :
  NoDup (map fst d) -> NoDup (map fst (assign k v d)).
Proof.
  intros Hd. rewrite keys_assign.
  destruct (lookup k d) eqn:E; [assumption|].
  apply (Permutation_NoDup (Permutation_cons_append (map fst d) k)).
  constructor; [now apply lookup_None_keys|assumption].
Qed.

Lemma In_lookup {V : Type} k (v : V) d :
  NoDup (map fst d) -> In (k, v) d -> lookup k d = Some v.
Proof.
  induction d as [|[k' v'] d IH]; cbn [map fst In lookup]; [tauto|].
  intros Hd [E|HIn].
  - injection E as -> ->. now rewrite String.eqb_refl.
  - inversion Hd as [|? ? Hk Hd']; subst.
    destruct (String.eqb_spec k k') as [<-|_]; [|now apply IH].
    exfalso. apply Hk. now apply (in_map fst) in HIn.
Qed.

(** *** The categorical tables *)

Lemma occurrences_nonnegative column k subs : 0 <= occurrences column k subs.
Proof. unfold occurrences, len. lia. Qed.

Lemma occurrences_app column k subs s :
  occurrences column k (subs ++ [s])
  = occurrences column k subs + (if has_value column k s then 1 else 0).
Proof.
  unfold occurrences, len. rewrite filter_app, length_app.
  cbn [filter]. destruct (has_value column k s); cbn [List.length]; lia.
Qed.

(** What [lookup] finds in the table of a column. *)
Definition expected (column : FormSubmission -> option string)
  (subs : list FormSubmission) (k : string) : option Z :=
  if (negb (String.eqb k "") && (0 <? occurrences column k subs))%bool
  then Some (occurrences column k subs)
  else None.

Lemma tally_column column subs :
  let table := fold_left (fun d s => tally (column s) d) subs [] in
  NoDup (map fst table) /\ forall k, lookup k table = expected column subs k.
Proof.
  cbv zeta. induction subs as [|s subs [IHd IHl]] using rev_ind.
  - split; [constructor|]. intros k. unfold expected.
    now rewrite Bool.andb_false_r.
  - rewrite fold_left_app. cbn [fold_left].
    set (table := fold_left _ subs []) in *.
    assert (same : forall k, has_value column k s = false ->
                     expected column (subs ++ [s]) k = expected column subs k).
    { intros k Hk. unfold expected. now rewrite occurrences_app, Hk, Z.add_0_r. }
    unfold tally. destruct (column s) as [v|] eqn:Ev.
    + change (present (Some v)) with (negb (String.eqb v "")).
      destruct (String.eqb_spec v "") as [->|Hv]; cbn [negb].
      * split; [assumption|]. intros k. rewrite IHl.
        destruct (String.eqb_spec k "") as [->|Hk].
        -- unfold expected. now rewrite String.eqb_refl.
        -- symmetry. apply same. unfold has_value. rewrite Ev.
           destruct (String.eqb_spec "" k); [now subst|reflexivity].
      * unfold add_to. split; [now apply NoDup_assign|]. intros k.
        destruct (String.eqb_spec k v) as [->|Hk].
        -- rewrite lookup_assign_same. unfold get_or. rewrite IHl.
           unfold expected. rewrite occurrences_app. unfold has_value.
           rewrite Ev, String.eqb_refl.
           pose proof (occurrences_nonnegative column v subs) as Hn.
           destruct (String.eqb_spec v ""); [contradiction|].
           cbn [negb andb].
           destruct (Z.ltb_spec 0 (occurrences column v subs));
             destruct (Z.ltb_spec 0 (occurrences column v subs + 1));
             try lia; f_equal; lia.
        -- rewrite lookup_assign_other by assumption. rewrite IHl.
           symmetry. apply same. unfold has_value. rewrite Ev.
           destruct (String.eqb_spec v k); [now subst|reflexivity].
    + split; [assumption|]. intros k. rewrite IHl. symmetry. apply same.
      unfold has_value. now rewrite Ev.
Qed.

Lemma scan_column (proj : accumulators -> list (string * Z))
  (column : FormSubmission -> option string) :
  (forall a s, proj (step a s) = tally (column s) (proj a)) ->
  forall subs a,
    proj (fold_left step subs a)
    = fold_left (fun d s => tally (column s) d) subs (proj a).
Proof.
  intros H subs. induction subs as [|s subs IH]; intros a; [reflexivity|].
  cbn [fold_left]. now rewrite IH, H.
Qed.

Lemma table_counts (proj : accumulators -> list (string * Z))
  (column : FormSubmission -> option string) subs :
  (forall a s, proj (step a s) = tally (column s) (proj a)) ->
  proj initial = [] ->
  counts_of column subs (proj (scan subs)).
Proof.
  intros H H0. unfold scan. rewrite (scan_column proj column H), H0.
  destruct (tally_column column subs) as [Hd Hl]. cbv zeta in Hd, Hl.
  split; [assumption|]. intros k n. split.
  - intros HIn. apply (In_lookup _ _ _ Hd) in HIn.
    rewrite Hl in HIn. unfold expected in HIn.
    destruct (String.eqb_spec k ""); cbn [negb andb] in HIn;
      [discriminate|].
    destruct (Z.ltb_spec 0 (occurrences column k subs));
      [|discriminate].
    injection HIn as <-. auto.
  - intros (Hk & Hn & ->). apply lookup_In. rewrite Hl. unfold expected.
    destruct (String.eqb_spec k ""); [contradiction|].
    cbn [negb andb].
    now destruct (Z.ltb_spec 0 (occurrences column k subs)); [|lia].
Qed.

(** X15 ([get_detailed_analytics]).  In every report the aggregation
    returns, the five categorical tables (condition, ownership, assessment
    type, health workers, geopolitical zone) list each non-empty value of
    their column exactly once, with the number of records that hold it; a
    null or empty value is listed nowhere. *)
Theorem categorical_tables_count_the_records
  (submissions : list FormSubmission) (r : Report.t)
  (returned : get_detailed_analytics submissions = Ok r) :
  let fa := Report.facility r in
  counts_of facility_condition submissions
            (entries (Report.condition_distribution fa))
  /\ counts_of ownership_type submissions
               (entries (Report.ownership_distribution fa))
  /\ counts_of assessment_type submissions
               (Report.assessment_type_distribution fa)
  /\ counts_of has_health_workers submissions
               (entries (Report.health_workers_distribution fa))
  /\ counts_of geopolitical_zone submissions
               (Report.geopolitical_zone_distribution fa).
Proof.
  take_apart returned. cbv zeta.
  cbn [Report.facility Report.condition_distribution
       Report.ownership_distribution Report.assessment_type_distribution
       Report.health_workers_distribution
       Report.geopolitical_zone_distribution].
  unfold entries.
  repeat match goal with
    | H : for_each (share_of _) (_ (cat _)) = Ok ?l |- _ =>
        rewrite (shares_entries _ _ _ H); clear H
    end.
  split; [|split; [|split; [|split]]].
  - apply (table_counts (fun a => condition_counts (cat a)));
      reflexivity.
  - apply (table_counts (fun a => ownership_counts (cat a)));
      reflexivity.
  - apply (table_counts (fun a => assessment_type_counts (cat a)));
      reflexivity.
  - apply (table_counts (fun a => has_health_workers_counts (cat a)));
      reflexivity.
  - apply (table_counts (fun a => zone_counts (cat a)));
      reflexivity.
Qed.

Lemma categorical_tables_count_the_records_witness :
  counts_of facility_condition samples [("Good"%string, 2); ("Poor"%string, 1)]
  /\ counts_of ownership_type samples []
  /\ counts_of assessment_type samples []
  /\ counts_of has_health_workers samples []
  /\ counts_of geopolitical_zone samples [("North West"%string, 2)].
Proof.
  exact (categorical_tables_count_the_records samples _ eq_refl).
Defined.

(** *** The counters *)

Lemma signalled_cons block k1 k2 s subs :
  signalled block k1 k2 (s :: subs)
  = incr_if (signals block k1 k2 s) (signalled block k1 k2 subs).
Proof.
  unfold signalled, len, incr_if. cbn [filter].
  destruct (signals block k1 k2 s); cbn [List.length]; lia.
Qed.

Lemma scan_counter (counter : accumulators -> Z) block k1 k2 :
  (forall a s,
     counter (step a s) = incr_if (signals block k1 k2 s) (counter a)) ->
  forall subs a,
    counter (fold_left step subs a)
    = counter a + signalled block k1 k2 subs.
Proof.
  intros H subs. induction subs as [|s subs IH]; intros a.
  - unfold signalled, len. cbn. lia.
  - cbn [fold_left]. rewrite IH, H, signalled_cons. unfold incr_if.
    destruct (signals block k1 k2 s); lia.
Qed.

Lemma counter_counts (counter : accumulators -> Z) block k1 k2 subs :
  (forall a s,
     counter (step a s) = incr_if (signals block k1 k2 s) (counter a)) ->
  counter initial = 0 ->
  counter (scan subs) = signalled block k1 k2 subs.
Proof.
  intros H H0. unfold scan. now rewrite (scan_counter _ _ _ _ H), H0.
Qed.

Lemma bhcpf_counter a s :
  bhcpf_facilities (fund (step a s))
  = incr_if (signals funding_data "bhcpf_received" "has_bhcpf" s)
            (bhcpf_facilities (fund a)).
Proof.
  cbn [step fund]. unfold funding_step, impact_step, bhcpf_step, signals.
  destruct (as_block (funding_data s)) as [d|];
    destruct (as_block (impact_funding_data s)) as [d'|];
    cbv zeta; try reflexivity;
    destruct (truthy (get "amount" d)); try reflexivity;
    destruct (amount_of _); reflexivity.
Qed.

Lemma impact_counter a s :
  impact_facilities (fund (step a s))
  = incr_if (signals impact_funding_data "received" "has_impact_funding" s)
            (impact_facilities (fund a)).
Proof.
  cbn [step fund]. unfold funding_step, impact_step, bhcpf_step, signals.
  destruct (as_block (funding_data s)) as [d|];
    destruct (as_block (impact_funding_data s)) as [d'|];
    cbv zeta; try reflexivity;
    destruct (truthy (get "amount" d)); try reflexivity;
    destruct (amount_of _); reflexivity.
Qed.

Ltac infrastructure_counter :=
  intros a s; cbn [step infra]; unfold infrastructure_step, signals;
  destruct (as_block (infrastructure_data s)); reflexivity.

(** X16 ([get_detailed_analytics]).  In every report the aggregation
    returns, each of the seven counters is the number of records whose
    block is a non-empty dict that binds the first key to "Yes" or the
    second key to a truthy value: BHCPF and IMPACT funding, power, water,
    internet, pharmacy and revitalization.  An amount that cannot be read
    does not keep a record out of the BHCPF count. *)
Theorem counters_count_the_records
  (submissions : list FormSubmission) (r : Report.t)
  (returned : get_detailed_analytics submissions = Ok r) :
  let fu := Report.funding r in
  let inf := Report.infrastructure r in
  Report.bhcpf_facilities fu
  = signalled funding_data "bhcpf_received" "has_bhcpf" submissions
  /\ Report.impact_facilities fu
     = signalled impact_funding_data "received" "has_impact_funding"
                 submissions
  /\ Report.facilities_with_power inf
     = signalled infrastructure_data "has_power" "power_available"
                 submissions
  /\ Report.facilities_with_water inf
     = signalled infrastructure_data "has_water" "water_available"
                 submissions
  /\ Report.facilities_with_internet inf
     = signalled infrastructure_data "has_internet" "internet_available"
                 submissions
  /\ Report.facilities_with_pharmacy inf
     = signalled infrastructure_data "has_pharmacy" "pharmacy_available"
                 submissions
  /\ Report.revitalized_facilities inf
     = signalled infrastructure_data "revitalization" "revitalized"
                 submissions.
Proof.
  take_apart returned. cbv zeta.
  cbn [Report.funding Report.infrastructure Report.bhcpf_facilities
       Report.impact_facilities Report.facilities_with_power
       Report.facilities_with_water Report.facilities_with_internet
       Report.facilities_with_pharmacy Report.revitalized_facilities].
  split; [|split; [|split; [|split; [|split; [|split]]]]].
  - apply (counter_counts (fun a => bhcpf_facilities (fund a)));
      [apply bhcpf_counter|reflexivity].
  - apply (counter_counts (fun a => impact_facilities (fund a)));
      [apply impact_counter|reflexivity].
  - apply (counter_counts (fun a => has_power (infra a)));
      [infrastructure_counter|reflexivity].
  - apply (counter_counts (fun a => has_water (infra a)));
      [infrastructure_counter|reflexivity].
  - apply (counter_counts (fun a => has_internet (infra a)));
      [infrastructure_counter|reflexivity].
  - apply (counter_counts (fun a => has_pharmacy (infra a)));
      [infrastructure_counter|reflexivity].
  - apply (counter_counts (fun a => revitalization_count (infra a)));
      [infrastructure_counter|reflexivity].
Qed.

Lemma counters_count_the_records_witness :
  exists r,
    get_detailed_analytics samples = Ok r
    /\ Report.bhcpf_facilities (Report.funding r) = 0
    /\ Report.impact_facilities (Report.funding r) = 0
    /\ Report.facilities_with_power (Report.infrastructure r) = 2
    /\ Report.facilities_with_water (Report.infrastructure r) = 0
    /\ Report.facilities_with_internet (Report.infrastructure r) = 0
    /\ Report.facilities_with_pharmacy (Report.infrastructure r) = 0
    /\ Report.revitalized_facilities (Report.infrastructure r) = 0.
Proof.
  eexists. split; [reflexivity|].
  exact (counters_count_the_records samples _ eq_refl).
Defined.

(** *** The satisfaction scores *)

Lemma concat_assign {V : Type} k (x : V) (d : list (string * list V)) :
  Permutation
    (List.concat (map snd (assign k (get_or [] k d ++ [x]) d)))
    (List.concat (map snd d) ++ [x]).
Proof.
  unfold get_or.
  induction d as [|[k' v'] d IH]; cbn [assign lookup map snd List.concat].
  - reflexivity.
  - destruct (String.eqb k k'); cbn [map snd List.concat].
    + rewrite <- !app_assoc. apply Permutation_app_head.
      apply Permutation_app_comm.
    + rewrite <- app_assoc. now apply Permutation_app_head.
Qed.

Lemma satisfaction_item_filed s kv :
  filed_by_category s -> filed_by_category (satisfaction_item s kv).
Proof.
  intros (Hd & Hn & Hp). destruct kv as [key value]. unfold satisfaction_item.
  destruct (has_any _ key); [|now repeat split].
  destruct (score_of value) as [score|]; [|now repeat split].
  unfold filed_by_category.
  cbn [satisfaction_scores satisfaction_by_category].
  split; [now apply NoDup_assign|split].
  - apply assign_Forall; [assumption|]. cbn [snd].
    now destruct (get_or [] (label key) (satisfaction_by_category s)).
  - rewrite concat_assign. now apply Permutation_app_tail.
Qed.

Lemma step_filed a s :
  filed_by_category (sat a) -> filed_by_category (sat (step a s)).
Proof.
  cbn [step sat]. unfold satisfaction_step.
  destruct (as_block (satisfaction_survey_data s)) as [d|]; [|trivial].
  generalize (sat a). induction d as [|kv d IH]; intros t Ht; [assumption|].
  cbn [fold_left]. apply IH. now apply satisfaction_item_filed.
Qed.

Lemma scan_filed subs : filed_by_category (sat (scan subs)).
Proof.
  unfold scan.
  assert (start : filed_by_category (sat initial)).
  { repeat split; constructor. }
  revert start. generalize initial.
  induction subs as [|s subs IH]; intros a Ha; [assumption|].
  cbn [fold_left]. apply IH. now apply step_filed.
Qed.

Lemma categories_of d l :
  for_each category_of d = Ok l ->
  map fst l = map fst d
  /\ responses_in l = len (List.concat (map snd d))
  /\ (Forall (fun kv => snd kv <> []) d ->
      Forall (fun kc => 1 <= Report.responses (snd kc)) l).
Proof.
  revert l. induction d as [|[k v] d IH]; intros l; cbn [for_each].
  - intros [= <-]. repeat split. constructor.
  - unfold category_of at 1. cbn [fst snd].
    destruct (mean v) as [m|]; cbn [bind]; [|discriminate].
    destruct (for_each category_of d) as [l'|]; cbn [bind]; [|discriminate].
    intros [= <-]. destruct (IH l' eq_refl) as (Hk & Hs & Hn).
    cbn [map fst snd List.concat responses_in fold_right Report.responses].
    split; [now rewrite Hk|split].
    + fold (responses_in l'). rewrite Hs. unfold len.
      rewrite length_app. lia.
    + intros Hd. inversion Hd as [|? ? Hv Hd']; subst. cbn [snd] in Hv.
      constructor; [|now apply Hn].
      cbn [snd Report.responses]. unfold len.
      destruct v; [contradiction|cbn [List.length]; lia].
Qed.

(** X17 ([get_detailed_analytics]).  Every satisfaction score the loop
    appends is filed under exactly one category: the scores are, up to
    order, those of the categories together.  So in every report the
    aggregation returns, the categories have distinct names, each has at
    least one response, and their responses add up to "total_responses". *)
Theorem scores_are_split_among_the_categories
  (submissions : list FormSubmission) (r : Report.t)
  (returned : get_detailed_analytics submissions = Ok r) :
  let sa := Report.satisfaction r in
  filed_by_category (sat (scan submissions))
  /\ NoDup (map fst (Report.scores_by_category sa))
  /\ Forall (fun kc => 1 <= Report.responses (snd kc))
            (Report.scores_by_category sa)
  /\ Report.total_responses sa = responses_in (Report.scores_by_category sa).
Proof.
  pose proof (scan_filed submissions) as filed.
  split; [exact filed|]. destruct filed as (Hd & Hn & Hp).
  take_apart returned.
  cbn [Report.satisfaction Report.scores_by_category Report.total_responses].
  match goal with
  | H : for_each category_of _ = Ok _ |- _ =>
      destruct (categories_of _ _ H) as (Hk & Hs & Hr)
  end.
  split; [now rewrite Hk|split; [now apply Hr|]].
  rewrite Hs. unfold len. now rewrite (Permutation_length Hp).
Qed.

Lemma scores_are_split_among_the_categories_witness :
  exists r,
    get_detailed_analytics samples = Ok r
    /\ filed_by_category (sat (scan samples))
    /\ NoDup (map fst (Report.scores_by_category (Report.satisfaction r)))
    /\ Forall (fun kc => 1 <= Report.responses (snd kc))
              (Report.scores_by_category (Report.satisfaction r))
    /\ Report.total_responses (Report.satisfaction r) = 3
    /\ map (fun kc => (fst kc, Report.responses (snd kc)))
           (Report.scores_by_category (Report.satisfaction r))
       = [("Overall Rating"%string, 2); ("Staff Score"%string, 1)].
Proof.
  eexists. split; [reflexivity|].
  destruct (scores_are_split_among_the_categories samples _ eq_refl)
    as (H1 & H2 & H3 & H4).
  repeat (split; [assumption|]). split; reflexivity.
Defined.

(** *** Failures *)

Lemma truediv_int_error a b e :
  b <> 0 -> truediv_int a b = Raise e -> e = OverflowError.
Proof.
  intros Hb. unfold truediv_int.
  destruct (Z.eqb_spec b 0); [contradiction|].
  cbv zeta. destruct (overflows _); [|discriminate]. now intros [= <-].
Qed.

Lemma percent_error v n e : percent v n = Raise e -> e = OverflowError.
Proof.
  unfold percent. destruct (Z.gtb_spec n 0) as [Hn|_]; cbn [bind];
    [|discriminate].
  destruct (truediv_int v n) eqn:E; cbn [bind]; [discriminate|].
  intros [= <-]. apply (truediv_int_error v n); [lia|assumption].
Qed.

Lemma average_int_error x n e :
  average_int x n = Raise e -> e = OverflowError.
Proof.
  unfold average_int. destruct (Z.gtb_spec n 0) as [Hn|_]; cbn [bind];
    [|discriminate].
  destruct (truediv_int x n) eqn:E; cbn [bind]; [discriminate|].
  intros [= <-]. apply (truediv_int_error x n); [lia|assumption].
Qed.

Lemma truediv_float_error x n e :
  0 < n -> truediv_float x n = Raise e -> e = OverflowError.
Proof.
  intros Hn. unfold truediv_float, float_of_Z.
  destruct (overflows (inject_Z n)); cbn [bind]; [now intros [= <-]|].
  unfold fdiv. destruct (Qeq_bool (inject_Z n) 0) eqn:E; [|discriminate].
  apply Qeq_bool_iff in E. exfalso.
  unfold Qeq in E. cbn [Qnum Qden inject_Z] in E. lia.
Qed.

Lemma average_float_error x n e :
  average_float x n = Raise e -> e = OverflowError.
Proof.
  unfold average_float. destruct (Z.gtb_spec n 0) as [Hn|_]; cbn [bind];
    [|discriminate].
  destruct (truediv_float x n) eqn:E; cbn [bind]; [discriminate|].
  intros [= <-]. now apply (truediv_float_error x n).
Qed.

Lemma mean_error l e : mean l = Raise e -> e = OverflowError.
Proof.
  unfold mean. destruct l as [|x l]; cbn [bind]; [discriminate|].
  destruct (truediv_float _ _) eqn:E; cbn [bind]; [discriminate|].
  intros [= <-]. apply (truediv_float_error _ _ _) in E; [assumption|].
  unfold len. cbn [List.length]. lia.
Qed.

Lemma for_each_error {A B : Type} (f : A -> res B) l e :
  for_each f l = Raise e -> exists x, In x l /\ f x = Raise e.
Proof.
  induction l as [|x l IH]; cbn [for_each]; [discriminate|].
  destruct (f x) as [y|e'] eqn:E; cbn [bind].
  - destruct (for_each f l) as [ys|e'']; cbn [bind]; [discriminate|].
    intros [= <-]. destruct (IH eq_refl) as (x' & HIn & Hx).
    exists x'. split; [now right|assumption].
  - intros [= <-]. exists x. split; [now left|assumption].
Qed.

Lemma shares_error n d e :
  for_each (share_of n) d = Raise e -> e = OverflowError.
Proof.
  intros H. apply for_each_error in H. destruct H as (kv & _ & H).
  unfold share_of in H.
  destruct (percent (snd kv) n) eqn:E; cbn [bind] in H; [discriminate|].
  injection H as <-. now apply (percent_error _ _ _ E).
Qed.

Lemma categories_error d e :
  for_each category_of d = Raise e -> e = OverflowError.
Proof.
  intros H. apply for_each_error in H. destruct H as (kv & _ & H).
  unfold category_of in H.
  destruct (mean (snd kv)) eqn:E; cbn [bind] in H; [discriminate|].
  injection H as <-. now apply (mean_error _ _ E).
Qed.

(** X18 ([get_detailed_analytics]).  The aggregation fails in one way only:
    with [OverflowError], when a quotient is too large for a [float].  No
    division is by zero, and what [int] or [float] cannot read is skipped
    in the loop.  One record with 10^400 patients makes it fail so. *)
Theorem get_detailed_analytics_fails_by_overflow_only
  (submissions : list FormSubmission) (e : exn)
  (failed : get_detailed_analytics submissions = Raise e) :
  e = OverflowError.
Proof.
  unfold get_detailed_analytics in failed. cbv zeta in failed.
  repeat match type of failed with
    | bind ?c _ = Raise _ =>
        let x := fresh "x" in
        let E := fresh "E" in
        destruct c as [x|] eqn:E; cbn [bind] in failed;
        [clear E
        |injection failed as <-;
         first [ exact (percent_error _ _ _ E)
               | exact (average_int_error _ _ _ E)
               | exact (average_float_error _ _ _ E)
               | exact (mean_error _ _ E)
               | exact (shares_error _ _ _ E)
               | exact (categories_error _ _ E) ]]
    end.
  discriminate failed.
Qed.

Lemma get_detailed_analytics_fails_by_overflow_only_witness :
  get_detailed_analytics [crowded] = Raise OverflowError
  /\ OverflowError = OverflowError.
Proof.
  assert (failed : get_detailed_analytics [crowded] = Raise OverflowError)
    by (vm_compute; reflexivity).
  split; [exact failed|].
  exact (get_detailed_analytics_fails_by_overflow_only [crowded] _ failed).
Defined.

End CountFacts.

(** * Integers written and read back *)

Module RoundTripFacts.

Import PyStr PyNum PyVal Submission Dashboard AIService Props MoreProps
       LiteralFacts.

Local Open Scope Z_scope.

Lemma has_any_staff k :
  has_any ["staff"; "personnel"; "worker"]%string k
  = (contains "staff" (lower k) || contains "personnel" (lower k)
     || contains "worker" (lower k))%bool.
Proof.
  unfold has_any. cbn [existsb].
  now rewrite Bool.orb_false_r, Bool.orb_assoc.
Qed.

(** X19 ([predict_facility_needs], [get_detailed_analytics]).  An integer
    is read back as itself: [int(str(z).split()[0])], the analyser's way,
    and [int(z)], the report's way, both give [z].  So on a staff block
    whose values are all integers, and where every key that names workers
    also names staff or personnel, the analyser's staff total is the sum
    the report adds up for the record, and the analyser does not raise. *)
Theorem integer_staff_is_read_back :
  (forall z, int_of_string (of_Z z) = Ok z)
  /\ (forall z, headcount (VInt z) = Ok z /\ count_of (VInt z) = Ok z)
  /\ (forall d : pydict,
        (forall k v, In (k, v) d -> exists z, v = VInt z) ->
        (forall k v, In (k, v) d ->
           contains "worker" (lower k) = true ->
           (contains "staff" (lower k)
            || contains "personnel" (lower k))%bool = true) ->
        staff_sum d = Ok (sum_counts (staff_contributions d))).
Proof.
  split; [exact int_of_string_of_Z|].
  split; [intros z; split; [apply headcount_of_int|reflexivity]|].
  intros d. induction d as [|[k v] d IH]; intros integers workers;
    [reflexivity|].
  destruct (integers k v (or_introl eq_refl)) as [z ->].
  assert (rest : staff_sum d = Ok (sum_counts (staff_contributions d))).
  { apply IH.
    - intros k' v' HIn. apply (integers k' v'). now right.
    - intros k' v' HIn. apply (workers k' v'). now right. }
  pose proof (workers k (VInt z) (or_introl eq_refl)) as worker.
  cbn [staff_sum]. unfold staff_contributions. cbn [flat_map fst snd].
  fold (staff_contributions d). rewrite has_any_staff.
  destruct (contains "staff" (lower k) || contains "personnel" (lower k))%bool
    eqn:E.
  - cbn [orb count_of]. rewrite headcount_of_int, rest. cbn [bind app].
    reflexivity.
  - cbn [orb].
    destruct (contains "worker" (lower k)) eqn:W;
      [now discriminate (worker eq_refl)|].
    cbn [app]. exact rest.
Qed.

Lemma integer_staff_is_read_back_witness :
  int_of_string (of_Z (-120)) = Ok (-120)
  /\ headcount (VInt 7) = Ok 7
  /\ staff_sum [("nurse_staff"%string, VInt 3);
                ("Health_Workers_Staff"%string, VInt 2);
                ("beds"%string, VInt 9)]
     = Ok 5.
Proof.
  destruct integer_staff_is_read_back as (back & read & total).
  split; [apply back|split; [apply (read 7)|]].
  apply (total [("nurse_staff"%string, VInt 3);
                ("Health_Workers_Staff"%string, VInt 2);
                ("beds"%string, VInt 9)]).
  - intros k v [E|[E|[E|[]]]]; injection E as <- <-; eexists; reflexivity.
  - intros k v [E|[E|[E|[]]]]; injection E as <- <-; vm_compute;
      solve [reflexivity|discriminate].
Defined.

End RoundTripFacts.
